(** * Voice financial assistant: extraction, query classification, ledger store

    A shallow embedding of [data_extractor.py], [query_analyzer.py] and
    [csv_manager.py].  Python text is modelled as [string] (ASCII text:
    the character classes [\d], [\s], [\w] and [str.lower] are the ASCII
    ones), Python [int] as [Z], Python [float] as IEEE binary64 through
    [spec_float], a raised exception as the [Raise] branch of [result],
    [datetime.now()] as an explicit argument [now], and the [re] module
    as a backtracking matcher over a pattern syntax tree that is obtained
    by parsing the very pattern strings of the source. *)

From Stdlib Require Import ZArith List Bool Ascii String Lia.
From Stdlib Require Import Floats.SpecFloat.
From stdpp Require Import base option strings gmap.

Import ListNotations.
Local Open Scope string_scope.
Local Open Scope list_scope.

(* ===================================================================== *)
(** ** Python results: a value or a raised exception *)

Inductive exn : Type :=
| ValueError
| TypeError
| KeyError
| OverflowError
| OSError
| AttributeError
| IndexError.

Inductive result (A : Type) : Type :=
| Ok (a : A)
| Raise (e : exn).

Arguments Ok {A} a.
Arguments Raise {A} e.

Definition rbind {A B : Type} (x : result A) (f : A -> result B) : result B :=
  match x with
  | Ok a => f a
  | Raise e => Raise e
  end.

Notation "'let!' x ':=' e 'in' k" := (rbind e (fun x => k))
  (at level 10, x pattern, e at level 100, k at level 200).

(** [try: e except Exception: h] *)
Definition try_except {A : Type} (e : result A) (h : exn -> result A) : result A :=
  match e with
  | Ok a => Ok a
  | Raise x => h x
  end.

(* ===================================================================== *)
(** ** Characters and strings *)

Module Chr.

Definition code (c : ascii) : N := N_of_ascii c.

Definition between (lo hi : N) (c : ascii) : bool :=
  (lo <=? code c)%N && (code c <=? hi)%N.

Definition is_digit (c : ascii) : bool := between 48 57 c.
Definition is_upper (c : ascii) : bool := between 65 90 c.
Definition is_lower (c : ascii) : bool := between 97 122 c.
Definition is_alpha (c : ascii) : bool := is_upper c || is_lower c.

(** [\w]: letters, digits and the underscore. *)
Definition is_word (c : ascii) : bool :=
  is_alpha c || is_digit c || (code c =? 95)%N.

(** [\s] and [str.isspace]: tab, newline, vertical tab, form feed, carriage
    return, the four separators 0x1c-0x1f and the space. *)
Definition is_space (c : ascii) : bool :=
  between 9 13 c || between 28 32 c.

Definition lower (c : ascii) : ascii :=
  if is_upper c then ascii_of_N (code c + 32) else c.

Definition upper (c : ascii) : ascii :=
  if is_lower c then ascii_of_N (code c - 32) else c.

Definition digit_val (c : ascii) : Z := Z.of_N (code c) - 48.

End Chr.

Module Str.

Definition chars (s : string) : list ascii := list_ascii_of_string s.
Definition of_chars (l : list ascii) : string := string_of_list_ascii l.

(** [s.lower()] *)
Definition lower (s : string) : string := of_chars (map Chr.lower (chars s)).

Fixpoint lstrip_chars (l : list ascii) : list ascii :=
  match l with
  | c :: l' => if Chr.is_space c then lstrip_chars l' else l
  | [] => []
  end.

(** [s.strip()] *)
Definition strip_chars (l : list ascii) : list ascii :=
  rev (lstrip_chars (rev (lstrip_chars l))).

Definition strip (s : string) : string := of_chars (strip_chars (chars s)).

(** [s.capitalize()]: first character upper-cased, the rest lower-cased. *)
Definition capitalize (s : string) : string :=
  match chars s with
  | [] => ""
  | c :: l => of_chars (Chr.upper c :: map Chr.lower l)
  end.

(** [s.split()]: the maximal runs of non-space characters. *)
Fixpoint split_ws_aux (cur : list ascii) (l : list ascii) : list (list ascii) :=
  match l with
  | [] => match cur with [] => [] | _ => [rev cur] end
  | c :: l' =>
      if Chr.is_space c
      then match cur with
           | [] => split_ws_aux [] l'
           | _ => rev cur :: split_ws_aux [] l'
           end
      else split_ws_aux (c :: cur) l'
  end.

Definition split_ws (s : string) : list string :=
  map of_chars (split_ws_aux [] (chars s)).

(** [sep.join(parts)] *)
Fixpoint join (sep : string) (parts : list string) : string :=
  match parts with
  | [] => ""
  | [p] => p
  | p :: ps => p ++ sep ++ join sep ps
  end.

Fixpoint is_prefix (p l : list ascii) : bool :=
  match p, l with
  | [], _ => true
  | a :: p', b :: l' => Ascii.eqb a b && is_prefix p' l'
  | _ :: _, [] => false
  end.

(** [s.replace(old, new)] for a non-empty [old]: leftmost, non-overlapping.
    [skip] counts the characters of a replaced occurrence still to drop. *)
Fixpoint replace_aux (old new : list ascii) (skip : nat) (l : list ascii)
  : list ascii :=
  match l with
  | [] => []
  | c :: l' =>
      match skip with
      | S k => replace_aux old new k l'
      | O =>
          if is_prefix old l
          then new ++ replace_aux old new (List.length old - 1) l'
          else c :: replace_aux old new 0 l'
      end
  end.

Definition replace (old new s : string) : string :=
  of_chars (replace_aux (chars old) (chars new) 0 (chars s)).

End Str.

(* ===================================================================== *)
(** ** The [re] module: patterns, their parser and a backtracking matcher *)

Module Re.

Inductive cclass : Type :=
| CDigit                        (* \d *)
| CSpace                        (* \s *)
| CNonSpace                     (* \S *)
| CWord                         (* \w *)
| CNonWord                      (* \W *)
| CAny                          (* .  : anything but a newline *)
| CSet (items : list (ascii * ascii)).  (* [...]: inclusive ranges *)

Inductive re : Type :=
| Eps
| Lit (c : ascii)
| Cls (k : cclass)
| Bnd                                   (* \b *)
| Seq (a b : re)
| Alt (a b : re)
| Rep (greedy : bool) (lo : nat) (hi : option nat) (a : re)
| Grp (n : nat) (a : re).               (* capturing group number n *)

(** *** Parsing a pattern string *)

Definition seq (a b : re) : re :=
  match b with
  | Eps => a
  | _ => Seq a b
  end.

Fixpoint p_nat (acc : nat) (s : list ascii) : nat * list ascii :=
  match s with
  | c :: s' =>
      if Chr.is_digit c
      then p_nat (10 * acc + Z.to_nat (Chr.digit_val c)) s'
      else (acc, s)
  | [] => (acc, s)
  end.

(** The items of a bracket class, up to the closing bracket. *)
Fixpoint p_set (s : list ascii) : option (list (ascii * ascii) * list ascii) :=
  match s with
  | "]"%char :: s' => Some ([], s')
  | a :: "-"%char :: "]"%char :: s' => Some ([(a, a); ("-"%char, "-"%char)], s')
  | a :: "-"%char :: b :: s' =>
      match p_set s' with
      | Some (items, r) => Some ((a, b) :: items, r)
      | None => None
      end
  | a :: s' =>
      match p_set s' with
      | Some (items, r) => Some ((a, a) :: items, r)
      | None => None
      end
  | [] => None
  end.

(** A quantifier after an atom: [*], [+], [?], [{n}], [{n,m}], each
    optionally followed by [?] for the lazy variant. *)
Definition p_lazy (s : list ascii) : bool * list ascii :=
  match s with
  | "?"%char :: s' => (false, s')
  | _ => (true, s)
  end.

Definition p_quant (a : re) (s : list ascii) : re * list ascii :=
  match s with
  | "*"%char :: s' => let (g, r) := p_lazy s' in (Rep g 0 None a, r)
  | "+"%char :: s' => let (g, r) := p_lazy s' in (Rep g 1 None a, r)
  | "?"%char :: s' => let (g, r) := p_lazy s' in (Rep g 0 (Some 1) a, r)
  | "{"%char :: s' =>
      let (lo, s1) := p_nat 0 s' in
      match s1 with
      | "}"%char :: s2 => let (g, r) := p_lazy s2 in (Rep g lo (Some lo) a, r)
      | ","%char :: s2 =>
          let (hi, s3) := p_nat 0 s2 in
          match s3 with
          | "}"%char :: s4 => let (g, r) := p_lazy s4 in (Rep g lo (Some hi) a, r)
          | _ => (a, s)
          end
      | _ => (a, s)
      end
  | _ => (a, s)
  end.

Definition p_escape (c : ascii) : re :=
  match c with
  | "d"%char => Cls CDigit
  | "s"%char => Cls CSpace
  | "S"%char => Cls CNonSpace
  | "w"%char => Cls CWord
  | "W"%char => Cls CNonWord
  | "b"%char => Bnd
  | _ => Lit c
  end.

(** Recursive descent; [n] is the number of capturing groups opened so far. *)
Fixpoint p_alt (fuel : nat) (s : list ascii) (n : nat)
  : option (re * list ascii * nat) :=
  match fuel with
  | O => None
  | S f =>
      match p_seq f s n with
      | Some (a, "|"%char :: s', n') =>
          match p_alt f s' n' with
          | Some (b, s'', n'') => Some (Alt a b, s'', n'')
          | None => None
          end
      | r => r
      end
  end
with p_seq (fuel : nat) (s : list ascii) (n : nat)
  : option (re * list ascii * nat) :=
  match fuel with
  | O => None
  | S f =>
      match s with
      | [] => Some (Eps, s, n)
      | "|"%char :: _ => Some (Eps, s, n)
      | ")"%char :: _ => Some (Eps, s, n)
      | _ =>
          match p_atom f s n with
          | Some (a, s', n') =>
              let (q, s'') := p_quant a s' in
              match p_seq f s'' n' with
              | Some (b, s3, n3) => Some (seq q b, s3, n3)
              | None => None
              end
          | None => None
          end
      end
  end
with p_atom (fuel : nat) (s : list ascii) (n : nat)
  : option (re * list ascii * nat) :=
  match fuel with
  | O => None
  | S f =>
      match s with
      | "("%char :: "?"%char :: ":"%char :: s' =>
          match p_alt f s' n with
          | Some (a, ")"%char :: s'', n') => Some (a, s'', n')
          | _ => None
          end
      | "("%char :: s' =>
          match p_alt f s' (S n) with
          | Some (a, ")"%char :: s'', n') => Some (Grp (S n) a, s'', n')
          | _ => None
          end
      | "["%char :: s' =>
          match p_set s' with
          | Some (items, s'') => Some (Cls (CSet items), s'', n)
          | None => None
          end
      | "\"%char :: c :: s' => Some (p_escape c, s', n)
      | "."%char :: s' => Some (Cls CAny, s', n)
      | c :: s' => Some (Lit c, s', n)
      | [] => None
      end
  end.

(** *** Matching *)

(** A position in the subject: the character before it, the characters
    from it on, and its index. *)
Record cursor : Type := { prev : option ascii; rest : list ascii; pos : nat }.

Definition step (a : ascii) (l : list ascii) (c : cursor) : cursor :=
  {| prev := Some a; rest := l; pos := S (pos c) |}.

Definition caps : Type := list (nat * list ascii).

Definition in_range (a : ascii) (r : ascii * ascii) : bool :=
  Chr.between (Chr.code (fst r)) (Chr.code (snd r)) a.

Definition in_class (ic : bool) (k : cclass) (a : ascii) : bool :=
  match k with
  | CDigit => Chr.is_digit a
  | CSpace => Chr.is_space a
  | CNonSpace => negb (Chr.is_space a)
  | CWord => Chr.is_word a
  | CNonWord => negb (Chr.is_word a)
  | CAny => negb (Ascii.eqb a "010"%char)
  | CSet items =>
      existsb (in_range a) items
      || (ic && (existsb (in_range (Chr.lower a)) items
                 || existsb (in_range (Chr.upper a)) items))
  end.

Definition lit_eq (ic : bool) (x a : ascii) : bool :=
  if ic then Ascii.eqb (Chr.lower x) (Chr.lower a) else Ascii.eqb x a.

Definition word_before (c : cursor) : bool :=
  match prev c with
  | Some a => Chr.is_word a
  | None => false
  end.

Definition word_after (c : cursor) : bool :=
  match rest c with
  | a :: _ => Chr.is_word a
  | [] => false
  end.

(** [\b]: exactly one side of the position is a word character. *)
Definition at_boundary (c : cursor) : bool :=
  xorb (word_before c) (word_after c).

Definition below (cnt : nat) (hi : option nat) : bool :=
  match hi with
  | Some h => (cnt <? h)%nat
  | None => true
  end.

Section Run.
Context {X : Type}.
Variable ic : bool.   (* re.IGNORECASE *)

Definition matcher : Type :=
  cursor -> caps -> (cursor -> caps -> option X) -> option X.

(** A repetition of [body], between [lo] and [hi] times, [cnt] iterations
    being done: a greedy one tries a further iteration before it stops, a
    lazy one stops before it tries.  An iteration that consumes nothing
    is cut; [fuel] bounds the iterations by the characters left. *)
Fixpoint rep_loop (body : matcher) (gr : bool) (lo : nat) (hi : option nat)
  (k : cursor -> caps -> option X) (fuel cnt : nat) (c : cursor) (g : caps)
  {struct fuel} : option X :=
  match fuel with
  | O => if (lo <=? cnt)%nat then k c g else None
  | S f =>
      if gr then
        match
          (if below cnt hi
           then body c g
                  (fun c' g' =>
                     if (pos c <? pos c')%nat
                     then rep_loop body gr lo hi k f (S cnt) c' g'
                     else None)
           else None)
        with
        | Some x => Some x
        | None => if (lo <=? cnt)%nat then k c g else None
        end
      else
        match (if (lo <=? cnt)%nat then k c g else None) with
        | Some x => Some x
        | None =>
            if below cnt hi
            then body c g
                   (fun c' g' =>
                      if (pos c <? pos c')%nat
                      then rep_loop body gr lo hi k f (S cnt) c' g'
                      else None)
            else None
        end
  end.

(** [run r c g k]: match [r] at [c] with the captures [g] so far and
    hand every way of matching, in the priority order of a backtracking
    matcher, to the continuation [k] until it accepts one. *)
Fixpoint run (r : re) : matcher :=
  match r with
  | Eps => fun c g k => k c g
  | Lit x =>
      fun c g k =>
        match rest c with
        | a :: l => if lit_eq ic x a then k (step a l c) g else None
        | [] => None
        end
  | Cls cl =>
      fun c g k =>
        match rest c with
        | a :: l => if in_class ic cl a then k (step a l c) g else None
        | [] => None
        end
  | Bnd => fun c g k => if at_boundary c then k c g else None
  | Seq a b => fun c g k => run a c g (fun c' g' => run b c' g' k)
  | Alt a b =>
      fun c g k =>
        match run a c g k with
        | Some x => Some x
        | None => run b c g k
        end
  | Grp n a =>
      fun c g k =>
        run a c g
          (fun c' g' => k c' ((n, firstn (pos c' - pos c) (rest c)) :: g'))
  | Rep gr lo hi a =>
      fun c g k =>
        rep_loop (run a) gr lo hi k (S (List.length (rest c))) 0 c g
  end.

End Run.

(** *** What a match says about the subject

    [sem ic r c g c' g']: the pattern [r] can take the matcher from the
    position [c] with the captures [g] to the position [c'] with the
    captures [g']. *)

Definition transition : Type := cursor -> caps -> cursor -> caps -> Prop.

Fixpoint iter (R : transition) (n : nat) : transition :=
  fun c g c' g' =>
    match n with
    | O => c' = c /\ g' = g
    | S m =>
        exists c1 g1,
          R c g c1 g1 /\ (pos c < pos c1)%nat /\ iter R m c1 g1 c' g'
    end.

Definition within (n : nat) (hi : option nat) : Prop :=
  match hi with
  | Some h => (n <= h)%nat
  | None => True
  end.

Fixpoint sem (ic : bool) (r : re) : transition :=
  fun c g c' g' =>
    match r with
    | Eps => c' = c /\ g' = g
    | Lit x =>
        exists a l,
          rest c = a :: l /\ lit_eq ic x a = true /\ c' = step a l c /\ g' = g
    | Cls k =>
        exists a l,
          rest c = a :: l /\ in_class ic k a = true /\ c' = step a l c
          /\ g' = g
    | Bnd => at_boundary c = true /\ c' = c /\ g' = g
    | Seq a b => exists c1 g1, sem ic a c g c1 g1 /\ sem ic b c1 g1 c' g'
    | Alt a b => sem ic a c g c' g' \/ sem ic b c g c' g'
    | Grp n a =>
        exists g1,
          sem ic a c g c' g1
          /\ g' = (n, firstn (pos c' - pos c) (rest c)) :: g1
    | Rep _ lo hi a =>
        exists n, (lo <= n)%nat /\ within n hi /\ iter (sem ic a) n c g c' g'
    end.

(** The characters [w] lie between the positions [c] and [c']. *)
Definition consumed (c c' : cursor) (w : list ascii) : Prop :=
  rest c = w ++ rest c' /\ pos c' = (pos c + List.length w)%nat.

(** The position reached from [c] by reading the characters [w]. *)
Fixpoint steps (w : list ascii) (c : cursor) : cursor :=
  match w with
  | [] => c
  | a :: w' => steps w' (step a (tl (rest c)) c)
  end.

(** The pattern of a literal text and of a choice of words, as the
    parser builds them. *)
Fixpoint lits (s : list ascii) : re :=
  match s with
  | [] => Eps
  | [a] => Lit a
  | a :: s' => Seq (Lit a) (lits s')
  end.

Fixpoint alts (rs : list re) : re :=
  match rs with
  | [] => Eps
  | [r] => r
  | r :: rs' => Alt r (alts rs')
  end.

Definition words (ws : list string) : re :=
  alts (map (fun w => lits (Str.chars w)) ws).

(** A compiled pattern: its syntax tree and its number of groups. *)
Record pattern : Type := { p_re : re; p_groups : nat }.

Definition compile (src : string) : option pattern :=
  let s := Str.chars src in
  match p_alt (3 * List.length s + 3) s 0 with
  | Some (r, [], n) => Some {| p_re := r; p_groups := n |}
  | _ => None
  end.

Definition bad_pattern : pattern := {| p_re := Alt Eps Eps; p_groups := 0 |}.

Definition pat (src : string) : pattern :=
  match compile src with
  | Some p => p
  | None => bad_pattern
  end.

(** A match object. *)
Record rmatch : Type :=
  { m_start : nat; m_end : nat; m_text : list ascii; m_caps : caps }.

Fixpoint cap_lookup (n : nat) (g : caps) : option (list ascii) :=
  match g with
  | (i, t) :: g' => if (i =? n)%nat then Some t else cap_lookup n g'
  | [] => None
  end.

(** [m.group(n)] for [n >= 1]: [None] when the group took no part. *)
Definition group (n : nat) (m : rmatch) : option string :=
  match cap_lookup n (m_caps m) with
  | Some t => Some (Str.of_chars t)
  | None => None
  end.

(** [m.groups()] *)
Definition groups (p : pattern) (m : rmatch) : list (option string) :=
  map (fun n => group n m) (List.seq 1 (p_groups p)).

(** [m.group(0)] *)
Definition group0 (m : rmatch) : string := Str.of_chars (m_text m).

(** The match of [p] that starts exactly at [c], if there is one. *)
Definition match_at (ic : bool) (p : pattern) (c : cursor) : option rmatch :=
  run ic (p_re p) c []
    (fun c' g =>
       Some {| m_start := pos c; m_end := pos c';
               m_text := firstn (pos c' - pos c) (rest c); m_caps := g |}).

Fixpoint search_chars (ic : bool) (p : pattern) (pv : option ascii) (i : nat)
  (l : list ascii) : option rmatch :=
  match match_at ic p {| prev := pv; rest := l; pos := i |} with
  | Some m => Some m
  | None =>
      match l with
      | a :: l' => search_chars ic p (Some a) (S i) l'
      | [] => None
      end
  end.

(** [re.search(p, s)] and [re.search(p, s, re.IGNORECASE)]: the leftmost
    match. *)
Definition search (ic : bool) (p : pattern) (s : string) : option rmatch :=
  search_chars ic p None 0 (Str.chars s).

(** The successive non-overlapping matches, left to right; [skip] counts
    the characters of the last match still to pass over. *)
Fixpoint scan (ic : bool) (p : pattern) (pv : option ascii) (i skip : nat)
  (l : list ascii) : list rmatch :=
  match skip with
  | S k =>
      match l with
      | a :: l' => scan ic p (Some a) (S i) k l'
      | [] => []
      end
  | O =>
      match match_at ic p {| prev := pv; rest := l; pos := i |} with
      | Some m =>
          m :: match l with
               | a :: l' => scan ic p (Some a) (S i) (m_end m - i - 1) l'
               | [] => []
               end
      | None =>
          match l with
          | a :: l' => scan ic p (Some a) (S i) 0 l'
          | [] => []
          end
      end
  end.

Definition finditer (ic : bool) (p : pattern) (s : string) : list rmatch :=
  scan ic p None 0 0 (Str.chars s).

(** [re.findall(p, s)] for a pattern without groups: the matched texts. *)
Definition findall0 (ic : bool) (p : pattern) (s : string) : list string :=
  map group0 (finditer ic p s).

(** [re.findall(p, s)] for a pattern with several groups: the tuples of
    groups, the empty string standing for a group that took no part. *)
Definition findall (ic : bool) (p : pattern) (s : string) : list (list string) :=
  map (fun m => map (fun o => match o with Some t => t | None => "" end)
                    (groups p m))
      (finditer ic p s).

(** [re.sub(p, repl, s)] for a plain replacement text. *)
Fixpoint sub_chars (ic : bool) (p : pattern) (repl : list ascii)
  (pv : option ascii) (i skip : nat) (l : list ascii) : list ascii :=
  match skip with
  | S k =>
      match l with
      | a :: l' => sub_chars ic p repl (Some a) (S i) k l'
      | [] => []
      end
  | O =>
      match match_at ic p {| prev := pv; rest := l; pos := i |} with
      | Some m =>
          match m_end m - i, l with
          | O, a :: l' => repl ++ a :: sub_chars ic p repl (Some a) (S i) 0 l'
          | S k, a :: l' => repl ++ sub_chars ic p repl (Some a) (S i) k l'
          | _, [] => repl
          end
      | None =>
          match l with
          | a :: l' => a :: sub_chars ic p repl (Some a) (S i) 0 l'
          | [] => []
          end
      end
  end.

Definition sub (ic : bool) (p : pattern) (repl s : string) : string :=
  Str.of_chars (sub_chars ic p (Str.chars repl) None 0 0 (Str.chars s)).

Definition matches (ic : bool) (p : pattern) (s : string) : bool :=
  match search ic p s with
  | Some _ => true
  | None => false
  end.

End Re.

(* ===================================================================== *)
(** ** Python numbers: [int], [float], their parsing and printing *)

Module Py.

Local Open Scope Z_scope.

(** *** Integers *)

Fixpoint digits_val (acc : Z) (l : list ascii) : Z :=
  match l with
  | c :: l' => digits_val (10 * acc + Chr.digit_val c) l'
  | [] => acc
  end.

(** [int(s)] on a string of decimal digits. *)
Definition int_of_digits (s : string) : Z := digits_val 0 (Str.chars s).

Definition digit_char (d : Z) : ascii := ascii_of_N (Z.to_N (48 + d)).

Fixpoint pos_digits (fuel : nat) (n : Z) (acc : list ascii) : list ascii :=
  match fuel with
  | O => acc
  | S f =>
      if n <? 10 then digit_char n :: acc
      else pos_digits f (n / 10) (digit_char (n mod 10) :: acc)
  end.

(** The decimal digits of a natural number; a number below [2^k] has at
    most [k] of them. *)
Definition nat_digits (n : Z) : list ascii :=
  pos_digits (S (Z.to_nat (Z.log2 n))) n [].

(** [str(n)] *)
Definition str_int (n : Z) : string :=
  if n <? 0 then String "-" (Str.of_chars (nat_digits (- n)))
  else Str.of_chars (nat_digits n).

(** [n] printed on at least [w] digits, zero-padded ([%02d]). *)
Definition pad_int (w : nat) (n : Z) : string :=
  let d := nat_digits n in
  Str.of_chars (repeat "0"%char (w - List.length d)%nat ++ d).

(** *** Floats: IEEE binary64 *)

Definition float : Type := spec_float.

Definition prec : Z := 53.
Definition emax : Z := 1024.

Definition fmul : float -> float -> float := SFmul prec emax.
Definition fdiv : float -> float -> float := SFdiv prec emax.
Definition feqb : float -> float -> bool := SFeqb.

(** The float nearest to [(-1)^neg * m * 10^e] for [m >= 0]. *)
Definition float_of_decimal (neg : bool) (m e : Z) : float :=
  match m with
  | Zpos p =>
      if 0 <=? e
      then binary_normalize prec emax
             ((if neg then Z.opp else id) (m * 10 ^ e)) 0 neg
      else
        match 10 ^ (- e) with
        | Zpos q => fdiv (S754_finite neg p 0) (S754_finite false q 0)
        | _ => S754_nan
        end
  | _ => S754_zero neg
  end.

Definition float_of_Z (n : Z) : float :=
  float_of_decimal (n <? 0) (Z.abs n) 0.

Fixpoint span_digits (l : list ascii) : list ascii * list ascii :=
  match l with
  | c :: l' =>
      if Chr.is_digit c
      then let (d, r) := span_digits l' in (c :: d, r)
      else ([], l)
  | [] => ([], [])
  end.

(** Underscores are digit separators: each one stands between two digits. *)
Fixpoint drop_underscores (pv : option ascii) (l : list ascii)
  : option (list ascii) :=
  match l with
  | [] => Some []
  | c :: l' =>
      if Ascii.eqb c "_"%char then
        match pv, l' with
        | Some a, b :: _ =>
            if Chr.is_digit a && Chr.is_digit b
            then drop_underscores (Some c) l'
            else None
        | _, _ => None
        end
      else
        match drop_underscores (Some c) l' with
        | Some r => Some (c :: r)
        | None => None
        end
  end.

Definition split_sign (l : list ascii) : bool * list ascii :=
  match l with
  | "-"%char :: l' => (true, l')
  | "+"%char :: l' => (false, l')
  | _ => (false, l)
  end.

(** The exponent part: empty, or [e] with an optional sign and digits. *)
Definition parse_exponent (l : list ascii) : option Z :=
  match l with
  | [] => Some 0
  | c :: l' =>
      if Ascii.eqb (Chr.lower c) "e"%char then
        let (neg, l'') := split_sign l' in
        match span_digits l'' with
        | ((_ :: _) as d, []) =>
            Some ((if neg then Z.opp else id) (digits_val 0 d))
        | _ => None
        end
      else None
  end.

Definition parse_decimal (neg : bool) (l : list ascii) : option float :=
  let (ip, r1) := span_digits l in
  let (fp, r2) :=
    match r1 with
    | "."%char :: r => span_digits r
    | _ => ([], r1)
    end in
  match ip ++ fp with
  | [] => None
  | ds =>
      match parse_exponent r2 with
      | Some e => Some (float_of_decimal neg (digits_val 0 ds)
                                         (e - Z.of_nat (List.length fp)))
      | None => None
      end
  end.

(** The white space [float] passes over at both ends of its text: the
    space, tab, newline, vertical tab, form feed and carriage return, and
    not the four separators 0x1c-0x1f that [str.strip] removes. *)
Definition is_float_space (c : ascii) : bool :=
  Chr.between 9 13 c || Ascii.eqb c " "%char.

Fixpoint lstrip_float (l : list ascii) : list ascii :=
  match l with
  | c :: l' => if is_float_space c then lstrip_float l' else l
  | [] => []
  end.

Definition strip_float (l : list ascii) : list ascii :=
  rev (lstrip_float (rev (lstrip_float l))).

(** [float(s)]: surrounding white space, a sign, then [inf], [infinity],
    [nan] or a decimal literal; [ValueError] otherwise. *)
Definition float_of_string (s : string) : result float :=
  let (neg, body) := split_sign (strip_float (Str.chars s)) in
  let low := Str.of_chars (map Chr.lower body) in
  if (low =? "inf")%string || (low =? "infinity")%string
  then Ok (S754_infinity neg)
  else if (low =? "nan")%string then Ok S754_nan
  else
    match drop_underscores None body with
    | Some l =>
        match parse_decimal neg l with
        | Some x => Ok x
        | None => Raise ValueError
        end
    | None => Raise ValueError
    end.

(** [round(x, 2)]: the exact value of [x] rounded half-to-even to two
    decimals, then the float nearest to that decimal. *)
Definition round_half_even (num den : Z) : Z :=
  let q := num / den in
  let r := num mod den in
  match 2 * r ?= den with
  | Lt => q
  | Gt => q + 1
  | Eq => if Z.even q then q else q + 1
  end.

Definition round2 (x : float) : float :=
  match x with
  | S754_finite s m e =>
      let n := if 0 <=? e then Zpos m * 2 ^ e * 100
               else round_half_even (Zpos m * 100) (2 ^ (- e)) in
      float_of_decimal s n (-2)
  | _ => x
  end.

(** *** [str(x)] and [repr(x)] of a float: the shortest decimal that
    reads back as [x], printed in positional notation when the decimal
    point falls within the digits or at most sixteen places to their
    right or three to their left, and in exponent notation otherwise. *)

Definition float_eq_dec (x y : float) : {x = y} + {x <> y}.
Proof. repeat decide equality. Defined.

(** [num/den >= 10^t] *)
Definition ge_pow10 (num den t : Z) : bool :=
  if 0 <=? t then den * 10 ^ t <=? num else den <=? num * 10 ^ (- t).

Fixpoint raise_pow10 (fuel : nat) (num den t : Z) : Z :=
  match fuel with
  | O => t
  | S f => if ge_pow10 num den (t + 1) then raise_pow10 f num den (t + 1) else t
  end.

(** The [t] with [10^t <= num/den < 10^(t+1)]. *)
Definition floor_log10 (num den : Z) : Z :=
  raise_pow10 8 num den ((Z.log2 num - Z.log2 den) * 30103 / 100000 - 2).

Fixpoint strip_zeros (fuel : nat) (d q : Z) : Z * Z :=
  match fuel with
  | O => (d, q)
  | S f => if d mod 10 =? 0 then strip_zeros f (d / 10) (q + 1) else (d, q)
  end.

(** The shortest digits: for [n = 1, 2, ...] the two [n]-digit decimals
    around the value, the nearer one first, until one reads back. *)
Fixpoint shortest (fuel : nat) (n : Z) (x : float) (num den t : Z) : Z * Z :=
  let q := t + 1 - n in
  let sn := if 0 <=? q then num else num * 10 ^ (- q) in
  let sd := if 0 <=? q then den * 10 ^ q else den in
  let lo := sn / sd in
  let near := round_half_even sn sd in
  let far := if near =? lo then lo + 1 else lo in
  match fuel with
  | O => (near, q)
  | S f =>
      if float_eq_dec (float_of_decimal false near q) x then (near, q)
      else if float_eq_dec (float_of_decimal false far q) x then (far, q)
      else shortest f (n + 1) x num den t
  end.

Definition exp_field (e : Z) : string :=
  String "e" (String (if e <? 0 then "-"%char else "+"%char)
                     (pad_int 2 (Z.abs e))).

Definition format_digits (ds : list ascii) (decpt : Z) : string :=
  let n := Z.of_nat (List.length ds) in
  if (-4 <? decpt) && (decpt <=? 16) then
    if decpt <=? 0 then
      Str.of_chars ("0"%char :: "."%char
                      :: repeat "0"%char (Z.to_nat (- decpt)) ++ ds)
    else if n <=? decpt then
      Str.of_chars (ds ++ repeat "0"%char (Z.to_nat (decpt - n))
                       ++ ["."%char; "0"%char])
    else
      Str.of_chars (firstn (Z.to_nat decpt) ds ++ "."%char
                      :: skipn (Z.to_nat decpt) ds)
  else
    match ds with
    | [d] => String d (exp_field (decpt - 1))
    | d :: r => (Str.of_chars (d :: "."%char :: r) ++ exp_field (decpt - 1))%string
    | [] => ""
    end.

Definition str_float (x : float) : string :=
  match x with
  | S754_nan => "nan"
  | S754_infinity s => if s then "-inf" else "inf"
  | S754_zero s => if s then "-0.0" else "0.0"
  | S754_finite s m e =>
      let num := if 0 <=? e then Zpos m * 2 ^ e else Zpos m in
      let den := if 0 <=? e then 1 else 2 ^ (- e) in
      let t := floor_log10 num den in
      let (d0, q0) := shortest 16 1 (S754_finite false m e) num den t in
      let (d, q) := strip_zeros 20 d0 q0 in
      let ds := nat_digits d in
      let body := format_digits ds (Z.of_nat (List.length ds) + q) in
      if s then String "-" body else body
  end.

End Py.


(* ===================================================================== *)
(** ** [datetime]: calendar dates *)

Module Date.

Local Open Scope Z_scope.

Record date : Type := { year : Z; month : Z; day : Z }.

Definition is_leap (y : Z) : bool :=
  (y mod 4 =? 0) && (negb (y mod 100 =? 0) || (y mod 400 =? 0)).

Definition days_in_month (y m : Z) : Z :=
  if (m =? 2) then (if is_leap y then 29 else 28)
  else if (m =? 4) || (m =? 6) || (m =? 9) || (m =? 11) then 30
  else 31.

Definition valid (y m d : Z) : bool :=
  (1 <=? y) && (y <=? 9999) && (1 <=? m) && (m <=? 12)
  && (1 <=? d) && (d <=? days_in_month y m).

(** [datetime(y, m, d)]: [ValueError] unless it is a calendar date. *)
Definition datetime (y m d : Z) : result date :=
  if valid y m d then Ok {| year := y; month := m; day := d |}
  else Raise ValueError.

(** [t.replace(day=d)] *)
Definition replace_day (t : date) (d : Z) : result date :=
  datetime (year t) (month t) d.

(** [t - timedelta(days=1)] and [t + timedelta(days=1)]: [OverflowError]
    beyond the years 1 to 9999. *)
Definition minus_one_day (t : date) : result date :=
  if 1 <? day t then Ok {| year := year t; month := month t; day := day t - 1 |}
  else if 1 <? month t then
    Ok {| year := year t; month := month t - 1;
          day := days_in_month (year t) (month t - 1) |}
  else if 1 <? year t then Ok {| year := year t - 1; month := 12; day := 31 |}
  else Raise OverflowError.

Definition plus_one_day (t : date) : result date :=
  if day t <? days_in_month (year t) (month t)
  then Ok {| year := year t; month := month t; day := day t + 1 |}
  else if month t <? 12 then Ok {| year := year t; month := month t + 1; day := 1 |}
  else if year t <? 9999 then Ok {| year := year t + 1; month := 1; day := 1 |}
  else Raise OverflowError.

(** [t.strftime("%Y-%m-%d")]: the year as the C library prints it, on as
    many digits as it has, the month and the day on two. *)
Definition strftime (t : date) : string :=
  (Py.str_int (year t) ++ "-" ++ Py.pad_int 2 (month t) ++ "-"
     ++ Py.pad_int 2 (day t))%string.

Definition wf (t : date) : Prop := valid (year t) (month t) (day t) = true.

End Date.

(** Python dictionaries with string keys, in insertion order where the
    code writes them as literals. *)
Fixpoint dict_get {V : Type} (k : string) (d : list (string * V)) : option V :=
  match d with
  | (k', v) :: d' => if (k' =? k)%string then Some v else dict_get k d'
  | [] => None
  end.

Definition month_names : list (string * Z) :=
  [("january", 1); ("february", 2); ("march", 3); ("april", 4);
   ("may", 5); ("june", 6); ("july", 7); ("august", 8);
   ("september", 9); ("october", 10); ("november", 11); ("december", 12)]%Z.

(** The two-digit year rule shared by both engines:
    [if year < 100: year += 2000 if year < 50 else 1900]. *)
Definition expand_year (y : Z) : Z :=
  if (y <? 100)%Z then (if (y <? 50)%Z then y + 2000 else y + 1900)%Z else y.

(** [groups[i]] of a match, [None] standing for Python's [None]. *)
Definition nth_group (i : nat) (g : list (option string)) : option string :=
  nth i g None.

(** The truth value of [groups[i]]: a non-empty string. *)
Definition truthy (o : option string) : bool :=
  match o with
  | Some (String _ _) => true
  | _ => false
  end.

(* ===================================================================== *)
(** ** [data_extractor.py] *)

(** A ledger record, the dictionary with the keys [type], [amount],
    [date] and [details]. *)
Record record : Type :=
  { r_type : string; r_amount : Py.float; r_date : string; r_details : string }.

Module DataExtractor.

Definition profit_patterns : list Re.pattern :=
  Eval vm_compute in
  [Re.pat "\b(profit|gained|earned|received|income|revenue|made|won)\b";
   Re.pat "\b(in|plus|positive)\b"].

Definition loss_patterns : list Re.pattern :=
  Eval vm_compute in
  [Re.pat "\b(loss|lost|spent|expense|paid|cost|negative|minus)\b";
   Re.pat "\b(out|down)\b"].

Definition amount_pattern : Re.pattern :=
  Eval vm_compute in
  Re.pat "\$?(\d+(?:,\d{3})*(?:\.\d{2})?)\b|\b(\d+(?:,\d{3})*(?:\.\d{2})?)\s*(?:dollars?|USD|rs|rupees?)".

Definition date_patterns : list Re.pattern :=
  Eval vm_compute in
  [Re.pat "\b(\d{1,2})[/-](\d{1,2})[/-](\d{2,4})\b";
   Re.pat "\b(january|february|march|april|may|june|july|august|september|october|november|december)\s+(\d{1,2})(?:st|nd|rd|th)?,?\s+(\d{2,4})\b";
   Re.pat "\b(\d{1,2})(?:st|nd|rd|th)?\s+(january|february|march|april|may|june|july|august|september|october|november|december)\s+(\d{2,4})\b";
   Re.pat "\b(today|yesterday|tomorrow)\b"].

(** [_extract_type]: the profit patterns first, then the loss patterns,
    and [loss] when neither matches. *)
Definition _extract_type (text : string) : string :=
  if existsb (fun p => Re.matches true p text) profit_patterns then "profit"
  else if existsb (fun p => Re.matches true p text) loss_patterns then "loss"
  else "loss".

(** *** [_normalize_number_words] *)

Definition units : list (string * Z) :=
  [("zero", 0); ("one", 1); ("two", 2); ("three", 3); ("four", 4);
   ("five", 5); ("six", 6); ("seven", 7); ("eight", 8); ("nine", 9);
   ("ten", 10); ("eleven", 11); ("twelve", 12); ("thirteen", 13);
   ("fourteen", 14); ("fifteen", 15); ("sixteen", 16); ("seventeen", 17);
   ("eighteen", 18); ("nineteen", 19)]%Z.

Definition tens : list (string * Z) :=
  [("twenty", 20); ("thirty", 30); ("forty", 40); ("fifty", 50);
   ("sixty", 60); ("seventy", 70); ("eighty", 80); ("ninety", 90)]%Z.

Definition scales : list (string * Z) :=
  [("hundred", 100); ("thousand", 1000); ("lakh", 100000);
   ("crore", 10000000)]%Z.

(** The [while] loop of [convert_number_phrase], from the state
    [(current, total, i)]; it stops at the first word that is no number
    word and returns [(total + current, i)]. *)
Fixpoint convert_loop (tokens : list string) (current total : Z) (i : nat)
  : Z * nat :=
  match tokens with
  | [] => ((total + current)%Z, i)
  | word :: tokens' =>
      match dict_get word units with
      | Some u => convert_loop tokens' (current + u)%Z total (S i)
      | None =>
          match dict_get word tens with
          | Some t => convert_loop tokens' (current + t)%Z total (S i)
          | None =>
              if (word =? "and")%string
              then convert_loop tokens' current total (S i)
              else
                match dict_get word scales with
                | Some scale =>
                    let current1 := if (current =? 0)%Z then 1%Z else current in
                    convert_loop tokens' 0%Z (total + current1 * scale)%Z (S i)
                | None => ((total + current)%Z, i)
                end
          end
      end
  end.

Definition convert_number_phrase (tokens : list string) : Z * nat :=
  convert_loop tokens 0%Z 0%Z 0.

Definition in_dict {V : Type} (w : string) (d : list (string * V)) : bool :=
  match dict_get w d with
  | Some _ => true
  | None => false
  end.

(** The test that opens a number phrase in [replace_sequences]. *)
Definition starts_number (word : string) : bool :=
  in_dict word units || in_dict word tens || in_dict word scales
  || (word =? "and")%string.

Definition token_pattern : Re.pattern :=
  Eval vm_compute in Re.pat "[a-zA-Z]+|\d+|%|\S".

(** The [while] loop of [replace_sequences] over [tokens[i:]]; [skip] is
    the number of tokens of the phrase just converted that [i += consumed]
    still jumps over. *)
Fixpoint replace_loop (skip : nat) (tokens : list string) : list string :=
  match tokens with
  | [] => []
  | t :: tokens' =>
      match skip with
      | S k => replace_loop k tokens'
      | O =>
          if starts_number (Str.lower t) then
            let (number, consumed) :=
              convert_number_phrase (map Str.lower tokens) in
            match consumed with
            | S k => Py.str_int number :: replace_loop k tokens'
            | O => t :: replace_loop 0 tokens'
            end
          else t :: replace_loop 0 tokens'
      end
  end.

(** [replace_sequences]: the value returned is the [else] branch of the
    conditional expression on [False], [' '.join(out).replace(' %', '%')]. *)
Definition replace_sequences (text_in : string) : string :=
  let tokens := Re.findall0 false token_pattern text_in in
  let out := replace_loop 0 tokens in
  Str.replace " %" "%" (Str.join " " out).

Definition _normalize_number_words (text : string) : string :=
  replace_sequences text.

(** *** [_extract_amount] *)

Definition percentage_pattern : Re.pattern :=
  Eval vm_compute in
  Re.pat "(?:profit|loss).*?(?:is|of|at)\s*(\d+(?:\.\d+)?)\s*%|(\d+(?:\.\d+)?)\s*%\s*(?:profit|loss)".

Definition investment_patterns : list Re.pattern :=
  Eval vm_compute in
  [Re.pat "invested\s+(\d+(?:,\d{3})*(?:\.\d{2})?)";
   Re.pat "investment\s+(?:of|is)\s+(\d+(?:,\d{3})*(?:\.\d{2})?)";
   Re.pat "base\s+(?:of|is)\s+(\d+(?:,\d{3})*(?:\.\d{2})?)";
   Re.pat "capital\s+(?:of|is)\s+(\d+(?:,\d{3})*(?:\.\d{2})?)"].

(** [m.group(1) if m.group(1) else m.group(2)] *)
Definition first_truthy (m : Re.rmatch) : option string :=
  if truthy (Re.group 1 m) then Re.group 1 m else Re.group 2 m.

(** [float(v)] where [v] may be [None]. *)
Definition float_of_value (v : option string) : result Py.float :=
  match v with
  | Some t => Py.float_of_string t
  | None => Raise TypeError
  end.

(** The loop over [investment_patterns]: the first pattern that matches
    and whose group converts gives the base amount. *)
Fixpoint find_investment (ps : list Re.pattern) (normalized : string)
  : option Py.float :=
  match ps with
  | [] => None
  | p :: ps' =>
      match Re.search true p normalized with
      | Some inv_match =>
          let base_str :=
            Str.replace "," ""
              (match Re.group 1 inv_match with Some t => t | None => "" end) in
          match Py.float_of_string base_str with
          | Ok x => Some x
          | Raise _ => find_investment ps' normalized
          end
      | None => find_investment ps' normalized
      end
  end.

(** [matches[0][0] if matches[0][0] else matches[0][1]], commas removed,
    converted; [None] when there is no match or the conversion fails. *)
Definition first_amount (normalized : string) : option Py.float :=
  match Re.findall true amount_pattern normalized with
  | m :: _ =>
      let amount_str :=
        match nth 0 m "" with
        | String _ _ as t => t
        | EmptyString => nth 1 m ""
        end in
      match Py.float_of_string (Str.replace "," "" amount_str) with
      | Ok x => Some x
      | Raise _ => None
      end
  | [] => None
  end.

Definition hundred : Py.float := Py.float_of_Z 100.

Definition _extract_amount (text : string) : result Py.float :=
  let text_lower := Str.lower text in
  let normalized := _normalize_number_words text_lower in
  let regular :=
    match first_amount normalized with
    | Some x => Ok x
    | None => Ok (S754_zero false)
    end in
  match Re.search true percentage_pattern normalized with
  | Some percentage_match =>
      let! percentage := float_of_value (first_truthy percentage_match) in
      let base_amount :=
        match find_investment investment_patterns normalized with
        | Some b => Some b
        | None => first_amount normalized
        end in
      match base_amount with
      | Some b => Ok (Py.round2 (Py.fmul b (Py.fdiv percentage hundred)))
      | None => regular
      end
  | None => regular
  end.

(** *** [_extract_date] *)

Definition today_pattern : Re.pattern := Eval vm_compute in Re.pat "\btoday\b".
Definition yesterday_pattern : Re.pattern :=
  Eval vm_compute in Re.pat "\byesterday\b".
Definition tomorrow_pattern : Re.pattern :=
  Eval vm_compute in Re.pat "\btomorrow\b".
Definition numeric_date_pattern : Re.pattern :=
  Eval vm_compute in Re.pat "\b(\d{1,2})[/-](\d{1,2})[/-](\d{2,4})\b".

Definition group_int (i : nat) (g : list (option string)) : Z :=
  match nth_group i g with
  | Some t => Py.int_of_digits t
  | None => 0%Z
  end.

(** The numeric branch on the groups [(month, day, year)] of the match:
    month/day/year first, day/month/year when that is no calendar date,
    [None] when neither is (the inner [except ValueError: pass]). *)
Definition numeric_date (g : list (option string)) : option string :=
  let year := expand_year (group_int 2 g) in
  let month := group_int 0 g in
  let day := group_int 1 g in
  match Date.datetime year month day with
  | Ok date_obj => Some (Date.strftime date_obj)
  | Raise _ =>
      match Date.datetime year day month with
      | Ok date_obj => Some (Date.strftime date_obj)
      | Raise _ => None
      end
  end.

Definition group_lower (i : nat) (g : list (option string)) : string :=
  match nth_group i g with
  | Some t => Str.lower t
  | None => ""
  end.

(** The loop over [date_patterns[1:3]]. *)
Fixpoint month_name_date (ps : list Re.pattern) (text_lower : string)
  : option string :=
  match ps with
  | [] => None
  | p :: ps' =>
      match Re.search false p text_lower with
      | Some m =>
          let g := Re.groups p m in
          let parsed :=
            match dict_get (group_lower 0 g) month_names with
            | Some month => Some (month, group_int 1 g, group_int 2 g)
            | None =>
                match dict_get (group_lower 1 g) month_names with
                | Some month => Some (month, group_int 0 g, group_int 2 g)
                | None => None
                end
            end in
          match parsed with
          | Some (month, day, year) =>
              match Date.datetime (expand_year year) month day with
              | Ok date_obj => Some (Date.strftime date_obj)
              | Raise _ => month_name_date ps' text_lower
              end
          | None => month_name_date ps' text_lower
          end
      | None => month_name_date ps' text_lower
      end
  end.

Definition _extract_date (now : Date.date) (text : string) : result string :=
  let text_lower := Str.lower text in
  let today := now in
  if Re.matches false today_pattern text_lower then
    Ok (Date.strftime today)
  else if Re.matches false yesterday_pattern text_lower then
    let! yesterday := Date.replace_day today (Date.day today - 1) in
    Ok (Date.strftime yesterday)
  else if Re.matches false tomorrow_pattern text_lower then
    let! tomorrow := Date.replace_day today (Date.day today + 1) in
    Ok (Date.strftime tomorrow)
  else
    let numeric :=
      match Re.search false numeric_date_pattern text with
      | Some m => numeric_date (Re.groups numeric_date_pattern m)
      | None => None
      end in
    match numeric with
    | Some d => Ok d
    | None =>
        match month_name_date (firstn 2 (skipn 1 date_patterns)) text_lower with
        | Some d => Ok d
        | None => Ok (Date.strftime now)
        end
    end.

(** *** [_extract_details] *)

Definition invested_pattern : Re.pattern :=
  Eval vm_compute in Re.pat "invested\s+(\d+(?:,\d{3})*(?:\.\d{2})?)".
Definition percent_mention : Re.pattern :=
  Eval vm_compute in Re.pat "\d+(?:\.\d+)?\s*%".
Definition type_word_pattern : Re.pattern :=
  Eval vm_compute in
  Re.pat "\b(profit|loss|gained|earned|received|spent|paid|lost)\s+(?:is|of|at)\b".
Definition relative_word_pattern : Re.pattern :=
  Eval vm_compute in Re.pat "\b(today|yesterday|tomorrow)\b".
Definition filler_pattern : Re.pattern :=
  Eval vm_compute in Re.pat "\b(and|is|nothing|nothing)\b".

Definition opt_str (o : option string) : string :=
  match o with
  | Some t => t
  | None => "None"
  end.

Definition _extract_details (text transaction_type : string)
  (amount : Py.float) : string :=
  let text_lower := Str.lower text in
  let percentage_match := Re.search true percentage_pattern text_lower in
  let investment_match := Re.search true invested_pattern text_lower in
  let details :=
    match percentage_match, investment_match with
    | Some pm, Some im =>
        let percentage := opt_str (first_truthy pm) in
        let investment := Str.replace "," "" (opt_str (Re.group 1 im)) in
        ("Investment of " ++ investment ++ " with " ++ percentage ++ "% "
           ++ transaction_type)%string
    | _, _ =>
        let d1 := Re.sub true amount_pattern "" text in
        let d2 := Re.sub true percent_mention "" d1 in
        let d3 := fold_left (fun d p => Re.sub true p "" d) date_patterns d2 in
        let d4 := Re.sub true type_word_pattern "" d3 in
        let d5 := Re.sub true relative_word_pattern "" d4 in
        let d6 := Re.sub true filler_pattern "" d5 in
        Str.strip (Str.join " " (Str.split_ws d6))
    end in
  if (String.length details <? 3)%nat
  then (Str.capitalize transaction_type ++ " transaction")%string
  else details.

(** *** [extract] *)

Definition extract (now : Date.date) (text : string) : result record :=
  let text_lower := Str.strip (Str.lower text) in
  let transaction_type := _extract_type text_lower in
  let! amount := _extract_amount text in
  let! date := _extract_date now text_lower in
  let details := _extract_details text transaction_type amount in
  Ok {| r_type := transaction_type; r_amount := amount;
        r_date := date; r_details := details |}.

End DataExtractor.

(* ===================================================================== *)
(** ** [query_analyzer.py] *)

(** The values stored in the [params] dictionary. *)
Inductive pyval : Type :=
| VInt (n : Z)
| VStr (s : string)
| VNone.

Inductive query_type : Type :=
| monthly_report
| date_query
| type_query
| summary
| unknown.

Module QueryAnalyzer.

Definition month_pattern : Re.pattern :=
  Eval vm_compute in
  Re.pat "\b(january|february|march|april|may|june|july|august|september|october|november|december)\b".

Definition date_pattern : Re.pattern :=
  Eval vm_compute in
  Re.pat "\b(\d{1,2})[/-](\d{1,2})[/-](\d{2,4})\b|(\d{1,2})(?:st|nd|rd|th)?\s+(january|february|march|april|may|june|july|august|september|october|november|december)\s+(\d{2,4})\b".

Definition relative_date_pattern : Re.pattern :=
  Eval vm_compute in Re.pat "\b(today|yesterday|tomorrow)\b".

Definition profit_pattern : Re.pattern :=
  Eval vm_compute in
  Re.pat "\b(profit|profits|gained|earned|income|revenue|made|earn)\b".

Definition loss_pattern : Re.pattern :=
  Eval vm_compute in
  Re.pat "\b(loss|losses|lost|spent|expense|expenses|spend)\b".

Definition amount_pattern : Re.pattern :=
  Eval vm_compute in Re.pat "\b(how much|what|total|amount|sum|did|have)\b".

Definition year_pattern : Re.pattern :=
  Eval vm_compute in Re.pat "\b(20\d{2})\b".

Definition today_pattern : Re.pattern := Eval vm_compute in Re.pat "\btoday\b".

Definition report_pattern : Re.pattern :=
  Eval vm_compute in Re.pat "\b(report|summary|overview|total)\b".

(** [_extract_date_from_match] on [match.groups()]. *)
Definition _extract_date_from_match (groups : list (option string))
  : option string :=
  let numeric :=
    if truthy (nth_group 0 groups) && truthy (nth_group 1 groups)
       && truthy (nth_group 2 groups)
    then DataExtractor.numeric_date groups
    else None in
  match numeric with
  | Some d => Some d
  | None =>
      if truthy (nth_group 4 groups) && truthy (nth_group 5 groups) then
        let month_name := DataExtractor.group_lower 4 groups in
        let day := DataExtractor.group_int 3 groups in
        let year := expand_year (DataExtractor.group_int 5 groups) in
        match dict_get month_name month_names with
        | Some month =>
            match Date.datetime year month day with
            | Ok date_obj => Some (Date.strftime date_obj)
            | Raise _ => None
            end
        | None => None
        end
      else None
  end.

(** The [params] dictionary. *)
Abbreviation params := (gmap string pyval).

(** The type keyword scan shared by the rules: the profit pattern first,
    then the loss pattern. *)
Definition type_keyword (query : string) : option string :=
  if Re.matches false profit_pattern query then Some "profit"
  else if Re.matches false loss_pattern query then Some "loss"
  else None.

Definition set_type (t : option string) (ps : params) : params :=
  match t with
  | Some w => <["type" := VStr w]> ps
  | None => ps
  end.

(** The state threaded through [_parse_query]. *)
Definition pstate : Type := query_type * params.

(** Rule 1: a relative date keyword. *)
Definition rule_relative (now : Date.date) (query : string)
  (relative_date_match : option Re.rmatch) (st : pstate) : result pstate :=
  match relative_date_match with
  | Some m =>
      let relative_date :=
        Str.lower (match Re.group 1 m with Some t => t | None => "" end) in
      let today := now in
      let! date_str :=
        if (relative_date =? "today")%string then Ok (Date.strftime today)
        else if (relative_date =? "yesterday")%string then
          let! d := Date.minus_one_day today in Ok (Date.strftime d)
        else if (relative_date =? "tomorrow")%string then
          let! d := Date.plus_one_day today in Ok (Date.strftime d)
        else Ok (Date.strftime today) in
      Ok (date_query,
          set_type (type_keyword query) (<["date" := VStr date_str]> (snd st)))
  | None => Ok st
  end.

(** [self.month_names[month_match.group(1).lower()]] *)
Definition mentioned_month (m : Re.rmatch) : Z :=
  let month_name :=
    Str.lower (match Re.group 1 m with Some t => t | None => "" end) in
  match dict_get month_name month_names with
  | Some n => n
  | None => 0%Z
  end.

(** The year of the query: the first [20xx] in it, or the current year. *)
Definition mentioned_year (now : Date.date) (query : string) : Z :=
  match Re.search false year_pattern query with
  | Some year_match =>
      Py.int_of_digits
        (match Re.group 1 year_match with Some t => t | None => "" end)
  | None => Date.year now
  end.

(** Rule 2: a month name, unless a relative date matched. *)
Definition rule_month (now : Date.date) (query : string)
  (month_match relative_date_match : option Re.rmatch) (st : pstate) : pstate :=
  match month_match, relative_date_match with
  | Some m, None =>
      let ps := <["year" := VInt (mentioned_year now query)]>
                  (<["month" := VInt (mentioned_month m)]> (snd st)) in
      match type_keyword query with
      | Some w => (type_query, <["type" := VStr w]> ps)
      | None => (monthly_report, ps)
      end
  | _, _ => st
  end.

(** Rule 3: an explicit date, unless a relative date matched. *)
Definition rule_date (query : string)
  (date_match relative_date_match : option Re.rmatch) (st : pstate) : pstate :=
  match date_match, relative_date_match with
  | Some m, None =>
      match _extract_date_from_match (Re.groups date_pattern m) with
      | Some date_str =>
          (date_query,
           set_type (type_keyword query) (<["date" := VStr date_str]> (snd st)))
      | None => st
      end
  | _, _ => st
  end.

Definition is_unknown (q : query_type) : bool :=
  match q with
  | unknown => true
  | _ => false
  end.

(** Rule 4: an amount question while the type is still [unknown]. *)
Definition rule_amount (now : Date.date) (query : string) (st : pstate)
  : pstate :=
  if Re.matches false amount_pattern query && negb (is_unknown (fst st)) then st
  else if Re.matches false amount_pattern query && is_unknown (fst st) then
    if Re.matches true today_pattern query
    then (date_query, <["date" := VStr (Date.strftime now)]> (snd st))
    else (summary, <["type" := VNone]> (snd st))
  else st.

Definition is_some {A : Type} (o : option A) : bool :=
  match o with
  | Some _ => true
  | None => false
  end.

(** Rule 5: a report keyword while the type is still [unknown]. *)
Definition rule_report (query : string)
  (month_match date_match relative_date_match : option Re.rmatch)
  (st : pstate) : pstate :=
  if Re.matches false report_pattern query && is_unknown (fst st) then
    if Re.matches false profit_pattern query
    then (summary, <["type" := VStr "profit"]> (snd st))
    else if Re.matches false loss_pattern query
    then (summary, <["type" := VStr "loss"]> (snd st))
    else if negb (is_some month_match) && negb (is_some date_match)
            && negb (is_some relative_date_match)
    then (summary, <["type" := VNone]> (snd st))
    else st
  else st.

Definition _parse_query (now : Date.date) (query : string) : result pstate :=
  let relative_date_match := Re.search true relative_date_pattern query in
  let! st1 := rule_relative now query relative_date_match (unknown, ∅) in
  let month_match := Re.search true month_pattern query in
  let st2 := rule_month now query month_match relative_date_match st1 in
  let date_match := Re.search true date_pattern query in
  let st3 := rule_date query date_match relative_date_match st2 in
  let st4 := rule_amount now query st3 in
  Ok (rule_report query month_match date_match relative_date_match st4).

(** The classification step of [analyze]: the query is lower-cased and
    parsed; the report is then built from the type and the parameters. *)
Definition classify (now : Date.date) (query : string) : result pstate :=
  _parse_query now (Str.lower query).

End QueryAnalyzer.

(* ===================================================================== *)
(** ** [csv_manager.py] *)

(** The ledger file.  The [csv] module is taken to store and return rows
    of cells unchanged, so a file is the list of its rows; [open] for
    reading raises [OSError] on an unreadable file and [open] for writing
    or appending raises it on an unwritable one. *)
Record filesys : Type :=
  { file : option (list (list string)); readable : bool; writable : bool }.

(** Code that reads and writes the file and may raise. *)
Definition io (A : Type) : Type := filesys -> result A * filesys.

Definition ret {A : Type} (a : A) : io A := fun fs => (Ok a, fs).

Definition throw {A : Type} (e : exn) : io A := fun fs => (Raise e, fs).

Definition bind {A B : Type} (m : io A) (f : A -> io B) : io B :=
  fun fs =>
    match m fs with
    | (Ok a, fs') => f a fs'
    | (Raise e, fs') => (Raise e, fs')
    end.

Notation "'do!' x ':=' m 'in' k" := (bind m (fun x => k))
  (at level 10, x pattern, m at level 100, k at level 200).

(** [try: m except Exception: h] *)
Definition catch {A : Type} (m : io A) (h : io A) : io A :=
  fun fs =>
    match m fs with
    | (Ok a, fs') => (Ok a, fs')
    | (Raise _, fs') => h fs'
    end.

(** The values of a row dictionary of [csv.DictReader], once the amount
    has been converted. *)
Inductive cell : Type :=
| CStr (s : string)
| CFloat (x : Py.float)
| CNone.

Module CSVManager.

(** [os.path.exists(self.csv_file)] *)
Definition path_exists : io bool :=
  fun fs => (Ok (match file fs with Some _ => true | None => false end), fs).

(** [open(self.csv_file, 'w')] and writing [rows]. *)
Definition write_rows (rows : list (list string)) : io unit :=
  fun fs =>
    if writable fs
    then (Ok tt, {| file := Some rows; readable := readable fs;
                    writable := writable fs |})
    else (Raise OSError, fs).

(** [open(self.csv_file, 'a')] and writing one row. *)
Definition append_row (row : list string) : io unit :=
  fun fs =>
    if writable fs
    then (Ok tt,
          {| file := Some (match file fs with
                           | Some rows => rows ++ [row]
                           | None => [row]
                           end);
             readable := readable fs; writable := writable fs |})
    else (Raise OSError, fs).

(** [open(self.csv_file, 'r')] and [list(csv.reader(f))]. *)
Definition read_rows : io (list (list string)) :=
  fun fs =>
    match file fs with
    | Some rows => if readable fs then (Ok rows, fs) else (Raise OSError, fs)
    | None => (Raise OSError, fs)
    end.

Definition expected_header : list string := ["type"; "amount"; "date"; "details"].

Definition list_string_eqb (a b : list string) : bool :=
  bool_decide (a = b).

Definition _ensure_file_exists : io unit :=
  do! ex := path_exists in
  if negb ex then write_rows [expected_header]
  else
    catch
      (do! rows := read_rows in
       match rows with
       | [] => write_rows [expected_header]
       | first :: _ =>
           let header := map (fun column => Str.lower (Str.strip column)) first in
           if negb (list_string_eqb header expected_header)
           then write_rows (expected_header :: rows)
           else ret tt
       end)
      (ret tt).

Definition _ensure_header_before_io : io unit :=
  catch _ensure_file_exists (ret tt).

(** *** [read_all_records] *)

(** A row dictionary of the reader. *)
Abbreviation row_dict := (gmap string cell).

(** [dict(zip(fieldnames, row))], the missing fields set to [None]. *)
Fixpoint zip_row (fieldnames row : list string) (d : row_dict) : row_dict :=
  match fieldnames, row with
  | k :: ks, v :: vs => zip_row ks vs (<[k := CStr v]> d)
  | k :: ks, [] => zip_row ks [] (<[k := CNone]> d)
  | [], _ => d
  end.

(** [row['amount'] = float(row['amount'])] *)
Definition convert_amount (d : row_dict) : result row_dict :=
  match d !! "amount" with
  | Some (CStr t) =>
      let! x := Py.float_of_string t in Ok (<["amount" := CFloat x]> d)
  | Some (CFloat x) => Ok d
  | Some CNone => Raise TypeError
  | None => Raise KeyError
  end.

(** The loop over the [DictReader]: empty rows are passed over, and the
    first row whose amount does not convert ends the reading with the
    records gathered so far. *)
Fixpoint read_dicts (fieldnames : list string) (rows : list (list string))
  : list row_dict :=
  match rows with
  | [] => []
  | [] :: rows' => read_dicts fieldnames rows'
  | row :: rows' =>
      match convert_amount (zip_row fieldnames row ∅) with
      | Ok d => d :: read_dicts fieldnames rows'
      | Raise _ => []
      end
  end.

Definition parse_file (rows : list (list string)) : list row_dict :=
  match rows with
  | fieldnames :: rows' => read_dicts fieldnames rows'
  | [] => []
  end.

Definition read_all_records : io (list row_dict) :=
  do! _ := _ensure_header_before_io in
  do! ex := path_exists in
  if negb ex then ret []
  else catch (do! rows := read_rows in ret (parse_file rows)) (ret []).

(** *** [save_record] *)

(** [str(v)] of a dictionary value. *)
Definition str_cell (c : cell) : string :=
  match c with
  | CStr t => t
  | CFloat x => Py.str_float x
  | CNone => "None"
  end.

(** [str(d.get(k, ''))] *)
Definition get_str (k : string) (d : row_dict) : string :=
  match d !! k with
  | Some c => str_cell c
  | None => ""
  end.

Definition key : Type := string * string * string * string.

Definition record_key (r : record) : key :=
  (Str.lower (r_type r), Py.str_float (r_amount r), r_date r, r_details r).

Definition existing_key (d : row_dict) : key :=
  (Str.lower (get_str "type" d), get_str "amount" d, get_str "date" d,
   get_str "details" d).

Definition key_eqb (a b : key) : bool :=
  match a, b with
  | (a1, a2, a3, a4), (b1, b2, b3, b4) =>
      (a1 =? b1)%string && (a2 =? b2)%string && (a3 =? b3)%string
      && (a4 =? b4)%string
  end.

(** The row written by [csv.DictWriter] for a record. *)
Definition row_of_record (r : record) : list string :=
  [r_type r; Py.str_float (r_amount r); r_date r; r_details r].

Definition save_record (r : record) (check_duplicates : bool) : io bool :=
  catch
    (do! _ := _ensure_header_before_io in
     do! dup :=
       (if check_duplicates then
          do! existing_records := read_all_records in
          ret (existsb (fun existing =>
                          key_eqb (record_key r) (existing_key existing))
                       existing_records)
        else ret false) in
     if dup then ret false
     else do! _ := append_row (row_of_record r) in ret true)
    (ret false).

(** *** The queries on the records *)

(** A result that does not touch the file. *)
Definition lift {A : Type} (x : result A) : io A := fun fs => (x, fs).

(** A list comprehension, or a loop with [continue], whose test may
    raise: the first record whose test raises ends it. *)
Fixpoint filter_r {A : Type} (f : A -> result bool) (l : list A)
  : result (list A) :=
  match l with
  | [] => Ok []
  | x :: l' =>
      let! keep := f x in
      let! rest := filter_r f l' in
      Ok (if keep then x :: rest else rest)
  end.

(** [record[k]] *)
Definition item (k : string) (d : row_dict) : result cell :=
  match d !! k with
  | Some c => Ok c
  | None => Raise KeyError
  end.

(** [v.lower()] *)
Definition cell_lower (c : cell) : result string :=
  match c with
  | CStr t => Ok (Str.lower t)
  | _ => Raise AttributeError
  end.

(** [r['type'].lower() == transaction_type.lower()] *)
Definition has_type (transaction_type : string) (r : row_dict) : result bool :=
  let! c := item "type" r in
  let! t := cell_lower c in
  Ok (t =? Str.lower transaction_type)%string.

Definition get_records_by_type (transaction_type : string)
  : io (list row_dict) :=
  do! all_records := read_all_records in
  lift (filter_r (has_type transaction_type) all_records).

(** [v < s] and [v > s] for a text [s]: the order of strings, character
    code by character code; a value that is no string cannot be compared. *)
Definition cell_lt (c : cell) (s : string) : result bool :=
  match c with
  | CStr t => Ok (String.ltb t s)
  | _ => Raise TypeError
  end.

Definition cell_gt (c : cell) (s : string) : result bool :=
  match c with
  | CStr t => Ok (String.ltb s t)
  | _ => Raise TypeError
  end.

(** The body of the loop of [get_records_by_date_range]. *)
Definition in_range (start_date end_date : option string) (record : row_dict)
  : result bool :=
  let! record_date := item "date" record in
  let! before :=
    match start_date with
    | Some (String _ _ as s) => cell_lt record_date s
    | _ => Ok false
    end in
  if before then Ok false
  else
    let! after :=
      match end_date with
      | Some (String _ _ as e) => cell_gt record_date e
      | _ => Ok false
      end in
    Ok (negb after).

Definition get_records_by_date_range (start_date end_date : option string)
  : io (list row_dict) :=
  do! all_records := read_all_records in
  if negb (truthy start_date) && negb (truthy end_date) then ret all_records
  else lift (filter_r (in_range start_date end_date) all_records).

(** The regular expression [_strptime] builds for the format [%Y-%m-%d]. *)
Definition strptime_pattern : Re.pattern :=
  Eval vm_compute in
  Re.pat "(\d\d\d\d)-(1[0-2]|0[1-9]|[1-9])-(3[0-1]|[1-2]\d|0[1-9]|[1-9]| [1-9])".

(** [int(found_dict[...])] *)
Definition int_group (i : nat) (g : list (option string)) : Z :=
  match nth_group i g with
  | Some t => Py.int_of_digits (Str.strip t)
  | None => 0%Z
  end.

(** [datetime.strptime(v, '%Y-%m-%d')]: [TypeError] when [v] is no string,
    [ValueError] when the string does not match the format, is longer than
    the match, or names no calendar date. *)
Definition strptime (v : cell) : result Date.date :=
  match v with
  | CStr data_string =>
      match Re.match_at true strptime_pattern
              {| Re.prev := None; Re.rest := Str.chars data_string;
                 Re.pos := 0 |} with
      | Some found =>
          if (Re.m_end found =? String.length data_string)%nat then
            let g := Re.groups strptime_pattern found in
            Date.datetime (int_group 0 g) (int_group 1 g) (int_group 2 g)
          else Raise ValueError
      | None => Raise ValueError
      end
  | _ => Raise TypeError
  end.

(** The body of the loop of [get_records_by_month]: a date that does not
    parse is passed over. *)
Definition in_month (year month : Z) (record : row_dict) : result bool :=
  let! v := item "date" record in
  match strptime v with
  | Ok record_date =>
      Ok ((Date.year record_date =? year)%Z
          && (Date.month record_date =? month)%Z)
  | Raise ValueError => Ok false
  | Raise e => Raise e
  end.

Definition get_records_by_month (year month : Z) : io (list row_dict) :=
  do! all_records := read_all_records in
  lift (filter_r (in_month year month) all_records).

(** [r['date'] == date] *)
Definition on_date (date : string) (r : row_dict) : result bool :=
  let! v := item "date" r in
  Ok (match v with
      | CStr t => (t =? date)%string
      | _ => false
      end).

Definition get_records_by_date (date : string) : io (list row_dict) :=
  do! all_records := read_all_records in
  lift (filter_r (on_date date) all_records).


End CSVManager.

(* ===================================================================== *)
(** ** [query_analyzer.py]: the reports *)

(** A total as [sum] returns it: the integer [0] of a sum over nothing,
    or a float. *)
Inductive number : Type :=
| Int0
| Flt (x : Py.float).

(** The [json] part of an answer, one constructor for each report; the
    arguments are the values of the dictionary in the order of its keys,
    those of the inner [summary] dictionary in their place. *)
Inductive report : Type :=
| MonthlyReport (period : string)
    (total_profit total_loss net : number) (profit_count loss_count : nat)
    (profits losses : list (gmap string cell))
| DateReport (date : string) (type_filter : option string)
    (total : option number) (total_profit total_loss : number)
    (net : option number) (count : nat)
    (records : list (gmap string cell))
| TypeReport (type period : string)
    (total : number) (count : nat)
    (records : list (gmap string cell))
| SummaryReport (type_filter : option string)
    (total_profit total_loss net : number) (profit_count loss_count : nat)
    (total_records : nat).

(** The dictionary [analyze] returns. *)
Record answer : Type := { a_text : string; a_json : option report }.

Module Reports.

Import CSVManager QueryAnalyzer.
Local Open Scope string_scope.

(** *** Numbers and their printing *)

(** [x + y] and [x - y] on floats. *)
Definition fadd : Py.float -> Py.float -> Py.float := SFadd Py.prec Py.emax.
Definition fsub : Py.float -> Py.float -> Py.float := SFsub Py.prec Py.emax.

(** The float an [int] 0 becomes next to a float. *)
Definition as_float (n : number) : Py.float :=
  match n with
  | Int0 => S754_zero false
  | Flt x => x
  end.

(** [a - b] *)
Definition minus (a b : number) : number :=
  match a, b with
  | Int0, Int0 => Int0
  | _, _ => Flt (fsub (as_float a) (as_float b))
  end.

(** The digits of an integer part with a comma before every group of
    three; [l] holds the digits from the last one and [k] counts those
    of the group at hand. *)
Fixpoint group_rev (k : nat) (l : list ascii) : list ascii :=
  match l with
  | [] => []
  | d :: l' =>
      match l' with
      | [] => [d]
      | _ => if (k =? 2)%nat then d :: ","%char :: group_rev 0 l'
             else d :: group_rev (S k) l'
      end
  end.

Definition thousands (digits : list ascii) : list ascii :=
  rev (group_rev 0 (rev digits)).

(** [format(x, ',.2f')]: the exact value rounded half-to-even to two
    decimals, the integer part grouped by thousands. *)
Definition format_float (x : Py.float) : string :=
  match x with
  | S754_nan => "nan"
  | S754_infinity s => if s then "-inf" else "inf"
  | S754_zero s => if s then "-0.00" else "0.00"
  | S754_finite s m e =>
      let n := if (0 <=? e)%Z then (Zpos m * 2 ^ e * 100)%Z
               else Py.round_half_even (Zpos m * 100) (2 ^ (- e)) in
      let body :=
        Str.of_chars (thousands (Py.nat_digits (n / 100)))
        ++ "." ++ Py.pad_int 2 (n mod 100) in
      if s then String "-" body else body
  end.

Definition format_number (n : number) : string :=
  match n with
  | Int0 => "0.00"
  | Flt x => format_float x
  end.

(** [f"{v:,.2f}"] of a dictionary value. *)
Definition format_cell (c : cell) : result string :=
  match c with
  | CFloat x => Ok (format_float x)
  | CStr _ => Raise ValueError
  | CNone => Raise TypeError
  end.

(** [str(len(l))] *)
Definition str_len {A : Type} (l : list A) : string :=
  Py.str_int (Z.of_nat (List.length l)).

Definition nl : string := String "010"%char EmptyString.

(** ["=" * 50 + "\n\n"] and ["-" * 50 + "\n"] *)
Definition double_rule : string :=
  Str.of_chars (repeat "="%char 50) ++ nl ++ nl.

Definition rule : string := Str.of_chars (repeat "-"%char 50) ++ nl.

(** *** The parts the reports share *)

(** A loop whose body may raise, the results gathered in order. *)
Fixpoint map_r {A B : Type} (f : A -> result B) (l : list A)
  : result (list B) :=
  match l with
  | [] => Ok []
  | x :: l' =>
      let! y := f x in
      let! rest := map_r f l' in
      Ok (y :: rest)
  end.

(** [text += f(r)] for each record. *)
Definition lines (f : row_dict -> result string) (records : list row_dict)
  : result string :=
  let! ls := map_r f records in Ok (String.concat "" ls).

(** [r['type'].lower() == w] *)
Definition type_is (w : string) (r : row_dict) : result bool :=
  let! c := item "type" r in
  let! t := cell_lower c in
  Ok (t =? w)%string.

(** [v.capitalize()] *)
Definition cell_capitalize (c : cell) : result string :=
  match c with
  | CStr t => Ok (Str.capitalize t)
  | _ => Raise AttributeError
  end.

(** An amount as [sum] meets it: a value that is no number cannot be
    added. *)
Definition amount_of (r : row_dict) : result Py.float :=
  let! c := item "amount" r in
  match c with
  | CFloat x => Ok x
  | _ => Raise TypeError
  end.

(** [f"  ${r['amount']:,.2f} on {r['date']} - {r['details']}\n"] *)
Definition line_on_date (r : row_dict) : result string :=
  let! a := item "amount" r in
  let! amount := format_cell a in
  let! date := item "date" r in
  let! details := item "details" r in
  Ok ("  $" ++ amount ++ " on " ++ str_cell date ++ " - "
        ++ str_cell details ++ nl).

(** [f"  ${r['amount']:,.2f} - {r['details']}\n"] *)
Definition line_plain (r : row_dict) : result string :=
  let! a := item "amount" r in
  let! amount := format_cell a in
  let! details := item "details" r in
  Ok ("  $" ++ amount ++ " - " ++ str_cell details ++ nl).

(** [f"  {r['type'].capitalize()}: ${r['amount']:,.2f} - {r['details']}\n"] *)
Definition line_with_type (r : row_dict) : result string :=
  let! t := item "type" r in
  let! type := cell_capitalize t in
  let! a := item "amount" r in
  let! amount := format_cell a in
  let! details := item "details" r in
  Ok ("  " ++ type ++ ": $" ++ amount ++ " - " ++ str_cell details ++ nl).

(** [[k for k, v in self.month_names.items() if v == month][0].capitalize()] *)
Definition month_name_of (month : Z) : result string :=
  match filter (fun kv => (snd kv =? month)%Z) month_names with
  | (k, _) :: _ => Ok (Str.capitalize k)
  | [] => Raise IndexError
  end.

(** The truth value of an optional integer: neither [None] nor [0]. *)
Definition truthy_int (n : option Z) : bool :=
  match n with
  | Some n => negb (n =? 0)%Z
  | None => false
  end.

(** [f"{month_name} {year}" if month_name and year else "All time"] *)
Definition period_str (month_name : option string) (year : option Z)
  : string :=
  match year with
  | Some y =>
      if truthy month_name && truthy_int year
      then (match month_name with Some name => name | None => "" end)
           ++ " " ++ Py.str_int y
      else "All time"
  | None => "All time"
  end.

Section Analyzer.

(** [self.use_llm]; the summarizer is built exactly when it is set. *)
Variable use_llm : bool.

(** [self.llm_summarizer.generate_summary]: the text comes from a service
    outside the program, or the call raises. *)
Variable generate_summary :
  list row_dict -> string -> string -> result string.

(** [sum] of one float or more, as the interpreter adds them: one after
    the other up to Python 3.11, with a correction term from 3.12 on. *)
Variable float_sum : list Py.float -> Py.float.

(** [sum(r['amount'] for r in records)] *)
Definition sum_amounts (records : list row_dict) : result number :=
  let! amounts := map_r amount_of records in
  Ok (match amounts with
      | [] => Int0
      | _ => Flt (float_sum amounts)
      end).

(** *** [_generate_monthly_report] *)

(** The report on the records found, from [if not records] on. *)
Definition monthly_answer (records : list row_dict)
  (month_name : option string) (title : string) (year : option Z)
  : result answer :=
  match records with
  | [] => Ok {| a_text := "No records found for the specified period.";
                a_json := None |}
  | _ =>
      let! profits := filter_r (type_is "profit") records in
      let! losses := filter_r (type_is "loss") records in
      let! total_profit := sum_amounts profits in
      let! total_loss := sum_amounts losses in
      let net := minus total_profit total_loss in
      let! text :=
        (if use_llm then
           let query :=
             match year with
             | Some y =>
                 if truthy month_name && truthy_int year
                 then "Generate a monthly report for "
                      ++ (match month_name with
                          | Some name => name
                          | None => ""
                          end)
                      ++ " " ++ Py.str_int y
                 else "Generate a monthly report"
             | None => "Generate a monthly report"
             end in
           generate_summary records query "monthly"
         else
           let text :=
             title ++ nl ++ double_rule
             ++ "Total Profit: $" ++ format_number total_profit
             ++ " (" ++ str_len profits ++ " transactions)" ++ nl
             ++ "Total Loss: $" ++ format_number total_loss
             ++ " (" ++ str_len losses ++ " transactions)" ++ nl
             ++ "Net: $" ++ format_number net ++ nl ++ nl in
           let! text :=
             match profits with
             | [] => Ok text
             | _ =>
                 let! details := lines line_on_date profits in
                 Ok (text ++ "Profit Details:" ++ nl ++ rule
                       ++ details ++ nl)
             end in
           match losses with
           | [] => Ok text
           | _ =>
               let! details := lines line_on_date losses in
               Ok (text ++ "Loss Details:" ++ nl ++ rule ++ details)
           end) in
      Ok {| a_text := text;
            a_json :=
              Some (MonthlyReport (period_str month_name year)
                      total_profit total_loss net
                      (List.length profits) (List.length losses)
                      profits losses) |}
  end.

Definition _generate_monthly_report (month year : option Z) : io answer :=
  do! found :=
    (match month, year with
     | Some m, Some y =>
         if truthy_int month && truthy_int year then
           do! records := get_records_by_month y m in
           do! month_name := lift (month_name_of m) in
           ret (records, Some month_name,
                "Monthly Report for " ++ month_name ++ " " ++ Py.str_int y)
         else
           do! records := read_all_records in
           ret (records, None, "Overall Monthly Report")
     | _, _ =>
         do! records := read_all_records in
         ret (records, None, "Overall Monthly Report")
     end) in
  let '(records, month_name, title) := found in
  lift (monthly_answer records month_name title year).

(** *** [_generate_date_report] *)

(** The report on the records found, from [if not records] on. *)
Definition date_answer (records : list row_dict) (date : string)
  (transaction_type : option string) : result answer :=
  match records with
  | [] =>
      let type_str :=
        match transaction_type with
        | Some (String _ _ as t) => " " ++ t
        | _ => ""
        end in
      Ok {| a_text := "No" ++ type_str ++ " records found for " ++ date ++ ".";
            a_json := None |}
  | _ =>
      let! total := sum_amounts records in
      let! profits := filter_r (type_is "profit") records in
      let! losses := filter_r (type_is "loss") records in
      let! total_profit := sum_amounts profits in
      let! total_loss := sum_amounts losses in
      let type_str :=
        match transaction_type with
        | Some (String _ _ as t) => Str.capitalize t
        | _ => "All"
        end in
      let text := type_str ++ " Records for " ++ date ++ nl ++ double_rule in
      let! text :=
        match transaction_type with
        | Some (String _ _ as t) =>
            let! details := lines line_plain records in
            Ok (text ++ "Total " ++ Str.capitalize t ++ ": $"
                  ++ format_number total ++ nl ++ nl
                  ++ "Details:" ++ nl ++ rule ++ details)
        | _ =>
            let! details := lines line_with_type records in
            Ok (text
                  ++ "Total Profit: $" ++ format_number total_profit
                  ++ " (" ++ str_len profits ++ " transactions)" ++ nl
                  ++ "Total Loss: $" ++ format_number total_loss
                  ++ " (" ++ str_len losses ++ " transactions)" ++ nl
                  ++ "Net: $" ++ format_number (minus total_profit total_loss)
                  ++ nl ++ nl
                  ++ "All Transactions:" ++ nl ++ rule ++ details)
        end in
      Ok {| a_text := text;
            a_json :=
              Some (DateReport date transaction_type
                      (if truthy transaction_type then Some total else None)
                      total_profit total_loss
                      (if negb (truthy transaction_type)
                       then Some (minus total_profit total_loss)
                       else None)
                      (List.length records) records) |}
  end.

Definition _generate_date_report (date : string)
  (transaction_type : option string) : io answer :=
  do! records := get_records_by_date date in
  do! records :=
    lift (match transaction_type with
          | Some (String _ _ as t) => filter_r (has_type t) records
          | _ => Ok records
          end) in
  lift (date_answer records date transaction_type).

(** *** [_generate_type_report] *)

(** The report on the records found, from [if not records] on. *)
Definition type_answer (records : list row_dict) (transaction_type : string)
  (month_name : option string) (title : string) (year : option Z)
  : result answer :=
  match records with
  | [] =>
      Ok {| a_text := "No " ++ transaction_type
                        ++ " records found for the specified period.";
            a_json := None |}
  | _ =>
      let! total := sum_amounts records in
      let! details := lines line_on_date records in
      let text :=
        title ++ nl ++ double_rule
        ++ "Total " ++ Str.capitalize transaction_type ++ ": $"
        ++ format_number total
        ++ " (" ++ str_len records ++ " transactions)" ++ nl ++ nl
        ++ "Details:" ++ nl ++ rule ++ details in
      Ok {| a_text := text;
            a_json :=
              Some (TypeReport transaction_type
                      (period_str month_name year)
                      total (List.length records) records) |}
  end.

Definition _generate_type_report (transaction_type : string)
  (month year : option Z) : io answer :=
  do! found :=
    (match month, year with
     | Some m, Some y =>
         if truthy_int month && truthy_int year then
           do! records := get_records_by_month y m in
           do! records := lift (filter_r (has_type transaction_type) records) in
           do! month_name := lift (month_name_of m) in
           ret (records, Some month_name,
                "All " ++ Str.capitalize transaction_type ++ " Details for "
                  ++ month_name ++ " " ++ Py.str_int y)
         else
           do! records := get_records_by_type transaction_type in
           ret (records, None,
                "All " ++ Str.capitalize transaction_type ++ " Details")
     | _, _ =>
         do! records := get_records_by_type transaction_type in
         ret (records, None,
              "All " ++ Str.capitalize transaction_type ++ " Details")
     end) in
  let '(records, month_name, title) := found in
  lift (type_answer records transaction_type month_name title year).

(** *** [_generate_summary] *)

(** The report on the records found, from [if not records] on. *)
Definition summary_answer (records : list row_dict)
  (transaction_type : option string) : result answer :=
  match records with
  | [] => Ok {| a_text := "No records found."; a_json := None |}
  | _ =>
      let! profits := filter_r (type_is "profit") records in
      let! losses := filter_r (type_is "loss") records in
      let! total_profit := sum_amounts profits in
      let! total_loss := sum_amounts losses in
      let net := minus total_profit total_loss in
      let text :=
        match transaction_type with
        | Some (String _ _ as t) =>
            let total :=
              if (t =? "profit")%string then total_profit
              else total_loss in
            "Overall " ++ Str.capitalize t ++ " Summary" ++ nl
            ++ double_rule
            ++ "Total " ++ Str.capitalize t ++ ": $"
            ++ format_number total ++ nl
            ++ "Number of transactions: "
            ++ (if (t =? "profit")%string then str_len profits
                else str_len losses)
            ++ nl
        | _ =>
            "Overall Financial Summary" ++ nl ++ double_rule
            ++ "Total Profit: $" ++ format_number total_profit
            ++ " (" ++ str_len profits ++ " transactions)" ++ nl
            ++ "Total Loss: $" ++ format_number total_loss
            ++ " (" ++ str_len losses ++ " transactions)" ++ nl
            ++ "Net: $" ++ format_number net ++ nl
        end in
      Ok {| a_text := text;
            a_json :=
              Some (SummaryReport transaction_type
                      total_profit total_loss net
                      (List.length profits) (List.length losses)
                      (List.length records)) |}
  end.

Definition _generate_summary (transaction_type : option string) : io answer :=
  do! records :=
    (match transaction_type with
     | Some (String _ _ as t) => get_records_by_type t
     | _ => read_all_records
     end) in
  lift (summary_answer records transaction_type).

(** *** [analyze] *)

(** [params.get(k)] where [_parse_query] stores an integer, and where it
    stores a text or [None]. *)
Definition get_int (k : string) (ps : params) : option Z :=
  match ps !! k with
  | Some (VInt n) => Some n
  | _ => None
  end.

Definition get_text (k : string) (ps : params) : option string :=
  match ps !! k with
  | Some (VStr s) => Some s
  | _ => None
  end.

Definition help_text : string :=
  "I couldn't understand your query. Please try asking about:" ++ nl
  ++ "- Today's transactions (e.g., 'How much did I today?' or 'What did I spend today?')"
  ++ nl
  ++ "- Specific dates (e.g., 'Show me all profit details for March')" ++ nl
  ++ "- Amounts on dates (e.g., 'How much loss did I have on 12 August?')"
  ++ nl
  ++ "- Monthly reports (e.g., 'Generate a monthly profit/loss report')".

(** [analyze]: the question is classified and the report of its type is
    built; what the classification or a report raises is not caught.
    [_parse_query] stores a date with every date question and a type with
    every type question, so the two branches for a missing text are never
    taken. *)
Definition analyze (now : Date.date) (query : string) : io answer :=
  do! parsed := lift (classify now query) in
  let '(query_type, params) := parsed in
  match query_type with
  | monthly_report =>
      _generate_monthly_report (get_int "month" params) (get_int "year" params)
  | date_query =>
      match get_text "date" params with
      | Some date => _generate_date_report date (get_text "type" params)
      | None => throw TypeError
      end
  | type_query =>
      match get_text "type" params with
      | Some transaction_type =>
          _generate_type_report transaction_type
            (get_int "month" params) (get_int "year" params)
      | None => throw TypeError
      end
  | summary => _generate_summary (get_text "type" params)
  | unknown => ret {| a_text := help_text; a_json := None |}
  end.

End Analyzer.

End Reports.

(* ===================================================================== *)
(** ** [voice_assistant.py] *)

(** The dictionary [process_transcription] returns. *)
Record outcome : Type :=
  { o_json : record; o_message : string; o_transcribed_text : string }.

Module VoiceToDataAssistant.

Import CSVManager.

(** [process_transcription]: the record is extracted, then saved with the
    duplicate check; what [extract] raises is not caught. *)
Definition process_transcription (now : Date.date) (transcribed_text : string)
  : io outcome :=
  do! extracted_data := lift (DataExtractor.extract now transcribed_text) in
  do! success := save_record extracted_data true in
  if success then
    ret {| o_json := extracted_data;
           o_message := "Record saved successfully";
           o_transcribed_text := transcribed_text |}
  else
    ret {| o_json := extracted_data;
           o_message := "Data extracted but failed to save to CSV";
           o_transcribed_text := transcribed_text |}.

(** [get_all_records] *)
Definition get_all_records : io (list row_dict) := read_all_records.


End VoiceToDataAssistant.

(* ===================================================================== *)
(** ** Spoken numbers as the specification words them

    A number word is a unit word, a tens word, the connector [and] or a
    scale word.  The accumulator keeps a running value and a total; the
    normalization replaces every maximal sequence of number words by the
    value the accumulator gives for it. *)

Module SpokenNumbers.

Definition number_word (w : string) : bool :=
  DataExtractor.in_dict w DataExtractor.units
  || DataExtractor.in_dict w DataExtractor.tens
  || (w =? "and")%string
  || DataExtractor.in_dict w DataExtractor.scales.

(** One word read by the accumulator, on the state [(running, total)]. *)
Definition accumulate (st : Z * Z) (w : string) : Z * Z :=
  let (running, total) := st in
  match dict_get w DataExtractor.units with
  | Some u => ((running + u)%Z, total)
  | None =>
      match dict_get w DataExtractor.tens with
      | Some t => ((running + t)%Z, total)
      | None =>
          if (w =? "and")%string then (running, total)
          else
            match dict_get w DataExtractor.scales with
            | Some scale =>
                (0%Z,
                 (total + (if (running =? 0)%Z then 1 else running) * scale)%Z)
            | None => (running, total)
            end
      end
  end.





End SpokenNumbers.

(* ===================================================================== *)
(** ** The ledger as its interface shows it *)

Module Ledger.

(** The file once [_ensure_header_before_io] has run. *)
Definition ensured (fs : filesys) : filesys :=
  snd (CSVManager._ensure_header_before_io fs).

(** What the reader makes of the file as it stands. *)
Definition visible (fs : filesys) : list CSVManager.row_dict :=
  match file fs with
  | Some rows => if readable fs then CSVManager.parse_file rows else []
  | None => []
  end.

(** The records of the store: what [read_all_records] returns. *)
Definition records (fs : filesys) : list CSVManager.row_dict :=
  match fst (CSVManager.read_all_records fs) with
  | Ok l => l
  | Raise _ => []
  end.




(** A row the reader passes over or converts under the expected header. *)
Definition row_reads (row : list string) : bool :=
  match row with
  | [] => true
  | _ =>
      match CSVManager.convert_amount
              (CSVManager.zip_row CSVManager.expected_header row ∅) with
      | Ok _ => true
      | Raise _ => false
      end
  end.





(** The file after a successful append. *)
Definition appended (fs : filesys) (row : list string) : filesys :=
  {| file := Some (match file fs with
                   | Some rows => rows ++ [row]
                   | None => [row]
                   end);
     readable := readable fs; writable := writable fs |}.

End Ledger.

(* ===================================================================== *)
(** ** The parts of the amount and percentage patterns, by name *)

Module Shape.

Import Re.

Definition digits (lo : nat) (hi : option nat) : re :=
  Rep true lo hi (Cls CDigit).

Definition spaces : re := Rep true 0 None (Cls CSpace).

(** [\d+(?:,\d{3})*(?:\.\d{2})?] *)
Definition thousands : re :=
  Rep true 0 None (Seq (Lit ",") (digits 3 (Some 3))).
Definition cents : re :=
  Rep true 0 (Some 1) (Seq (Lit ".") (digits 2 (Some 2))).
Definition number : re := Seq (digits 1 None) (Seq thousands cents).

(** A literal text followed by [r]. *)
Definition lits_then (s : string) (r : re) : re :=
  fold_right (fun a acc => Seq (Lit a) acc) r (Str.chars s).

(** [dollars?|USD|rs|rupees?] *)
Definition unit_words : re :=
  Alt (lits_then "dollar" (Rep true 0 (Some 1) (Lit "s")))
    (Alt (lits (Str.chars "USD"))
       (Alt (lits (Str.chars "rs"))
          (lits_then "rupee" (Rep true 0 (Some 1) (Lit "s"))))).

Definition amount : re :=
  Alt (Seq (Rep true 0 (Some 1) (Lit "$")) (Seq (Grp 1 number) Bnd))
      (Seq Bnd (Seq (Grp 2 number) (Seq spaces unit_words))).

(** [\d+(?:\.\d+)?] *)
Definition decimal : re :=
  Seq (digits 1 None)
      (Rep true 0 (Some 1) (Seq (Lit ".") (digits 1 None))).

Definition profit_or_loss : re := words ["profit"; "loss"].

Definition percentage : re :=
  Alt (Seq profit_or_loss
         (Seq (Rep false 0 None (Cls CAny))
            (Seq (words ["is"; "of"; "at"])
               (Seq spaces (Seq (Grp 1 decimal) (Seq spaces (Lit "%")))))))
      (Seq (Grp 2 decimal)
         (Seq spaces (Seq (Lit "%") (Seq spaces profit_or_loss)))).







(** ** Patterns without groups, decimal texts and amount texts *)

Fixpoint groupless (r : re) : bool :=
  match r with
  | Grp _ _ => false
  | Seq a b => groupless a && groupless b
  | Alt a b => groupless a && groupless b
  | Rep _ _ _ a => groupless a
  | _ => true
  end.

Definition all_digits (l : list ascii) : Prop :=
  Forall (fun a => Chr.is_digit a = true) l.

(** What [\d+(?:,\d{3})*(?:\.\d{2})?] reads: digits, then digits and
    commas, then perhaps a period and digits. *)
Definition amount_text (w : list ascii) : Prop :=
  exists ds th cs,
    w = ds ++ th ++ cs
    /\ ds <> [] /\ all_digits ds
    /\ Forall (fun a => Chr.is_digit a = true \/ a = ","%char) th
    /\ (cs = [] \/ exists fs, cs = "."%char :: fs /\ all_digits fs).

End Shape.

(* ===================================================================== *)
(** ** Predicates for the properties of the extractor, the classifier
    and the store *)

Module Sign.

(** The sign bit of a float, [nan] counted as unsigned: [false] for
    [0.0], the positive numbers, [inf] and [nan]. *)
Definition sign_bit (x : Py.float) : bool :=
  match x with
  | S754_zero s => s
  | S754_infinity s => s
  | S754_finite s _ _ => s
  | S754_nan => false
  end.

(** A pattern that reads a text without group and then the group [n] on
    [body], as the investment patterns do. *)
Fixpoint ends_in_group (n : nat) (body r : Re.re) : Prop :=
  match r with
  | Re.Grp k a => k = n /\ a = body
  | Re.Seq a b => Shape.groupless a = true /\ ends_in_group n body b
  | _ => False
  end.

End Sign.

Module Trap.

(** The texts and days on which [_extract_date] steps off the month:
    [yesterday] said on the first day, [tomorrow] on the last, and no
    [today] before them. *)
Definition month_end_trap (now : Date.date) (text_lower : string) : Prop :=
  Re.matches false DataExtractor.today_pattern text_lower = false
  /\ ((Re.matches false DataExtractor.yesterday_pattern text_lower = true
       /\ Date.day now = 1%Z)
      \/ (Re.matches false DataExtractor.yesterday_pattern text_lower = false
          /\ Re.matches false DataExtractor.tomorrow_pattern text_lower = true
          /\ Date.day now
             = Date.days_in_month (Date.year now) (Date.month now))).

End Trap.

Module Questions.

(** The parameters that go with each type of question. *)
Definition params_shape (qt : query_type) (ps : QueryAnalyzer.params) : Prop :=
  match qt with
  | unknown => ps = ∅
  | monthly_report =>
      exists m y,
        ps = <["year" := VInt y]> (<["month" := VInt m]> ∅)
        /\ (1 <= m <= 12)%Z
  | type_query =>
      exists m y w,
        ps = <["type" := VStr w]>
               (<["year" := VInt y]> (<["month" := VInt m]> ∅))
        /\ (1 <= m <= 12)%Z /\ (w = "profit" \/ w = "loss")
  | date_query => exists d, ps !! "date" = Some (VStr d)
  | summary =>
      exists t,
        ps = <["type" := t]> ∅
        /\ (t = VNone \/ t = VStr "profit" \/ t = VStr "loss")
  end.

(** The day a relative keyword names. *)
Definition relative_day (now : Date.date) (w : string) : result Date.date :=
  if (w =? "yesterday")%string then Date.minus_one_day now
  else if (w =? "tomorrow")%string then Date.plus_one_day now
  else Ok now.

End Questions.

Module Store.

(** The header check of [_ensure_file_exists] on a first row. *)
Definition header_ok (first : list string) : Prop :=
  map (fun column => Str.lower (Str.strip column)) first
  = CSVManager.expected_header.


End Store.

Module StoreFull.



End StoreFull.

Module Calendar.

Import CSVManager.






End Calendar.

Module Found.


End Found.

Module Answers.

Import CSVManager.


(** The period of a monthly report and of a type report. *)
Definition period_of (j : report) : option string :=
  match j with
  | MonthlyReport period _ _ _ _ _ _ _ => Some period
  | TypeReport _ period _ _ _ => Some period
  | _ => None
  end.

(** A report with a type filter holds one side only: the other total is
    the [0] of an empty sum and its count is zero. *)
Definition one_sided (j : report) : Prop :=
  match j with
  | SummaryReport (Some t) total_profit total_loss _
      profit_count loss_count total_records =>
      (t = "profit" /\ total_loss = Int0 /\ loss_count = 0%nat
       /\ profit_count = total_records)
      \/ (t = "loss" /\ total_profit = Int0 /\ profit_count = 0%nat
          /\ loss_count = total_records)
  | DateReport _ (Some t) total total_profit total_loss _ _ _ =>
      (t = "profit" /\ total_loss = Int0 /\ total = Some total_profit)
      \/ (t = "loss" /\ total_profit = Int0 /\ total = Some total_loss)
  | _ => True
  end.

(** The records a report lists. *)
Definition listed (j : report) : list row_dict :=
  match j with
  | MonthlyReport _ _ _ _ _ _ profits losses => profits ++ losses
  | DateReport _ _ _ _ _ _ _ records => records
  | TypeReport _ _ _ _ records => records
  | SummaryReport _ _ _ _ _ _ _ => []
  end.

(** What a question asks of a record [d] listed in its report: the month
    and the year of the question, the type of the report, its date. *)
Definition in_question_month (now : Date.date) (query : string)
  (d : row_dict) : Prop :=
  exists mm,
    Re.search true QueryAnalyzer.month_pattern query = Some mm
    /\ in_month (QueryAnalyzer.mentioned_year now query)
         (QueryAnalyzer.mentioned_month mm) d = Ok true.

Definition asked (now : Date.date) (query : string) (j : report)
  (d : row_dict) : Prop :=
  match j with
  | MonthlyReport _ _ _ _ _ _ _ _ => in_question_month now query d
  | TypeReport t _ _ _ _ =>
      in_question_month now query d /\ has_type t d = Ok true
  | DateReport date type_filter _ _ _ _ _ _ =>
      on_date date d = Ok true
      /\ forall t, type_filter = Some t -> has_type t d = Ok true
  | SummaryReport _ _ _ _ _ _ _ => True
  end.

End Answers.

(* ===================================================================== *)
(** * Properties *)

(** ** The matcher is sound for the reading [sem] *)

Section MatcherSound.

Import Re.

Context {X : Type}.
Variable ic : bool.

Lemma rep_loop_sound (body : matcher) (R : transition) (gr : bool) (lo : nat)
  (hi : option nat) (k : cursor -> caps -> option X) :
  (forall c g k' (x : X),
      body c g k' = Some x -> exists c' g', R c g c' g' /\ k' c' g' = Some x) ->
  forall fuel cnt c g x,
    within cnt hi ->
    rep_loop body gr lo hi k fuel cnt c g = Some x ->
    exists n c' g',
      iter R n c g c' g' /\ (lo <= cnt + n)%nat /\ within (cnt + n) hi
      /\ k c' g' = Some x.
Proof.
  intros Hbody. induction fuel as [|f IH]; intros cnt c g x Hcnt H.
  - simpl in H. destruct (Nat.leb_spec lo cnt); [|discriminate].
    exists 0, c, g. rewrite Nat.add_0_r. simpl. auto.
  - simpl in H.
    assert (Hstop :
      (if (lo <=? cnt)%nat then k c g else None) = Some x ->
      exists n c' g',
        iter R n c g c' g' /\ (lo <= cnt + n)%nat /\ within (cnt + n) hi
        /\ k c' g' = Some x).
    { intros Hs. destruct (Nat.leb_spec lo cnt); [|discriminate].
      exists 0, c, g. rewrite Nat.add_0_r. simpl. auto. }
    assert (Hmore :
      (if below cnt hi
       then body c g
              (fun c' g' =>
                 if (pos c <? pos c')%nat
                 then rep_loop body gr lo hi k f (S cnt) c' g'
                 else None)
       else None) = Some x ->
      exists n c' g',
        iter R n c g c' g' /\ (lo <= cnt + n)%nat /\ within (cnt + n) hi
        /\ k c' g' = Some x).
    { intros Hm. destruct (below cnt hi) eqn:Hb; [|discriminate].
      apply Hbody in Hm as (c1 & g1 & HR & Hk).
      destruct (Nat.ltb_spec (pos c) (pos c1)); [|discriminate].
      assert (Hs : within (S cnt) hi).
      { unfold within, below in *. destruct hi; [|exact I].
        apply Nat.ltb_lt in Hb. lia. }
      apply (IH _ _ _ _ Hs) in Hk as (n & c' & g' & Hit & Hlo & Hhi & Hk).
      exists (S n), c', g'.
      replace (cnt + S n)%nat with (S cnt + n)%nat by lia.
      split; [|auto]. simpl. exists c1, g1. auto. }
    destruct gr.
    + destruct (if below cnt hi then _ else None) eqn:E.
      * injection H as ->. apply Hmore. reflexivity.
      * apply Hstop, H.
    + destruct (if (lo <=? cnt)%nat then k c g else None) eqn:E.
      * injection H as ->. apply Hstop. reflexivity.
      * apply Hmore, H.
Qed.

Lemma run_sound (r : re) :
  forall c g (k : cursor -> caps -> option X) x,
    run ic r c g k = Some x ->
    exists c' g', sem ic r c g c' g' /\ k c' g' = Some x.
Proof.
  induction r as [|ch|cl| |a IHa b IHb|a IHa b IHb|gr lo hi a IHa|n a IHa];
    intros c g k x H; cbn [run] in H.
  - exists c, g. simpl. auto.
  - destruct (rest c) as [|y l] eqn:Er; [discriminate|].
    destruct (lit_eq ic ch y) eqn:El; [|discriminate].
    exists (step y l c), g. split; [|exact H].
    simpl. exists y, l. auto.
  - destruct (rest c) as [|y l] eqn:Er; [discriminate|].
    destruct (in_class ic cl y) eqn:El; [|discriminate].
    exists (step y l c), g. split; [|exact H].
    simpl. exists y, l. auto.
  - destruct (at_boundary c) eqn:Eb; [|discriminate].
    exists c, g. simpl. auto.
  - apply IHa in H as (c1 & g1 & Ha & H).
    apply IHb in H as (c' & g' & Hb & H).
    exists c', g'. split; [|exact H]. simpl. exists c1, g1. auto.
  - destruct (run ic a c g k) eqn:Ea.
    + injection H as ->. apply IHa in Ea as (c' & g' & Ha & Hk).
      exists c', g'. simpl. auto.
    + apply IHb in H as (c' & g' & Hb & Hk).
      exists c', g'. simpl. auto.
  - apply (rep_loop_sound (run ic a) (sem ic a) gr lo hi k IHa) in H
      as (m & c' & g' & Hit & Hlo & Hhi & Hk); [|destruct hi; simpl; [lia|exact I]].
    exists c', g'. split; [|exact Hk]. simpl. exists m. auto.
  - apply IHa in H as (c' & g1 & Ha & Hk).
    exists c', ((n, firstn (pos c' - pos c) (rest c)) :: g1).
    split; [|exact Hk]. simpl. exists g1. auto.
Qed.

End MatcherSound.

(** A match found at a position is a reading of the pattern from there. *)
Lemma match_at_sound (ic : bool) (p : Re.pattern) (c : Re.cursor)
  (m : Re.rmatch) :
  Re.match_at ic p c = Some m ->
  exists c',
    Re.sem ic (Re.p_re p) c [] c' (Re.m_caps m)
    /\ Re.m_start m = Re.pos c /\ Re.m_end m = Re.pos c'
    /\ Re.m_text m = firstn (Re.pos c' - Re.pos c) (Re.rest c).
Proof.
  unfold Re.match_at. intros H.
  apply run_sound in H as (c' & g' & Hs & Hk).
  injection Hk as <-. exists c'. simpl. auto.
Qed.

(** ** What the readings of a pattern consume *)

Section Readings.

Import Re.

Variable ic : bool.

Lemma consumed_refl (c : cursor) : consumed c c [].
Proof. split; [reflexivity|simpl; lia]. Qed.

Lemma consumed_step (c : cursor) (a : ascii) (l : list ascii) :
  rest c = a :: l -> consumed c (step a l c) [a].
Proof. intros H. split; [exact H|simpl; lia]. Qed.

Lemma consumed_trans (c c1 c2 : cursor) (u v : list ascii) :
  consumed c c1 u -> consumed c1 c2 v -> consumed c c2 (u ++ v).
Proof.
  intros [H1 H2] [H3 H4]. split.
  - rewrite H1, H3, app_assoc. reflexivity.
  - rewrite H4, H2, length_app. lia.
Qed.

Lemma consumed_firstn (c c' : cursor) (w : list ascii) :
  consumed c c' w -> firstn (pos c' - pos c) (rest c) = w.
Proof.
  intros [H1 H2]. rewrite H1, H2.
  replace (pos c + List.length w - pos c)%nat with (List.length w + 0)%nat by lia.
  rewrite firstn_app_2. simpl. apply app_nil_r.
Qed.



(** A literal text is read character by character. *)
Lemma sem_lits (s : list ascii) :
  s <> [] ->
  forall c g c' g',
    sem ic (lits s) c g c' g' ->
    exists w,
      consumed c c' w /\ g' = g
      /\ Forall2 (fun x a => lit_eq ic x a = true) s w.
Proof.
  induction s as [|x s IH]; intros Hne c g c' g' H; [contradiction|].
  destruct s as [|y s].
  - cbn [lits sem] in H. destruct H as (a & l & Hr & Hl & -> & ->).
    exists [a]. split; [apply consumed_step, Hr|].
    split; [reflexivity|]. constructor; [exact Hl|constructor].
  - change (lits (x :: y :: s)) with (Seq (Lit x) (lits (y :: s))) in H.
    cbn [sem] in H.
    destruct H as (c1 & g1 & (a & l & Hr & Hl & -> & ->) & H2).
    apply IH in H2 as (w & Hw & -> & Hf); [|discriminate].
    exists (a :: w). split.
    + apply (consumed_trans c (step a l c) c' [a] w);
        [apply consumed_step, Hr|exact Hw].
    + split; [reflexivity|]. constructor; assumption.
Qed.

(** A choice of words reads one of them. *)
Lemma sem_words (ws : list string) :
  Forall (fun s => Str.chars s <> []) ws ->
  forall c g c' g',
    sem ic (words ws) c g c' g' ->
    ws <> [] ->
    exists s w,
      In s ws /\ consumed c c' w /\ g' = g
      /\ Forall2 (fun x a => lit_eq ic x a = true) (Str.chars s) w.
Proof.
  unfold words.
  induction ws as [|s ws IH]; intros Hall c g c' g' H Hne; [contradiction|].
  inversion Hall as [|? ? Hs Hws]; subst.
  destruct ws as [|s2 ws].
  - cbn [map alts] in H. apply sem_lits in H as (w & Hw & Hg & Hf); [|exact Hs].
    exists s, w. split; [left; reflexivity|auto].
  - change (alts (map (fun w => lits (Str.chars w)) (s :: s2 :: ws)))
      with (Alt (lits (Str.chars s))
                (alts (map (fun w => lits (Str.chars w)) (s2 :: ws)))) in H.
    cbn [sem] in H. destruct H as [H|H].
    + apply sem_lits in H as (w & Hw & Hg & Hf); [|exact Hs].
      exists s, w. split; [left; reflexivity|auto].
    + apply IH in H as (s' & w & Hin & Hrest); [|exact Hws|discriminate].
      exists s', w. split; [right; exact Hin|exact Hrest].
Qed.

End Readings.

(** Under [re.IGNORECASE] the characters read for a lower-case literal
    text lower-case to that text. *)
Lemma lit_eq_lower (x a : ascii) :
  Re.lit_eq true x a = true -> Chr.lower a = Chr.lower x.
Proof.
  unfold Re.lit_eq. intros H. apply Ascii.eqb_eq in H. auto.
Qed.


Lemma chars_of_chars (l : list ascii) : Str.chars (Str.of_chars l) = l.
Proof. apply list_ascii_of_string_of_list_ascii. Qed.

Lemma lower_read (s : string) (w : list ascii) :
  Str.lower s = s ->
  Forall2 (fun x a => Re.lit_eq true x a = true) (Str.chars s) w ->
  Str.lower (Str.of_chars w) = s.
Proof.
  intros Hs Hf. unfold Str.lower in *. rewrite chars_of_chars.
  rewrite <- Hs. f_equal.
  clear Hs. revert Hf. generalize (Str.chars s). clear s.
  intros l Hf.
  induction Hf as [|x a l l' Hxa Hf IH]; [reflexivity|].
  simpl. rewrite (lit_eq_lower _ _ Hxa), IH. reflexivity.
Qed.

(** [re.search] returns a match found at some position. *)
Lemma search_chars_at (ic : bool) (p : Re.pattern) (l : list ascii) :
  forall pv i m,
    Re.search_chars ic p pv i l = Some m ->
    exists c, Re.match_at ic p c = Some m.
Proof.
  induction l as [|a l IH]; intros pv i m H; simpl in H.
  - destruct (Re.match_at ic p _) eqn:E; [|discriminate].
    injection H as ->. eauto.
  - destruct (Re.match_at ic p _) eqn:E.
    + injection H as ->. eauto.
    + eapply IH, H.
Qed.

Lemma search_sound (ic : bool) (p : Re.pattern) (s : string) (m : Re.rmatch) :
  Re.search ic p s = Some m ->
  exists c c',
    Re.sem ic (Re.p_re p) c [] c' (Re.m_caps m)
    /\ Re.m_text m = firstn (Re.pos c' - Re.pos c) (Re.rest c).
Proof.
  unfold Re.search. intros H.
  apply search_chars_at in H as (c & H).
  apply match_at_sound in H as (c' & Hs & _ & _ & Ht). eauto.
Qed.

(** ** The patterns have the shapes named above *)

Lemma amount_pattern_shape :
  Re.p_re DataExtractor.amount_pattern = Shape.amount.
Proof. reflexivity. Qed.

Lemma percentage_pattern_shape :
  Re.p_re DataExtractor.percentage_pattern = Shape.percentage.
Proof. reflexivity. Qed.

Ltac destruct_sem H :=
  repeat match type of H with
         | _ /\ _ => let H1 := fresh "H" in destruct H as [H1 H]
         | exists _, _ => let x := fresh "x" in destruct H as [x H]
         end.

(** ** Month names and years in a query *)

Lemma month_pattern_shape :
  Re.p_re QueryAnalyzer.month_pattern
  = Re.Seq Re.Bnd
      (Re.Seq (Re.Grp 1 (Re.words (map fst month_names))) Re.Bnd).
Proof. reflexivity. Qed.

Lemma month_names_range (name : string) :
  In name (map fst month_names) ->
  Str.lower name = name
  /\ exists n, dict_get name month_names = Some n /\ (1 <= n <= 12)%Z.
Proof.
  intros H. simpl in H.
  repeat (destruct H as [<-|H];
          [split; [reflexivity|eexists; split; [reflexivity|lia]]|]).
  contradiction.
Qed.

(** The month a month match mentions is one of the twelve. *)
Lemma mentioned_month_range (query : string) (m : Re.rmatch) :
  Re.search true QueryAnalyzer.month_pattern query = Some m ->
  exists name,
    option_map Str.lower (Re.group 1 m) = Some name
    /\ dict_get name month_names = Some (QueryAnalyzer.mentioned_month m)
    /\ (1 <= QueryAnalyzer.mentioned_month m <= 12)%Z.
Proof.
  intros H. apply search_sound in H as (c & c' & Hs & _).
  rewrite month_pattern_shape in Hs. cbn [Re.sem] in Hs.
  destruct Hs as (c1 & g1 & (_ & -> & ->) & c2 & g2 & (g3 & Hw & ->)
                  & (_ & -> & Hg)).
  apply sem_words in Hw as (name & w & Hin & Hc & -> & Hf).
  - destruct (month_names_range name Hin) as (Hlow & n & Hn & Hr).
    assert (Hgroup : Re.group 1 m = Some (Str.of_chars w)).
    { unfold Re.group. rewrite Hg. cbn [Re.cap_lookup Nat.eqb].
      rewrite (consumed_firstn _ _ _ Hc). reflexivity. }
    exists name. unfold QueryAnalyzer.mentioned_month.
    rewrite Hgroup. cbn [option_map].
    rewrite (lower_read name w Hlow Hf), Hn. auto.
  - repeat constructor; discriminate.
  - discriminate.
Qed.

Lemma digit_val_range (a : ascii) :
  Chr.is_digit a = true -> (0 <= Chr.digit_val a <= 9)%Z.
Proof.
  unfold Chr.is_digit, Chr.between, Chr.digit_val. intros H.
  apply andb_true_iff in H as [H1 H2].
  apply N.leb_le in H1, H2. lia.
Qed.

Lemma year_pattern_shape :
  Re.p_re QueryAnalyzer.year_pattern
  = Re.Seq Re.Bnd
      (Re.Seq
         (Re.Grp 1
            (Re.Seq (Re.Lit "2")
               (Re.Seq (Re.Lit "0")
                  (Re.Rep true 2 (Some 2) (Re.Cls Re.CDigit)))))
         Re.Bnd).
Proof. reflexivity. Qed.

(** The year a year match mentions lies in this century. *)
Lemma mentioned_year_range (now : Date.date) (query : string) :
  QueryAnalyzer.mentioned_year now query = Date.year now
  \/ (2000 <= QueryAnalyzer.mentioned_year now query <= 2099)%Z.
Proof.
  unfold QueryAnalyzer.mentioned_year.
  destruct (Re.search false QueryAnalyzer.year_pattern query) as [m|] eqn:E;
    [right|left; reflexivity].
  apply search_sound in E as (c & c' & Hs & _).
  rewrite year_pattern_shape in Hs. cbn [Re.sem] in Hs.
  destruct Hs as (c1 & g1 & (_ & -> & ->) & c2 & g2 & (g3 & Hw & ->)
                  & (_ & -> & Hg)).
  destruct Hw as (c3 & g4 & (a1 & l1 & Hr1 & Hl1 & -> & ->)
                  & c4 & g5 & (a2 & l2 & Hr2 & Hl2 & -> & ->)
                  & n & Hlo & Hhi & Hit).
  assert (n = 2) as -> by (simpl in Hhi; lia).
  cbn [Re.iter Re.sem] in Hit.
  destruct Hit as (c5 & g6 & (a3 & l3 & Hr3 & Hd3 & -> & ->) & _
                   & c6 & g7 & (a4 & l4 & Hr4 & Hd4 & -> & ->) & _
                   & -> & ->).
  cbn [Re.rest Re.step Re.pos] in *. subst l1 l2 l3.
  unfold Re.group. rewrite Hg. cbn [Re.cap_lookup Nat.eqb].
  rewrite Hr1.
  replace (S (S (S (S (Re.pos c)))) - Re.pos c)%nat with 4%nat by lia.
  cbn [firstn]. unfold Py.int_of_digits. rewrite chars_of_chars.
  cbn [Py.digits_val].
  unfold Re.lit_eq in Hl1, Hl2.
  apply Ascii.eqb_eq in Hl1, Hl2. subst a1 a2.
  apply digit_val_range in Hd3, Hd4.
  change (Chr.digit_val "2") with 2%Z. change (Chr.digit_val "0") with 0%Z.
  change (firstn 0 l4) with (@nil ascii). cbn [Py.digits_val].
  lia.
Qed.

(** ** The query classifier on the two documented example questions *)

(** C2.  Whatever the current date, the question about a loss on 12 August
    is classified as a [type_query] for the whole month of August of the
    current year: the date pattern asks for a year after the month name,
    so no [date] parameter is set. *)
Theorem classify_loss_on_12_august :
  forall now : Date.date,
    QueryAnalyzer.classify now "How much loss did I have on 12 August?"
    = Ok (type_query,
          <["type" := VStr "loss"]>
            (<["year" := VInt (Date.year now)]>
               (<["month" := VInt 8]> ∅))).
Proof.
  intros now. vm_compute. reflexivity.
Qed.

(** C3.  Whatever the current date, the request for a monthly profit/loss
    report is classified as a [summary] filtered on profits. *)
Theorem classify_monthly_report_request :
  forall now : Date.date,
    QueryAnalyzer.classify now "Generate a monthly profit/loss report"
    = Ok (summary, <["type" := VStr "profit"]> ∅).
Proof.
  intros now. vm_compute. reflexivity.
Qed.

(** ** Extraction at the ends of a month *)

Lemma replace_day_before_first (t : Date.date) :
  Date.day t = 1%Z ->
  Date.replace_day t (Date.day t - 1) = Raise ValueError.
Proof.
  intros H. unfold Date.replace_day, Date.datetime, Date.valid.
  rewrite H. simpl (1 <=? 1 - 1)%Z.
  rewrite !andb_false_r. reflexivity.
Qed.

Lemma replace_day_after_last (t : Date.date) :
  Date.day t = Date.days_in_month (Date.year t) (Date.month t) ->
  Date.replace_day t (Date.day t + 1) = Raise ValueError.
Proof.
  intros H. unfold Date.replace_day, Date.datetime, Date.valid.
  rewrite H.
  replace (Date.days_in_month (Date.year t) (Date.month t) + 1
           <=? Date.days_in_month (Date.year t) (Date.month t))%Z
    with false by (symmetry; apply Z.leb_gt; lia).
  rewrite !andb_false_r. reflexivity.
Qed.

Lemma extract_date_yesterday (now : Date.date) (text : string) :
  Re.matches false DataExtractor.today_pattern (Str.lower text) = false ->
  Re.matches false DataExtractor.yesterday_pattern (Str.lower text) = true ->
  DataExtractor._extract_date now text
  = rbind (Date.replace_day now (Date.day now - 1))
          (fun d => Ok (Date.strftime d)).
Proof.
  intros H1 H2. unfold DataExtractor._extract_date.
  rewrite H1, H2. reflexivity.
Qed.

Lemma extract_date_tomorrow (now : Date.date) (text : string) :
  Re.matches false DataExtractor.today_pattern (Str.lower text) = false ->
  Re.matches false DataExtractor.yesterday_pattern (Str.lower text) = false ->
  Re.matches false DataExtractor.tomorrow_pattern (Str.lower text) = true ->
  DataExtractor._extract_date now text
  = rbind (Date.replace_day now (Date.day now + 1))
          (fun d => Ok (Date.strftime d)).
Proof.
  intros H1 H2 H3. unfold DataExtractor._extract_date.
  rewrite H1, H2, H3. reflexivity.
Qed.

(** On the first day of a month a text that says [yesterday] (and not
    [today]) makes [extract] raise, and so does one that says [tomorrow]
    on the last day: [replace(day=...)] leaves the month. *)
Lemma extract_raises_yesterday (now : Date.date) (text : string) :
  let text_lower := Str.lower (Str.strip (Str.lower text)) in
  Date.day now = 1%Z ->
  Re.matches false DataExtractor.today_pattern text_lower = false ->
  Re.matches false DataExtractor.yesterday_pattern text_lower = true ->
  exists e, DataExtractor.extract now text = Raise e.
Proof.
  intros tl Hd H1 H2. unfold DataExtractor.extract.
  destruct (DataExtractor._extract_amount text) as [a|e]; simpl.
  - rewrite extract_date_yesterday by assumption.
    rewrite replace_day_before_first by assumption. simpl. eauto.
  - eauto.
Qed.

Lemma extract_raises_tomorrow (now : Date.date) (text : string) :
  let text_lower := Str.lower (Str.strip (Str.lower text)) in
  Date.day now = Date.days_in_month (Date.year now) (Date.month now) ->
  Re.matches false DataExtractor.today_pattern text_lower = false ->
  Re.matches false DataExtractor.yesterday_pattern text_lower = false ->
  Re.matches false DataExtractor.tomorrow_pattern text_lower = true ->
  exists e, DataExtractor.extract now text = Raise e.
Proof.
  intros tl Hd H1 H2 H3. unfold DataExtractor.extract.
  destruct (DataExtractor._extract_amount text) as [a|e]; simpl.
  - rewrite extract_date_tomorrow by assumption.
    rewrite replace_day_after_last by assumption. simpl. eauto.
  - eauto.
Qed.

(** C1.  [extract] is not total: in every year and month it raises
    [ValueError] on the first day for a text that says [yesterday], and on
    the last day for a text that says [tomorrow]. *)
Theorem extract_raises_at_month_ends :
  forall y m : Z,
    DataExtractor.extract {| Date.year := y; Date.month := m; Date.day := 1 |}
      "I lost 20 dollars yesterday" = Raise ValueError
    /\ DataExtractor.extract
         {| Date.year := y; Date.month := m;
            Date.day := Date.days_in_month y m |}
         "I will pay 20 dollars tomorrow" = Raise ValueError.
Proof.
  intros y m. split.
  - unfold DataExtractor.extract.
    replace (DataExtractor._extract_amount "I lost 20 dollars yesterday")
      with (Ok (Py.float_of_Z 20)) by (vm_compute; reflexivity).
    cbv beta iota delta [rbind].
    rewrite extract_date_yesterday by (vm_compute; reflexivity).
    rewrite replace_day_before_first by reflexivity. reflexivity.
  - unfold DataExtractor.extract.
    replace (DataExtractor._extract_amount "I will pay 20 dollars tomorrow")
      with (Ok (Py.float_of_Z 20)) by (vm_compute; reflexivity).
    cbv beta iota delta [rbind].
    rewrite extract_date_tomorrow by (vm_compute; reflexivity).
    rewrite replace_day_after_last by reflexivity. reflexivity.
Qed.

(** ** Numeric dates [A/B/Y] *)

Lemma datetime_valid (y m d : Z) :
  Date.valid y m d = true ->
  Date.datetime y m d = Ok {| Date.year := y; Date.month := m; Date.day := d |}.
Proof. intros H. unfold Date.datetime. rewrite H. reflexivity. Qed.

Lemma datetime_invalid (y m d : Z) :
  Date.valid y m d = false -> Date.datetime y m d = Raise ValueError.
Proof. intros H. unfold Date.datetime. rewrite H. reflexivity. Qed.

(** The resolver shared by both engines, on the groups of the match. *)
Lemma numeric_date_month_first (g : list (option string)) :
  let y := expand_year (DataExtractor.group_int 2 g) in
  let a := DataExtractor.group_int 0 g in
  let b := DataExtractor.group_int 1 g in
  Date.valid y a b = true ->
  DataExtractor.numeric_date g
  = Some (Date.strftime {| Date.year := y; Date.month := a; Date.day := b |}).
Proof.
  intros y a b H. unfold DataExtractor.numeric_date.
  fold y a b. rewrite (datetime_valid _ _ _ H). reflexivity.
Qed.

Lemma numeric_date_day_first (g : list (option string)) :
  let y := expand_year (DataExtractor.group_int 2 g) in
  let a := DataExtractor.group_int 0 g in
  let b := DataExtractor.group_int 1 g in
  Date.valid y a b = false ->
  Date.valid y b a = true ->
  DataExtractor.numeric_date g
  = Some (Date.strftime {| Date.year := y; Date.month := b; Date.day := a |}).
Proof.
  intros y a b H1 H2. unfold DataExtractor.numeric_date.
  fold y a b. rewrite (datetime_invalid _ _ _ H1), (datetime_valid _ _ _ H2).
  reflexivity.
Qed.

Lemma extract_date_numeric (now : Date.date) (text : string) (m : Re.rmatch)
  (d : string) :
  Re.matches false DataExtractor.today_pattern (Str.lower text) = false ->
  Re.matches false DataExtractor.yesterday_pattern (Str.lower text) = false ->
  Re.matches false DataExtractor.tomorrow_pattern (Str.lower text) = false ->
  Re.search false DataExtractor.numeric_date_pattern text = Some m ->
  DataExtractor.numeric_date (Re.groups DataExtractor.numeric_date_pattern m)
  = Some d ->
  DataExtractor._extract_date now text = Ok d.
Proof.
  intros H1 H2 H3 Hs Hd. unfold DataExtractor._extract_date.
  rewrite H1, H2, H3, Hs, Hd. reflexivity.
Qed.

Lemma date_from_match_numeric (g : list (option string)) (d : string) :
  truthy (nth_group 0 g) = true ->
  truthy (nth_group 1 g) = true ->
  truthy (nth_group 2 g) = true ->
  DataExtractor.numeric_date g = Some d ->
  QueryAnalyzer._extract_date_from_match g = Some d.
Proof.
  intros H0 H1 H2 Hd. unfold QueryAnalyzer._extract_date_from_match.
  rewrite H0, H1, H2, Hd. reflexivity.
Qed.

Lemma expand_year_cases (n : Z) :
  ((0 <= n < 50)%Z -> expand_year n = (2000 + n)%Z)
  /\ ((50 <= n < 100)%Z -> expand_year n = (1900 + n)%Z)
  /\ ((100 <= n)%Z -> expand_year n = n).
Proof.
  unfold expand_year. repeat split; intros H.
  - destruct (Z.ltb_spec n 100); [|lia]. destruct (Z.ltb_spec n 50); lia.
  - destruct (Z.ltb_spec n 100); [|lia]. destruct (Z.ltb_spec n 50); lia.
  - destruct (Z.ltb_spec n 100); lia.
Qed.

(** C6.  In extraction (a text without relative keyword) and in query
    classification alike, the groups [(A, B, Y)] of a numeric date token
    are read as month [A], day [B] when that is a calendar date, and as
    day [A], month [B] when it is not and this is one; a year below 100
    becomes [2000 + Y] when [Y < 50] and [1900 + Y] otherwise; and
    [13/02/2024] is the 13th of February 2024 in both engines. *)
Theorem numeric_date_token_resolution :
  (forall (now : Date.date) (text : string) (m : Re.rmatch),
      Re.matches false DataExtractor.today_pattern (Str.lower text) = false ->
      Re.matches false DataExtractor.yesterday_pattern (Str.lower text) = false ->
      Re.matches false DataExtractor.tomorrow_pattern (Str.lower text) = false ->
      Re.search false DataExtractor.numeric_date_pattern text = Some m ->
      let g := Re.groups DataExtractor.numeric_date_pattern m in
      let y := expand_year (DataExtractor.group_int 2 g) in
      let a := DataExtractor.group_int 0 g in
      let b := DataExtractor.group_int 1 g in
      (Date.valid y a b = true ->
       DataExtractor._extract_date now text
       = Ok (Date.strftime {| Date.year := y; Date.month := a; Date.day := b |}))
      /\ (Date.valid y a b = false -> Date.valid y b a = true ->
          DataExtractor._extract_date now text
          = Ok (Date.strftime {| Date.year := y; Date.month := b; Date.day := a |})))
  /\ (forall g : list (option string),
         truthy (nth_group 0 g) = true ->
         truthy (nth_group 1 g) = true ->
         truthy (nth_group 2 g) = true ->
         let y := expand_year (DataExtractor.group_int 2 g) in
         let a := DataExtractor.group_int 0 g in
         let b := DataExtractor.group_int 1 g in
         (Date.valid y a b = true ->
          QueryAnalyzer._extract_date_from_match g
          = Some (Date.strftime {| Date.year := y; Date.month := a; Date.day := b |}))
         /\ (Date.valid y a b = false -> Date.valid y b a = true ->
             QueryAnalyzer._extract_date_from_match g
             = Some (Date.strftime {| Date.year := y; Date.month := b; Date.day := a |})))
  /\ (forall n : Z,
         ((0 <= n < 50)%Z -> expand_year n = (2000 + n)%Z)
         /\ ((50 <= n < 100)%Z -> expand_year n = (1900 + n)%Z))
  /\ (forall now : Date.date,
         DataExtractor._extract_date now "13/02/2024" = Ok "2024-02-13"
         /\ QueryAnalyzer.classify now "13/02/2024"
            = Ok (date_query, <["date" := VStr "2024-02-13"]> ∅)).
Proof.
  split; [|split; [|split]].
  - intros now text m H1 H2 H3 Hs g y a b. split.
    + intros Hv. eapply extract_date_numeric; eauto.
      apply numeric_date_month_first. exact Hv.
    + intros Hv1 Hv2. eapply extract_date_numeric; eauto.
      apply numeric_date_day_first; assumption.
  - intros g H0 H1 H2 y a b. split.
    + intros Hv. apply date_from_match_numeric; auto.
      apply numeric_date_month_first. exact Hv.
    + intros Hv1 Hv2. apply date_from_match_numeric; auto.
      apply numeric_date_day_first; assumption.
  - intros n. destruct (expand_year_cases n) as (Ha & Hb & _). split; assumption.
  - intros now. split; vm_compute; reflexivity.
Qed.

(** The token [25/12/99] has no 25th month and is read day first, in
    1999; the token [1/2/03] is January 2nd, 2003. *)
Lemma numeric_date_token_resolution_witness :
  DataExtractor._extract_date
    {| Date.year := 2024; Date.month := 3; Date.day := 15 |}
    "paid 30 on 25/12/99 for gifts" = Ok "1999-12-25"
  /\ QueryAnalyzer._extract_date_from_match [Some "1"; Some "2"; Some "03"]
     = Some "2003-01-02"
  /\ expand_year 49 = 2049%Z.
Proof.
  destruct numeric_date_token_resolution as (He & Hq & Hy & _).
  split; [|split].
  - refine (proj2 (He {| Date.year := 2024; Date.month := 3; Date.day := 15 |}
                      "paid 30 on 25/12/99 for gifts"
                      {| Re.m_start := 11; Re.m_end := 19;
                         Re.m_text := Str.chars "25/12/99";
                         Re.m_caps := [(3, Str.chars "99"); (2, Str.chars "12");
                                       (1, Str.chars "25")] |}
                      _ _ _ _) _ _); vm_compute; reflexivity.
  - refine (proj1 (Hq [Some "1"; Some "2"; Some "03"] _ _ _) _);
      vm_compute; reflexivity.
  - apply (proj1 (Hy 49%Z)). lia.
Defined.

(** ** The classifier never leaves a [type_query] without its month *)

Lemma rule_relative_kind (now : Date.date) (query : string)
  (rm : option Re.rmatch) (st : QueryAnalyzer.pstate) :
  QueryAnalyzer.rule_relative now query rm (unknown, ∅) = Ok st ->
  match rm with
  | Some _ => fst st = date_query
  | None => st = (unknown, ∅)
  end.
Proof.
  unfold QueryAnalyzer.rule_relative. destruct rm as [m|].
  - destruct (if (_ =? "today")%string then _ else _) as [d|e]; simpl.
    + intros H. inversion H. reflexivity.
    + discriminate.
  - intros H. inversion H. reflexivity.
Qed.

Lemma rule_date_keeps_type_query (query : string)
  (dm rm : option Re.rmatch) (st : QueryAnalyzer.pstate) :
  fst (QueryAnalyzer.rule_date query dm rm st) = type_query ->
  QueryAnalyzer.rule_date query dm rm st = st.
Proof.
  unfold QueryAnalyzer.rule_date.
  destruct dm as [m|]; [|reflexivity].
  destruct rm; [reflexivity|].
  destruct (QueryAnalyzer._extract_date_from_match _); [discriminate|reflexivity].
Qed.

Lemma rule_amount_keeps_type_query (now : Date.date) (query : string)
  (st : QueryAnalyzer.pstate) :
  fst (QueryAnalyzer.rule_amount now query st) = type_query ->
  QueryAnalyzer.rule_amount now query st = st.
Proof.
  unfold QueryAnalyzer.rule_amount.
  destruct (Re.matches false QueryAnalyzer.amount_pattern query); simpl;
    [|reflexivity].
  destruct (QueryAnalyzer.is_unknown (fst st)); simpl; [|reflexivity].
  destruct (Re.matches true QueryAnalyzer.today_pattern query); discriminate.
Qed.

Lemma rule_report_keeps_type_query (query : string)
  (mm dm rm : option Re.rmatch) (st : QueryAnalyzer.pstate) :
  fst (QueryAnalyzer.rule_report query mm dm rm st) = type_query ->
  QueryAnalyzer.rule_report query mm dm rm st = st.
Proof.
  unfold QueryAnalyzer.rule_report.
  destruct (Re.matches false QueryAnalyzer.report_pattern query); simpl;
    [|reflexivity].
  destruct (QueryAnalyzer.is_unknown (fst st)); simpl; [|reflexivity].
  destruct (Re.matches false QueryAnalyzer.profit_pattern query);
    [discriminate|].
  destruct (Re.matches false QueryAnalyzer.loss_pattern query); [discriminate|].
  destruct (_ && _); [discriminate|reflexivity].
Qed.

Lemma rule_month_type_query (now : Date.date) (query : string)
  (mm rm : option Re.rmatch) (st : QueryAnalyzer.pstate) :
  fst st <> type_query ->
  fst (QueryAnalyzer.rule_month now query mm rm st) = type_query ->
  exists m w,
    mm = Some m /\ rm = None
    /\ QueryAnalyzer.type_keyword query = Some w
    /\ snd (QueryAnalyzer.rule_month now query mm rm st)
       = <["type" := VStr w]>
           (<["year" := VInt (QueryAnalyzer.mentioned_year now query)]>
              (<["month" := VInt (QueryAnalyzer.mentioned_month m)]> (snd st))).
Proof.
  intros Hst. unfold QueryAnalyzer.rule_month.
  destruct mm as [m|]; [|intros H; contradiction].
  destruct rm; [intros H; contradiction|].
  destruct (QueryAnalyzer.type_keyword query) as [w|]; simpl.
  - intros _. exists m, w. repeat split; reflexivity.
  - discriminate.
Qed.

Lemma type_keyword_values (query w : string) :
  QueryAnalyzer.type_keyword query = Some w -> w = "profit" \/ w = "loss".
Proof.
  unfold QueryAnalyzer.type_keyword.
  destruct (Re.matches false QueryAnalyzer.profit_pattern query).
  - intros H. inversion H. auto.
  - destruct (Re.matches false QueryAnalyzer.loss_pattern query).
    + intros H. inversion H. auto.
    + discriminate.
Qed.

(** C10.  Whenever the classifier answers [type_query], a month name is
    mentioned in the question and the parameters hold the number of that
    month, between 1 and 12, the year mentioned in the question (a year
    of this century) or else the current year, and the type asked for. *)
Theorem type_query_is_scoped_to_a_month :
  forall (now : Date.date) (question : string) (ps : QueryAnalyzer.params),
    QueryAnalyzer.classify now question = Ok (type_query, ps) ->
    let query := Str.lower question in
    exists m name w,
      Re.search true QueryAnalyzer.month_pattern query = Some m
      /\ option_map Str.lower (Re.group 1 m) = Some name
      /\ dict_get name month_names = Some (QueryAnalyzer.mentioned_month m)
      /\ (1 <= QueryAnalyzer.mentioned_month m <= 12)%Z
      /\ ps !! "month" = Some (VInt (QueryAnalyzer.mentioned_month m))
      /\ ps !! "year" = Some (VInt (QueryAnalyzer.mentioned_year now query))
      /\ (QueryAnalyzer.mentioned_year now query = Date.year now
          \/ (2000 <= QueryAnalyzer.mentioned_year now query <= 2099)%Z)
      /\ ps !! "type" = Some (VStr w)
      /\ (w = "profit" \/ w = "loss").
Proof.
  intros now question ps. unfold QueryAnalyzer.classify.
  generalize (Str.lower question). intros query.
  unfold QueryAnalyzer._parse_query.
  destruct (QueryAnalyzer.rule_relative now query _ (unknown, ∅))
    as [st1|e] eqn:E1; simpl; [|discriminate].
  apply rule_relative_kind in E1.
  intros H. injection H as H.
  assert (Hk : forall st, st = (type_query, ps) -> fst st = type_query)
    by (intros st ->; reflexivity).
  pose proof (Hk _ H) as K5.
  rewrite (rule_report_keeps_type_query _ _ _ _ _ K5) in H.
  pose proof (Hk _ H) as K4.
  rewrite (rule_amount_keeps_type_query _ _ _ K4) in H.
  pose proof (Hk _ H) as K3.
  rewrite (rule_date_keeps_type_query _ _ _ _ K3) in H.
  pose proof (Hk _ H) as K2.
  assert (Hst1 : fst st1 <> type_query).
  { destruct (Re.search true QueryAnalyzer.relative_date_pattern query).
    - rewrite E1. discriminate.
    - rewrite E1. discriminate. }
  destruct (rule_month_type_query _ _ _ _ _ Hst1 K2)
    as (m & w & Hm & Hr & Hw & Hps).
  rewrite H in Hps. simpl in Hps. subst ps.
  destruct (mentioned_month_range query m Hm) as (name & Hname & Hdict & Hrange).
  exists m, name, w.
  split; [exact Hm|]. split; [exact Hname|]. split; [exact Hdict|].
  split; [exact Hrange|].
  split; [|split; [|split; [|split]]].
  - rewrite lookup_insert_ne by discriminate.
    rewrite lookup_insert_ne by discriminate.
    apply lookup_insert_eq.
  - rewrite lookup_insert_ne by discriminate.
    apply lookup_insert_eq.
  - apply mentioned_year_range.
  - apply lookup_insert_eq.
  - eapply type_keyword_values, Hw.
Qed.

(** A question about the profits of March. *)
Lemma type_query_is_scoped_to_a_month_witness :
  let ps : QueryAnalyzer.params :=
    <["type" := VStr "profit"]>
      (<["year" := VInt 2024]> (<["month" := VInt 3]> ∅)) in
  exists m name w,
    Re.search true QueryAnalyzer.month_pattern
      (Str.lower "Show me all profit details for March") = Some m
    /\ option_map Str.lower (Re.group 1 m) = Some name
    /\ dict_get name month_names = Some (QueryAnalyzer.mentioned_month m)
    /\ (1 <= QueryAnalyzer.mentioned_month m <= 12)%Z
    /\ ps !! "month" = Some (VInt (QueryAnalyzer.mentioned_month m))
    /\ ps !! "year"
       = Some (VInt (QueryAnalyzer.mentioned_year
                       {| Date.year := 2024; Date.month := 3; Date.day := 15 |}
                       (Str.lower "Show me all profit details for March")))
    /\ (QueryAnalyzer.mentioned_year
          {| Date.year := 2024; Date.month := 3; Date.day := 15 |}
          (Str.lower "Show me all profit details for March") = 2024%Z
        \/ (2000
            <= QueryAnalyzer.mentioned_year
                 {| Date.year := 2024; Date.month := 3; Date.day := 15 |}
                 (Str.lower "Show me all profit details for March")
            <= 2099)%Z)
    /\ ps !! "type" = Some (VStr w)
    /\ (w = "profit" \/ w = "loss").
Proof.
  apply (type_query_is_scoped_to_a_month
           {| Date.year := 2024; Date.month := 3; Date.day := 15 |}
           "Show me all profit details for March").
  vm_compute. reflexivity.
Defined.

(** ** Spoken-number normalization *)

Section SpokenNumberProofs.

Import SpokenNumbers.


Lemma number_word_cases (w : string) :
  number_word w = false ->
  dict_get w DataExtractor.units = None
  /\ dict_get w DataExtractor.tens = None
  /\ (w =? "and")%string = false
  /\ dict_get w DataExtractor.scales = None.
Proof.
  unfold number_word, DataExtractor.in_dict.
  destruct (dict_get w DataExtractor.units),
    (dict_get w DataExtractor.tens),
    (w =? "and")%string,
    (dict_get w DataExtractor.scales); simpl; intros H;
    try discriminate; auto.
Qed.

Lemma accumulate_number_word (w : string) (st : Z * Z) :
  number_word w = false -> accumulate st w = st.
Proof.
  intros H. destruct (number_word_cases w H) as (H1 & H2 & H3 & H4).
  unfold accumulate. destruct st. rewrite H1, H2, H3, H4. reflexivity.
Qed.












End SpokenNumberProofs.



Section AmountProofs.

Import Shape.

(** ** Running the matcher forward on a known subject *)

Section Forward.

Import Re.

Context {X : Type}.
Variable ic : bool.

Lemma last_cons_default {A : Type} (l : list A) (x d : A) :
  List.last (x :: l) d = List.last l x.
Proof.
  revert x d. induction l as [|y l IH]; intros x d; [reflexivity|].
  change (List.last (x :: y :: l) d) with (List.last (y :: l) d).
  rewrite !IH. reflexivity.
Qed.

Lemma steps_spec (w : list ascii) :
  forall (c : cursor) (tail : list ascii),
    rest c = w ++ tail ->
    rest (steps w c) = tail
    /\ pos (steps w c) = (pos c + List.length w)%nat
    /\ prev (steps w c) = List.last (map Some w) (prev c).
Proof.
  induction w as [|a w IH]; intros c tail H.
  - simpl in *. split; [exact H|]. split; [lia|reflexivity].
  - cbn [steps]. rewrite H. cbn [tl app].
    destruct (IH (step a (w ++ tail) c) tail eq_refl) as (H1 & H2 & H3).
    split; [exact H1|]. split.
    + rewrite H2. simpl. lia.
    + rewrite H3. cbn [prev step map].
      symmetry. apply last_cons_default.
Qed.

Lemma rep_loop_greedy_S (body : matcher) (lo : nat) (hi : option nat)
  (k : cursor -> caps -> option X) (f cnt : nat) (c : cursor) (g : caps) :
  rep_loop body true lo hi k (S f) cnt c g
  = match
      (if below cnt hi
       then body c g
              (fun c' g' =>
                 if (pos c <? pos c')%nat
                 then rep_loop body true lo hi k f (S cnt) c' g'
                 else None)
       else None)
    with
    | Some x => Some x
    | None => if (lo <=? cnt)%nat then k c g else None
    end.
Proof. reflexivity. Qed.

Lemma run_cls (cl : cclass) (c : cursor) (g : caps)
  (k : cursor -> caps -> option X) :
  run ic (Cls cl) c g k
  = match rest c with
    | a :: l => if in_class ic cl a then k (step a l c) g else None
    | [] => None
    end.
Proof. reflexivity. Qed.

Lemma run_seq (a b : re) (c : cursor) (g : caps)
  (k : cursor -> caps -> option X) :
  run ic (Seq a b) c g k = run ic a c g (fun c' g' => run ic b c' g' k).
Proof. reflexivity. Qed.

Lemma run_alt (a b : re) (c : cursor) (g : caps)
  (k : cursor -> caps -> option X) :
  run ic (Alt a b) c g k
  = match run ic a c g k with
    | Some x => Some x
    | None => run ic b c g k
    end.
Proof. reflexivity. Qed.

Lemma run_grp (n : nat) (a : re) (c : cursor) (g : caps)
  (k : cursor -> caps -> option X) :
  run ic (Grp n a) c g k
  = run ic a c g
      (fun c' g' => k c' ((n, firstn (pos c' - pos c) (rest c)) :: g')).
Proof. reflexivity. Qed.

Lemma run_rep (gr : bool) (lo : nat) (hi : option nat) (a : re) (c : cursor)
  (g : caps) (k : cursor -> caps -> option X) :
  run ic (Rep gr lo hi a) c g k
  = rep_loop (run ic a) gr lo hi k (S (List.length (rest c))) 0 c g.
Proof. reflexivity. Qed.

Lemma run_bnd (c : cursor) (g : caps) (k : cursor -> caps -> option X) :
  run ic Bnd c g k = if at_boundary c then k c g else None.
Proof. reflexivity. Qed.

(** A greedy repetition of a character class reads a whole run of the
    class when the rest of the pattern accepts what follows the run. *)
Lemma rep_loop_greedy_run (cl : cclass) (lo : nat)
  (k : cursor -> caps -> option X) (x : X) :
  forall (w tail : list ascii) (c : cursor) (g : caps) (fuel cnt : nat),
    rest c = w ++ tail ->
    Forall (fun a => in_class ic cl a = true) w ->
    match tail with
    | a :: _ => in_class ic cl a = false
    | [] => True
    end ->
    (List.length w < fuel)%nat ->
    (lo <= cnt + List.length w)%nat ->
    k (steps w c) g = Some x ->
    rep_loop (run ic (Cls cl)) true lo None k fuel cnt c g = Some x.
Proof.
  induction w as [|a w IH]; intros tail c g fuel cnt Hr Hw Ht Hf Hlo Hk.
  - destruct fuel as [|f]; [simpl in Hf; lia|].
    rewrite rep_loop_greedy_S, run_cls. cbn [below]. simpl in Hr. rewrite Hr.
    assert (Hstop : (if (lo <=? cnt)%nat then k c g else None) = Some x).
    { simpl in Hlo. destruct (Nat.leb_spec lo cnt); [exact Hk|lia]. }
    destruct tail as [|b tail]; [exact Hstop|].
    rewrite Ht. exact Hstop.
  - destruct fuel as [|f]; [simpl in Hf; lia|].
    inversion Hw as [|? ? Ha Hw']; subst.
    rewrite rep_loop_greedy_S, run_cls. cbn [below]. rewrite Hr. cbn [app].
    rewrite Ha.
    replace (pos c <? pos (step a (w ++ tail) c))%nat with true
      by (symmetry; apply Nat.ltb_lt; simpl; lia).
    rewrite (IH tail (step a (w ++ tail) c) g f (S cnt)); auto.
    + simpl in Hf. lia.
    + simpl in Hlo. lia.
    + cbn [steps] in Hk. rewrite Hr in Hk. exact Hk.
Qed.

(** A greedy optional part whose first character is not there is skipped. *)
Lemma rep_loop_skip (body : matcher) (hi : option nat)
  (k : cursor -> caps -> option X) (c : cursor) (g : caps) (fuel : nat) :
  (forall k', body c g k' = None) ->
  rep_loop body true 0 hi k fuel 0 c g = k c g.
Proof.
  intros Hb. destruct fuel as [|f]; [reflexivity|].
  rewrite rep_loop_greedy_S, Hb. destruct (below 0 hi); reflexivity.
Qed.

Lemma run_lit_then_fails (x : ascii) (r : re) (c : cursor) (g : caps)
  (k : cursor -> caps -> option X) :
  match rest c with
  | a :: _ => lit_eq ic x a = false
  | [] => True
  end ->
  run ic (Seq (Lit x) r) c g k = None.
Proof.
  intros H. cbn [run]. destruct (rest c) as [|a l]; [reflexivity|].
  rewrite H. reflexivity.
Qed.

Lemma run_lit_fails (x : ascii) (c : cursor) (g : caps)
  (k : cursor -> caps -> option X) :
  match rest c with
  | a :: _ => lit_eq ic x a = false
  | [] => True
  end ->
  run ic (Lit x) c g k = None.
Proof.
  intros H. cbn [run]. destruct (rest c) as [|a l]; [reflexivity|].
  rewrite H. reflexivity.
Qed.

End Forward.

Lemma digit_is_word (a : ascii) : Chr.is_digit a = true -> Chr.is_word a = true.
Proof.
  unfold Chr.is_word. intros ->. rewrite orb_true_r. reflexivity.
Qed.

Lemma not_word_not_digit (a : ascii) :
  Chr.is_word a = false -> Chr.is_digit a = false.
Proof.
  intros H. destruct (Chr.is_digit a) eqn:E; [|reflexivity].
  rewrite (digit_is_word a E) in H. discriminate.
Qed.


(** ** What the class repetitions read *)

Lemma iter_class (ic : bool) (cl : Re.cclass) (n : nat) :
  forall c g c' g',
    Re.iter (Re.sem ic (Re.Cls cl)) n c g c' g' ->
    exists w,
      Re.consumed c c' w /\ g' = g /\ List.length w = n
      /\ Forall (fun a => Re.in_class ic cl a = true) w.
Proof.
  induction n as [|n IH]; intros c g c' g' H; cbn [Re.iter] in H.
  - destruct H as [-> ->]. exists []. split; [apply consumed_refl|auto].
  - destruct H as (c1 & g1 & (a & l & Hr & Ha & -> & ->) & _ & H).
    apply IH in H as (w & Hw & -> & Hl & Hf).
    exists (a :: w). split.
    + apply (consumed_trans c (Re.step a l c) c' [a] w);
        [apply consumed_step, Hr|exact Hw].
    + split; [reflexivity|]. split; [simpl; lia|]. constructor; assumption.
Qed.

Lemma sem_class_rep (ic gr : bool) (lo : nat) (hi : option nat)
  (cl : Re.cclass) (c c' : Re.cursor) (g g' : Re.caps) :
  Re.sem ic (Re.Rep gr lo hi (Re.Cls cl)) c g c' g' ->
  exists w,
    Re.consumed c c' w /\ g' = g /\ (lo <= List.length w)%nat
    /\ Re.within (List.length w) hi
    /\ Forall (fun a => Re.in_class ic cl a = true) w.
Proof.
  cbn [Re.sem]. intros (n & Hlo & Hhi & Hit).
  apply iter_class in Hit as (w & Hw & -> & <- & Hf).
  exists w. auto.
Qed.



(** ** [float] on decimal texts *)

Lemma digit_cases (a : ascii) :
  Chr.is_digit a = true ->
  Chr.is_space a = false /\ Chr.lower a = a
  /\ a <> "-"%char /\ a <> "+"%char /\ a <> "_"%char /\ a <> "."%char
  /\ a <> ","%char /\ a <> "i"%char /\ a <> "n"%char /\ a <> "%"%char
  /\ a <> "$"%char.
Proof.
  destruct a as [[] [] [] [] [] [] [] []]; intros H; try discriminate H;
    repeat split; try reflexivity; discriminate.
Qed.



Lemma float_space_is_space (a : ascii) :
  Chr.is_space a = false -> Py.is_float_space a = false.
Proof.
  destruct a as [[] [] [] [] [] [] [] []]; intros H; try discriminate H;
    reflexivity.
Qed.

Lemma strip_float_id (l : list ascii) (a b : ascii) (l1 l2 : list ascii) :
  l = a :: l1 -> l = l2 ++ [b] ->
  Chr.is_space a = false -> Chr.is_space b = false ->
  Py.strip_float l = l.
Proof.
  intros H1 H2 Ha Hb. apply float_space_is_space in Ha, Hb.
  unfold Py.strip_float.
  rewrite H1. cbn [Py.lstrip_float]. rewrite Ha, <- H1, H2.
  rewrite rev_app_distr. cbn [rev app Py.lstrip_float]. rewrite Hb.
  change (b :: rev l2) with (rev [b] ++ rev l2).
  rewrite <- rev_app_distr, rev_involutive. reflexivity.
Qed.

Lemma span_digits_app (ds : list ascii) (tail : list ascii) :
  Forall (fun a => Chr.is_digit a = true) ds ->
  match tail with
  | a :: _ => Chr.is_digit a = false
  | [] => True
  end ->
  Py.span_digits (ds ++ tail) = (ds, tail).
Proof.
  intros Hd Ht. induction Hd as [|a ds Ha Hd IH].
  - destruct tail as [|b tail]; [reflexivity|]. simpl. rewrite Ht. reflexivity.
  - cbn [app Py.span_digits]. rewrite Ha, IH. reflexivity.
Qed.

Lemma drop_underscores_none (l : list ascii) :
  Forall (fun a => a <> "_"%char) l ->
  forall pv, Py.drop_underscores pv l = Some l.
Proof.
  induction 1 as [|a l Ha Hl IH]; intros pv; [reflexivity|].
  cbn [Py.drop_underscores].
  destruct (Ascii.eqb_spec a "_"); [contradiction|].
  rewrite IH. reflexivity.
Qed.

(** A string of digits converts to the float of its number. *)
Lemma float_of_digit_string (N : list ascii) :
  N <> [] ->
  Forall (fun a => Chr.is_digit a = true) N ->
  Py.float_of_string (Str.of_chars N)
  = Ok (Py.float_of_decimal false (Py.digits_val 0 N) 0).
Proof.
  intros Hne Hd. unfold Py.float_of_string. rewrite chars_of_chars.
  destruct N as [|a N']; [contradiction|].
  assert (Ha : Chr.is_digit a = true) by (inversion Hd; assumption).
  destruct (digit_cases a Ha)
    as (Hsp & Hlow & Hm & Hp & _ & _ & _ & Hi & Hn & _).
  assert (Hlast : exists l2 b, a :: N' = l2 ++ [b] /\ Chr.is_digit b = true).
  { destruct (exists_last Hne) as (l2 & b & E). exists l2, b.
    split; [exact E|]. rewrite E in Hd.
    apply Forall_app in Hd as [_ Hb]. inversion Hb; assumption. }
  destruct Hlast as (l2 & b & El & Hb).
  rewrite (strip_float_id (a :: N') a b N' l2 eq_refl El Hsp
             (proj1 (digit_cases b Hb))).
  assert (Hsign : Py.split_sign (a :: N') = (false, a :: N')).
  { clear -Hm Hp. unfold Py.split_sign.
    destruct a as [[] [] [] [] [] [] [] []]; try reflexivity;
      exfalso; [apply Hp|apply Hm]; reflexivity. }
  rewrite Hsign. cbn [map]. rewrite Hlow.
  assert (Hlow_ne : forall t,
             (Str.of_chars (a :: t) =? "inf")%string = false
             /\ (Str.of_chars (a :: t) =? "infinity")%string = false
             /\ (Str.of_chars (a :: t) =? "nan")%string = false).
  { intros t. unfold Str.of_chars. cbn [string_of_list_ascii String.eqb].
    destruct (Ascii.eqb_spec a "i"); [contradiction|].
    destruct (Ascii.eqb_spec a "n"); [contradiction|]. auto. }
  destruct (Hlow_ne (map Chr.lower N')) as (-> & -> & ->). cbn [orb].
  rewrite drop_underscores_none.
  2:{ eapply Forall_impl; [exact Hd|]. intros c Hc. apply (digit_cases c Hc). }
  unfold Py.parse_decimal.
  rewrite <- (app_nil_r (a :: N')) at 1.
  rewrite span_digits_app by (auto; exact I).
  cbn [Py.parse_exponent]. rewrite app_nil_r.
  cbn [List.length Z.of_nat Z.sub]. reflexivity.
Qed.

Lemma replace_aux_no_comma (l : list ascii) :
  Forall (fun a => a <> ","%char) l ->
  Str.replace_aux [","%char] [] 0 l = l.
Proof.
  induction 1 as [|a l Ha Hl IH]; [reflexivity|].
  cbn [Str.replace_aux Str.is_prefix].
  destruct (Ascii.eqb_spec "," a) as [E|]; [symmetry in E; contradiction|].
  cbn [andb]. rewrite IH. reflexivity.
Qed.


(** ** The first amount of a text *)

Lemma scan_match (ic : bool) (p : Re.pattern) (pv : option ascii) (i : nat)
  (l : list ascii) (m : Re.rmatch) :
  Re.match_at ic p {| Re.prev := pv; Re.rest := l; Re.pos := i |} = Some m ->
  exists ms, Re.scan ic p pv i 0 l = m :: ms.
Proof.
  intros H. destruct l as [|a l]; cbn [Re.scan]; rewrite H; eauto.
Qed.


(** ** The tokens of a text *)


















(** *** Tokens around a dollar amount *)




(** *** Joining the tokens *)




(** *** Texts without percent sign *)





Section TokenNormalization.

Import SpokenNumbers.




End TokenNormalization.

(** *** No percentage construct without percent sign *)



Lemma lit_percent (a : ascii) : Re.lit_eq true "%" a = true -> a = "%"%char.
Proof.
  destruct a as [[] [] [] [] [] [] [] []]; intros H; try discriminate H;
    reflexivity.
Qed.






(** *** The amount of a text whose first number is a dollar token *)





(** The tokens of the normalized text are joined by spaces, so a thousands
    separator parts the number: of [$1,000] the amount pattern reads [1]. *)
Example extract_amount_splits_thousands :
  DataExtractor._extract_amount "I paid $1,000 for rent"
  = Ok (Py.float_of_Z 1).
Proof. vm_compute. reflexivity. Qed.

End AmountProofs.

(** ** The percentage of a base *)

Section PercentageProofs.

Import Shape.

(** ** The positions of a reading *)

Lemma steps_app (u v : list ascii) :
  forall c, Re.steps (u ++ v) c = Re.steps v (Re.steps u c).
Proof.
  induction u as [|a u IH]; intros c; [reflexivity|].
  cbn [app Re.steps]. apply IH.
Qed.

Lemma iter_steps (R : Re.transition) :
  (forall c g c' g',
      R c g c' g' -> exists w, Re.rest c = w ++ Re.rest c' /\ c' = Re.steps w c) ->
  forall n c g c' g',
    Re.iter R n c g c' g' ->
    exists w, Re.rest c = w ++ Re.rest c' /\ c' = Re.steps w c.
Proof.
  intros HR. induction n as [|n IH]; intros c g c' g' H; cbn [Re.iter] in H.
  - destruct H as [-> _]. exists []. auto.
  - destruct H as (c1 & g1 & H1 & _ & H2).
    apply HR in H1 as (u & Hu & ->). apply IH in H2 as (v & Hv & ->).
    exists (u ++ v). rewrite steps_app, Hu, Hv, app_assoc. auto.
Qed.

(** Every reading goes from a position to the position some characters
    further. *)
Lemma sem_steps (ic : bool) (r : Re.re) :
  forall c g c' g',
    Re.sem ic r c g c' g' ->
    exists w, Re.rest c = w ++ Re.rest c' /\ c' = Re.steps w c.
Proof.
  induction r as [|ch|cl| |a IHa b IHb|a IHa b IHb|gr lo hi a IHa|n a IHa];
    intros c g c' g' H; cbn [Re.sem] in H.
  - destruct H as [-> _]. exists []. auto.
  - destruct H as (y & l & Hr & _ & -> & _). exists [y].
    cbn [Re.steps Re.rest Re.step app]. rewrite Hr. auto.
  - destruct H as (y & l & Hr & _ & -> & _). exists [y].
    cbn [Re.steps Re.rest Re.step app]. rewrite Hr. auto.
  - destruct H as (_ & -> & _). exists []. auto.
  - destruct H as (c1 & g1 & H1 & H2).
    apply IHa in H1 as (u & Hu & ->). apply IHb in H2 as (v & Hv & ->).
    exists (u ++ v). rewrite steps_app, Hu, Hv, app_assoc. auto.
  - destruct H as [H|H]; eauto.
  - destruct H as (m & _ & _ & H). eapply iter_steps; eauto.
  - destruct H as (g1 & H & _). eauto.
Qed.

Lemma search_chars_steps (ic : bool) (p : Re.pattern) (l : list ascii) :
  forall pv i m,
    Re.search_chars ic p pv i l = Some m ->
    exists pre suf,
      l = pre ++ suf
      /\ Re.match_at ic p
           (Re.steps pre {| Re.prev := pv; Re.rest := l; Re.pos := i |})
         = Some m.
Proof.
  induction l as [|a l IH]; intros pv i m H; cbn [Re.search_chars] in H.
  - destruct (Re.match_at ic p _) eqn:E; [|discriminate].
    injection H as ->. exists [], []. auto.
  - destruct (Re.match_at ic p _) eqn:E.
    + injection H as ->. exists [], (a :: l). auto.
    + apply IH in H as (pre & suf & -> & Hm).
      exists (a :: pre), suf. auto.
Qed.

(** A match at some position makes [re.findall] find something. *)
Lemma scan_nonempty (ic : bool) (p : Re.pattern) (pre : list ascii) :
  forall suf pv i,
    Re.match_at ic p
      (Re.steps pre {| Re.prev := pv; Re.rest := pre ++ suf; Re.pos := i |})
    <> None ->
    Re.scan ic p pv i 0 (pre ++ suf) <> [].
Proof.
  induction pre as [|a pre IH]; intros suf pv i H.
  - cbn [Re.steps app] in *.
    destruct (Re.match_at ic p _) as [m|] eqn:E; [|contradiction].
    destruct (scan_match ic p pv i suf m E) as (ms & ->). discriminate.
  - cbn [app]. cbn [Re.scan].
    destruct (Re.match_at ic p
                {| Re.prev := pv; Re.rest := a :: pre ++ suf; Re.pos := i |});
      [discriminate|].
    apply IH. exact H.
Qed.

(** ** Decimal texts *)

Lemma lit_period (a : ascii) : Re.lit_eq true "." a = true -> a = "."%char.
Proof.
  destruct a as [[] [] [] [] [] [] [] []]; intros H; try discriminate H;
    reflexivity.
Qed.

Lemma lit_comma (a : ascii) : Re.lit_eq true "," a = true -> a = ","%char.
Proof.
  destruct a as [[] [] [] [] [] [] [] []]; intros H; try discriminate H;
    reflexivity.
Qed.

(** What [\d+(?:\.\d+)?] reads: digits, then perhaps a period and digits. *)
Lemma sem_decimal (c c' : Re.cursor) (g g' : Re.caps) :
  Re.sem true decimal c g c' g' ->
  exists ds frac,
    Re.consumed c c' (ds ++ frac) /\ g' = g /\ ds <> [] /\ all_digits ds
    /\ (frac = []
        \/ exists fs, frac = "."%char :: fs /\ fs <> [] /\ all_digits fs).
Proof.
  unfold decimal. cbn [Re.sem].
  intros (c1 & g1 & Hd & n & _ & Hhi & Hit).
  apply (sem_class_rep true true 1 None) in Hd
    as (ds & Hds & -> & Hlo & _ & Hf).
  assert (Hne : ds <> []) by (destruct ds; [simpl in Hlo; lia|discriminate]).
  destruct n as [|[|n]]; [| |simpl in Hhi; lia].
  - cbn [Re.iter] in Hit. destruct Hit as [-> ->].
    exists ds, []. rewrite app_nil_r. auto 6.
  - cbn [Re.iter Re.sem] in Hit.
    destruct Hit as (c2 & g2 & (c3 & g3 & (a & l & Hr & Hl & -> & ->) & Hfs)
                     & _ & -> & ->).
    apply (sem_class_rep true true 1 None) in Hfs
      as (fs & Hfs & -> & Hlo2 & _ & Hf2).
    apply lit_period in Hl. subst a.
    exists ds, ("."%char :: fs). split.
    + eapply consumed_trans; [exact Hds|].
      eapply (consumed_trans c1 _ _ ["."%char] fs);
        [apply consumed_step, Hr|exact Hfs].
    + split; [reflexivity|]. split; [exact Hne|]. split; [exact Hf|].
      right. exists fs. split; [reflexivity|]. split; [|exact Hf2].
      destruct fs; [simpl in Hlo2; lia|discriminate].
Qed.

(** [float] accepts digits with an optional fraction. *)
Lemma float_of_decimal_text (ds frac : list ascii) :
  ds <> [] -> all_digits ds ->
  (frac = [] \/ exists fs, frac = "."%char :: fs /\ all_digits fs) ->
  exists x, Py.float_of_string (Str.of_chars (ds ++ frac)) = Ok x.
Proof.
  intros Hne Hd Hfrac.
  destruct Hfrac as [->|(fs & -> & Hfs)].
  { rewrite app_nil_r. eexists. apply float_of_digit_string; assumption. }
  unfold Py.float_of_string. rewrite chars_of_chars.
  destruct ds as [|a ds']; [contradiction|].
  assert (Ha : Chr.is_digit a = true) by (inversion Hd; assumption).
  destruct (digit_cases a Ha)
    as (Hsp & Hlow & Hm & Hp & _ & _ & _ & Hi & Hn & _).
  cbn [app].
  assert (Hall : forall P : ascii -> Prop,
             (forall x, Chr.is_digit x = true -> P x) -> P "."%char ->
             Forall P (a :: ds' ++ "."%char :: fs)).
  { intros P HP Hdot.
    change (a :: ds' ++ "."%char :: fs) with ((a :: ds') ++ "."%char :: fs).
    apply Forall_app. split.
    - eapply Forall_impl; [exact Hd|]. exact HP.
    - constructor; [exact Hdot|]. eapply Forall_impl; [exact Hfs|]. exact HP. }
  assert (Hlast : exists l2 b, a :: ds' ++ "."%char :: fs = l2 ++ [b]
                               /\ Chr.is_space b = false).
  { destruct (@exists_last _ (a :: ds' ++ "."%char :: fs)) as (l2 & b & E);
      [discriminate|].
    exists l2, b. split; [exact E|].
    pose proof (Hall (fun x => Chr.is_space x = false)
                  (fun x Hx => proj1 (digit_cases x Hx)) eq_refl) as H.
    rewrite E in H. apply Forall_app in H as [_ Hb].
    inversion Hb; assumption. }
  destruct Hlast as (l2 & b & El & Hb).
  rewrite (strip_float_id _ a b (ds' ++ "."%char :: fs) l2 eq_refl El Hsp Hb).
  assert (Hsign : Py.split_sign (a :: ds' ++ "."%char :: fs)
                  = (false, a :: ds' ++ "."%char :: fs)).
  { clear -Hm Hp. unfold Py.split_sign.
    destruct a as [[] [] [] [] [] [] [] []]; try reflexivity;
      exfalso; [apply Hp|apply Hm]; reflexivity. }
  rewrite Hsign. cbn [map]. rewrite Hlow.
  assert (Hlow_ne : forall t,
             (Str.of_chars (a :: t) =? "inf")%string = false
             /\ (Str.of_chars (a :: t) =? "infinity")%string = false
             /\ (Str.of_chars (a :: t) =? "nan")%string = false).
  { intros t. unfold Str.of_chars. cbn [string_of_list_ascii String.eqb].
    destruct (Ascii.eqb_spec a "i"); [contradiction|].
    destruct (Ascii.eqb_spec a "n"); [contradiction|]. auto. }
  destruct (Hlow_ne (map Chr.lower (ds' ++ "."%char :: fs))) as (-> & -> & ->).
  cbn [orb].
  rewrite drop_underscores_none.
  2:{ apply Hall; [|discriminate]. intros x Hx. apply (digit_cases x Hx). }
  unfold Py.parse_decimal.
  change (a :: ds' ++ "."%char :: fs) with ((a :: ds') ++ "."%char :: fs).
  rewrite span_digits_app by (auto; reflexivity).
  pose proof (span_digits_app fs [] Hfs I) as Hsp2.
  rewrite app_nil_r in Hsp2. rewrite Hsp2.
  cbn [Py.parse_exponent app]. eexists. reflexivity.
Qed.

(** ** Patterns without groups leave the captures alone *)

Lemma iter_groupless (R : Re.transition) :
  (forall c g c' g', R c g c' g' -> g' = g) ->
  forall n c g c' g', Re.iter R n c g c' g' -> g' = g.
Proof.
  intros HR. induction n as [|n IH]; intros c g c' g' H; cbn [Re.iter] in H.
  - apply H.
  - destruct H as (c1 & g1 & H1 & _ & H2).
    apply HR in H1. apply IH in H2. congruence.
Qed.

Lemma sem_groupless (ic : bool) (r : Re.re) :
  groupless r = true ->
  forall c g c' g', Re.sem ic r c g c' g' -> g' = g.
Proof.
  induction r as [|ch|cl| |a IHa b IHb|a IHa b IHb|gr lo hi a IHa|n a IHa];
    intros Hg c g c' g' H; cbn [Re.sem] in H; cbn [groupless] in Hg.
  - apply H.
  - destruct H as (y & l & _ & _ & _ & ->). reflexivity.
  - destruct H as (y & l & _ & _ & _ & ->). reflexivity.
  - apply H.
  - apply andb_true_iff in Hg as [Ha Hb].
    destruct H as (c1 & g1 & H1 & H2).
    apply (IHa Ha) in H1. apply (IHb Hb) in H2. congruence.
  - apply andb_true_iff in Hg as [Ha Hb].
    destruct H as [H|H]; [apply (IHa Ha) in H|apply (IHb Hb) in H]; exact H.
  - destruct H as (m & _ & _ & H). eapply iter_groupless; eauto.
  - discriminate.
Qed.

(** A reading of a pattern without group, as a move in the subject. *)
Lemma sem_plain (ic : bool) (r : Re.re) (c c' : Re.cursor) (g g' : Re.caps) :
  groupless r = true ->
  Re.sem ic r c g c' g' ->
  g' = g /\ exists w, Re.rest c = w ++ Re.rest c' /\ c' = Re.steps w c.
Proof.
  intros Hg H. split; [eapply sem_groupless; eauto|eapply sem_steps; eauto].
Qed.

(** ** The number of a percentage construct *)

Lemma space_cases (a : ascii) :
  Chr.is_space a = true ->
  Chr.is_word a = false /\ Re.lit_eq true "," a = false.
Proof.
  destruct a as [[] [] [] [] [] [] [] []]; intros H; try discriminate H;
    split; reflexivity.
Qed.

(** After the number of a percentage construct come white space and the
    percent sign: no word character and no comma. *)
Lemma after_percentage_number (frac sp l : list ascii) :
  (frac = [] \/ exists fs, frac = "."%char :: fs /\ fs <> [] /\ all_digits fs) ->
  Forall (fun a => Chr.is_space a = true) sp ->
  match frac ++ sp ++ "%"%char :: l with
  | a :: _ => Chr.is_word a = false /\ Re.lit_eq true "," a = false
  | [] => False
  end.
Proof.
  intros [->|(fs & -> & _)] Hsp; [|split; reflexivity].
  cbn [app]. destruct Hsp as [|a sp Ha _]; [split; reflexivity|].
  apply space_cases, Ha.
Qed.

(** A reading of the percentage pattern: its one group, [1] or [2], holds
    digits with an optional fraction; the digits stand in the subject
    before a character that is no word character and no comma. *)
Lemma percentage_reads (c c' : Re.cursor) (g' : Re.caps) :
  Re.sem true percentage c [] c' g' ->
  exists n u ds frac tail,
    (n = 1 \/ n = 2)%nat
    /\ g' = [(n, ds ++ frac)]
    /\ ds <> [] /\ all_digits ds
    /\ (frac = [] \/ exists fs, frac = "."%char :: fs /\ fs <> [] /\ all_digits fs)
    /\ Re.rest c = u ++ ds ++ tail
    /\ match tail with
       | a :: _ => Chr.is_word a = false /\ Re.lit_eq true "," a = false
       | [] => False
       end.
Proof.
  unfold percentage. intros [H|H].
  - cbn [Re.sem] in H.
    destruct H as (c1 & g1 & H1 & c2 & g2 & H2 & c3 & g3 & H3 & c4 & g4 & H4
                   & c5 & g5 & (g6 & Hd & ->) & c6 & g7 & H6
                   & (a & l & Hr & Hl & -> & ->)).
    apply (sem_plain true profit_or_loss) in H1 as (-> & u1 & Hu1 & ->);
      [|reflexivity].
    apply (sem_plain true (Re.Rep false 0 None (Re.Cls Re.CAny))) in H2
      as (-> & u2 & Hu2 & ->); [|reflexivity].
    apply (sem_plain true (Re.words ["is"; "of"; "at"])) in H3
      as (-> & u3 & Hu3 & ->); [|reflexivity].
    apply (sem_plain true spaces) in H4 as (-> & u4 & Hu4 & ->); [|reflexivity].
    apply sem_decimal in Hd as (ds & frac & Hc & -> & Hne & Hds & Hfrac).
    apply (sem_class_rep true true 0 None) in H6 as (sp & Hsp & -> & _ & _ & Hspf).
    apply lit_percent in Hl. subst a.
    rewrite (consumed_firstn _ _ _ Hc).
    exists 1%nat, (u1 ++ u2 ++ u3 ++ u4), ds, frac, (frac ++ sp ++ "%"%char :: l).
    split; [left; reflexivity|]. split; [reflexivity|].
    split; [exact Hne|]. split; [exact Hds|]. split; [exact Hfrac|].
    split.
    + rewrite Hu1, Hu2, Hu3, Hu4. destruct Hc as [Hc _]. rewrite Hc.
      destruct Hsp as [Hsp _]. rewrite Hsp, Hr.
      rewrite <- !app_assoc. reflexivity.
    + apply after_percentage_number; assumption.
  - cbn [Re.sem] in H.
    destruct H as (c1 & g1 & (g2 & Hd & ->) & c2 & g3 & H2
                   & c3 & g4 & (a & l & Hr & Hl & -> & ->) & Ht).
    apply sem_decimal in Hd as (ds & frac & Hc & -> & Hne & Hds & Hfrac).
    apply (sem_class_rep true true 0 None) in H2 as (sp & Hsp & -> & _ & _ & Hspf).
    apply lit_percent in Hl. subst a.
    apply (sem_groupless true (Re.Seq spaces profit_or_loss)) in Ht;
      [|reflexivity]. subst g'.
    rewrite (consumed_firstn _ _ _ Hc).
    exists 2%nat, [], ds, frac, (frac ++ sp ++ "%"%char :: l).
    split; [right; reflexivity|]. split; [reflexivity|].
    split; [exact Hne|]. split; [exact Hds|]. split; [exact Hfrac|].
    split.
    + destruct Hc as [Hc _]. rewrite Hc.
      destruct Hsp as [Hsp _]. rewrite Hsp, Hr.
      rewrite <- !app_assoc. reflexivity.
    + apply after_percentage_number; assumption.
Qed.

(** ** Amount texts *)

Lemma iter_thousands (n : nat) :
  forall c g c' g',
    Re.iter (Re.sem true (Re.Seq (Re.Lit ",") (digits 3 (Some 3)))) n c g c' g' ->
    exists th,
      Re.consumed c c' th /\ g' = g
      /\ Forall (fun a => Chr.is_digit a = true \/ a = ","%char) th.
Proof.
  induction n as [|n IH]; intros c g c' g' H; cbn [Re.iter] in H.
  - destruct H as [-> ->]. exists []. split; [apply consumed_refl|auto].
  - destruct H as (c1 & g1 & H1 & _ & H2).
    cbn [Re.sem] in H1.
    destruct H1 as (c2 & g2 & (a & l & Hr & Hl & -> & ->) & H1).
    apply (sem_class_rep true true 3 (Some 3)) in H1
      as (ds & Hds & -> & _ & _ & Hf).
    apply IH in H2 as (th & Hth & -> & Hfth).
    apply lit_comma in Hl. subst a.
    exists (","%char :: ds ++ th). split.
    + apply (consumed_trans c (Re.step "," l c) c' [","%char] (ds ++ th));
        [apply consumed_step, Hr|].
      eapply consumed_trans; eauto.
    + split; [reflexivity|]. constructor; [right; reflexivity|].
      apply Forall_app. split; [|exact Hfth].
      eapply Forall_impl; [exact Hf|]. intros x Hx. left. exact Hx.
Qed.

Lemma sem_number (c c' : Re.cursor) (g g' : Re.caps) :
  Re.sem true number c g c' g' ->
  exists w, Re.consumed c c' w /\ g' = g /\ amount_text w.
Proof.
  unfold number. cbn [Re.sem].
  intros (c1 & g1 & Hd & c2 & g2 & (n & _ & _ & Hth) & m & _ & Hhi & Hit).
  apply (sem_class_rep true true 1 None) in Hd
    as (ds & Hds & -> & Hlo & _ & Hf).
  apply iter_thousands in Hth as (th & Hth & -> & Hfth).
  assert (Hne : ds <> []) by (destruct ds; [simpl in Hlo; lia|discriminate]).
  assert (Hcs : exists cs,
             Re.consumed c2 c' cs /\ g' = g
             /\ (cs = [] \/ exists fs, cs = "."%char :: fs /\ all_digits fs)).
  { destruct m as [|[|m]]; [| |simpl in Hhi; lia].
    - cbn [Re.iter] in Hit. destruct Hit as [-> ->].
      exists []. split; [apply consumed_refl|auto].
    - cbn [Re.iter Re.sem] in Hit.
      destruct Hit as (c3 & g3 & (c4 & g4 & (a & l & Hr & Hl & -> & ->) & Hfs)
                       & _ & -> & ->).
      apply (sem_class_rep true true 2 (Some 2)) in Hfs
        as (fs & Hfs & -> & _ & _ & Hf2).
      apply lit_period in Hl. subst a.
      exists ("."%char :: fs). split.
      + apply (consumed_trans c2 (Re.step "." l c2) c3 ["."%char] fs);
          [apply consumed_step, Hr|exact Hfs].
      + split; [reflexivity|]. right. exists fs. auto. }
  destruct Hcs as (cs & Hcs & -> & Hcs').
  exists (ds ++ th ++ cs). split.
  - eapply consumed_trans; [exact Hds|]. eapply consumed_trans; eauto.
  - split; [reflexivity|]. exists ds, th, cs. auto 6.
Qed.

Lemma replace_comma_app (l1 l2 : list ascii) :
  Str.replace_aux [","%char] [] 0 (l1 ++ l2)
  = Str.replace_aux [","%char] [] 0 l1 ++ Str.replace_aux [","%char] [] 0 l2.
Proof.
  induction l1 as [|a l1 IH]; [reflexivity|].
  cbn [app Str.replace_aux Str.is_prefix List.length Nat.sub].
  destruct (Ascii.eqb "," a); cbn [andb app]; rewrite IH; reflexivity.
Qed.

Lemma replace_comma_grouped (th : list ascii) :
  Forall (fun a => Chr.is_digit a = true \/ a = ","%char) th ->
  all_digits (Str.replace_aux [","%char] [] 0 th).
Proof.
  induction 1 as [|a th Ha Hth IH]; [constructor|].
  cbn [Str.replace_aux Str.is_prefix List.length Nat.sub].
  destruct (Ascii.eqb_spec "," a) as [E|E]; cbn [andb app]; [exact IH|].
  constructor; [|exact IH]. destruct Ha as [Ha|Ha]; [exact Ha|].
  symmetry in Ha. contradiction.
Qed.

(** [float] accepts an amount text once its commas are removed. *)
Lemma float_of_amount_text (w : list ascii) :
  amount_text w ->
  exists x,
    Py.float_of_string (Str.replace "," "" (Str.of_chars w)) = Ok x.
Proof.
  intros (ds & th & cs & -> & Hne & Hds & Hth & Hcs).
  unfold Str.replace. rewrite chars_of_chars.
  change (Str.chars ",") with [","%char].
  change (Str.chars "") with (@nil ascii).
  rewrite !replace_comma_app.
  rewrite (replace_aux_no_comma ds).
  2:{ eapply Forall_impl; [exact Hds|]. intros x Hx. apply (digit_cases x Hx). }
  rewrite (replace_aux_no_comma cs).
  2:{ destruct Hcs as [->|(fs & -> & Hfs)]; [constructor|].
      constructor; [discriminate|].
      eapply Forall_impl; [exact Hfs|]. intros x Hx. apply (digit_cases x Hx). }
  rewrite app_assoc.
  apply float_of_decimal_text; [| |exact Hcs].
  - destruct ds; [contradiction|discriminate].
  - apply Forall_app. split; [exact Hds|]. apply replace_comma_grouped, Hth.
Qed.

Lemma amount_text_nonempty (w : list ascii) :
  amount_text w -> exists a t, Str.of_chars w = String a t.
Proof.
  intros (ds & th & cs & -> & Hne & _).
  destruct ds as [|a ds]; [contradiction|].
  exists a, (Str.of_chars (ds ++ th ++ cs)). reflexivity.
Qed.

(** A reading of the amount pattern: its one group, [1] or [2], holds an
    amount text. *)
Lemma amount_reads (c c' : Re.cursor) (g' : Re.caps) :
  Re.sem true amount c [] c' g' ->
  exists n w, (n = 1 \/ n = 2)%nat /\ g' = [(n, w)] /\ amount_text w.
Proof.
  unfold amount. intros [H|H]; cbn [Re.sem] in H.
  - destruct H as (c1 & g1 & H1 & c2 & g2 & (g3 & Hn & ->) & _ & -> & ->).
    apply (sem_groupless true (Re.Rep true 0 (Some 1) (Re.Lit "$"))) in H1;
      [|reflexivity]. subst g1.
    apply sem_number in Hn as (w & Hw & -> & Ht).
    rewrite (consumed_firstn _ _ _ Hw). exists 1%nat, w. auto.
  - destruct H as (c1 & g1 & (_ & -> & ->) & c2 & g2 & (g3 & Hn & ->) & Ht).
    apply (sem_groupless true (Re.Seq spaces unit_words)) in Ht;
      [|reflexivity]. subst g'.
    apply sem_number in Hn as (w & Hw & -> & Hat).
    rewrite (consumed_firstn _ _ _ Hw). exists 2%nat, w. auto.
Qed.

(** The first match of a scan is a match at some position. *)
Lemma scan_head (ic : bool) (p : Re.pattern) (l : list ascii) :
  forall pv i m ms,
    Re.scan ic p pv i 0 l = m :: ms ->
    exists c, Re.match_at ic p c = Some m.
Proof.
  induction l as [|a l IH]; intros pv i m ms H; cbn [Re.scan] in H.
  - destruct (Re.match_at ic p _) eqn:E; [|discriminate].
    injection H as -> _. eauto.
  - destruct (Re.match_at ic p _) eqn:E.
    + injection H as -> _. eauto.
    + eapply IH, H.
Qed.

(** Whenever the amount pattern matches somewhere, the first amount of the
    text converts. *)
Lemma first_amount_some (s : string) :
  Re.finditer true DataExtractor.amount_pattern s <> [] ->
  exists x, DataExtractor.first_amount s = Some x.
Proof.
  intros Hne. unfold DataExtractor.first_amount, Re.findall.
  destruct (Re.finditer true DataExtractor.amount_pattern s) as [|m ms] eqn:E;
    [contradiction|].
  unfold Re.finditer in E. apply scan_head in E as (c & Hm).
  apply match_at_sound in Hm as (c' & Hs & _).
  rewrite amount_pattern_shape in Hs.
  apply amount_reads in Hs as (n & w & Hn & Hc & Hw).
  destruct (amount_text_nonempty w Hw) as (a & t & Hat).
  destruct (float_of_amount_text w Hw) as (x & Hx).
  cbn [map]. unfold Re.groups.
  change (Re.p_groups DataExtractor.amount_pattern) with 2%nat.
  cbn [List.seq map nth]. unfold Re.group. rewrite Hc.
  destruct Hn as [-> | ->]; cbn [Re.cap_lookup Nat.eqb]; rewrite ?Hat.
  - rewrite <- Hat, Hx. eauto.
  - rewrite <- Hat, Hx. eauto.
Qed.

(** ** An amount where the percentage stands *)

Lemma rep_loop_optional {X : Type} (body : Re.matcher) (hi : option nat)
  (k : Re.cursor -> Re.caps -> option X) (c : Re.cursor) (g : Re.caps)
  (fuel : nat) :
  k c g <> None ->
  Re.rep_loop body true 0 hi k fuel 0 c g <> None.
Proof.
  intros Hk. destruct fuel as [|f]; [exact Hk|].
  rewrite rep_loop_greedy_S.
  destruct (if Re.below 0 hi then _ else None); [discriminate|exact Hk].
Qed.

Lemma rep_loop_greedy_run_some {X : Type} (ic : bool) (cl : Re.cclass)
  (lo : nat) (k : Re.cursor -> Re.caps -> option X)
  (w tail : list ascii) (c : Re.cursor) (g : Re.caps) (fuel cnt : nat) :
  Re.rest c = w ++ tail ->
  Forall (fun a => Re.in_class ic cl a = true) w ->
  match tail with
  | a :: _ => Re.in_class ic cl a = false
  | [] => True
  end ->
  (List.length w < fuel)%nat ->
  (lo <= cnt + List.length w)%nat ->
  k (Re.steps w c) g <> None ->
  Re.rep_loop (Re.run ic (Re.Cls cl)) true lo None k fuel cnt c g <> None.
Proof.
  intros Hr Hw Ht Hf Hlo Hk.
  destruct (k (Re.steps w c) g) as [x|] eqn:E; [|contradiction].
  rewrite (rep_loop_greedy_run ic cl lo k x w tail c g fuel cnt); auto.
Qed.

Lemma last_digit (N : list ascii) (pv : option ascii) :
  N <> [] -> all_digits N ->
  exists d, List.last (map Some N) pv = Some d /\ Chr.is_digit d = true.
Proof.
  intros Hne Hd. revert pv.
  induction N as [|x N IH]; intros pv; [contradiction|].
  inversion Hd as [|? ? Hx HN]; subst.
  cbn [map]. rewrite last_cons_default.
  destruct N as [|y N]; [simpl; eauto|].
  apply IH; [discriminate|exact HN].
Qed.

Lemma boundary_after_digits (c : Re.cursor) (N tail : list ascii) :
  Re.rest c = N ++ tail ->
  N <> [] -> all_digits N ->
  match tail with
  | a :: _ => Chr.is_word a = false
  | [] => True
  end ->
  Re.at_boundary (Re.steps N c) = true.
Proof.
  intros Hr Hne Hd Ht.
  destruct (steps_spec N c tail Hr) as (Hs1 & _ & Hs3).
  unfold Re.at_boundary, Re.word_before, Re.word_after. rewrite Hs3, Hs1.
  destruct (last_digit N (Re.prev c) Hne Hd) as (d & -> & Hdd).
  rewrite (digit_is_word d Hdd).
  destruct tail as [|b tail]; [reflexivity|]. rewrite Ht. reflexivity.
Qed.

Lemma digit_not_dollar (a : ascii) :
  Chr.is_digit a = true -> Re.lit_eq true "$" a = false.
Proof.
  destruct a as [[] [] [] [] [] [] [] []]; intros H; try discriminate H;
    reflexivity.
Qed.

(** The amount pattern matches at a run of digits that ends before a
    character that is no word character and no comma. *)
Lemma amount_match_some (c : Re.cursor) (N tail : list ascii) :
  Re.rest c = N ++ tail ->
  N <> [] -> all_digits N ->
  match tail with
  | a :: _ => Chr.is_word a = false /\ Re.lit_eq true "," a = false
  | [] => True
  end ->
  Re.match_at true DataExtractor.amount_pattern c <> None.
Proof.
  intros Hr Hne Hd Ht.
  unfold Re.match_at. rewrite amount_pattern_shape.
  set (k := fun c' g => Some _).
  destruct (steps_spec N c tail Hr) as (Hs1 & Hs2 & Hs3).
  assert (Hmain :
    Re.run true
      (Re.Seq (Re.Rep true 0 (Some 1) (Re.Lit "$"))
         (Re.Seq (Re.Grp 1 number) Re.Bnd)) c [] k <> None).
  { rewrite run_seq, run_rep, rep_loop_skip.
    2:{ intros k'. apply run_lit_fails. rewrite Hr.
        destruct N as [|a N']; [contradiction|]. cbn [app].
        inversion Hd; subst. apply digit_not_dollar. assumption. }
    rewrite run_seq, run_grp. unfold number.
    rewrite run_seq. unfold digits at 1. rewrite run_rep.
    apply (rep_loop_greedy_run_some true Re.CDigit 1 _ N tail); auto.
    - destruct tail as [|b tail]; [exact I|].
      destruct Ht as (Hw & _). simpl. apply not_word_not_digit, Hw.
    - rewrite Hr, length_app. lia.
    - destruct N; [contradiction|]. simpl. lia.
    - unfold thousands. rewrite run_seq, run_rep.
      rewrite rep_loop_skip.
      2:{ intros k'. apply run_lit_then_fails. rewrite Hs1.
          destruct tail; [exact I|]. apply Ht. }
      unfold cents. rewrite run_rep.
      apply rep_loop_optional.
      rewrite run_bnd, (boundary_after_digits c N tail Hr Hne Hd).
      + unfold k. discriminate.
      + destruct tail; [exact I|]. apply Ht. }
  unfold amount. rewrite run_alt.
  destruct (Re.run true _ c [] k); [discriminate|contradiction].
Qed.

(** C4.  The percentage of a base, on a text that writes a number with a
    decimal point or a thousands separator.  [_normalize_number_words]
    joins its tokens by spaces, which parts such a number before the
    patterns read it: of [2.5%] the percentage pattern reads [5], and of
    [invested 1,000] the investment pattern reads [1], although the one
    provides for a fraction and the code removes the commas of the other.
    So the amount of "I made 2.5% profit on invested 1000" is [50.0], where
    2.5 percent of 1000 is [25.0], and the amount of
    "profit is 10% of invested 1,000" is [0.1], where 10 percent of 1000 is
    [100.0], the amount of the same text without the separator. *)
Theorem extract_amount_percentage_parts_numbers :
  DataExtractor._normalize_number_words
    (Str.lower "I made 2.5% profit on invested 1000")
  = "i made 2 . 5% profit on invested 1000"
  /\ DataExtractor._extract_amount "I made 2.5% profit on invested 1000"
     = Ok (Py.float_of_Z 50)
  /\ DataExtractor._normalize_number_words
       (Str.lower "profit is 10% of invested 1,000")
     = "profit is 10% of invested 1 , 000"
  /\ DataExtractor._extract_amount "profit is 10% of invested 1,000"
     = Py.float_of_string "0.1"
  /\ DataExtractor._extract_amount "profit is 10% of invested 1000"
     = Ok (Py.float_of_Z 100).
Proof. repeat split; vm_compute; reflexivity. Qed.

(** Without an investment phrase the first amount of the normalized text
    may be the number of the percentage itself: 10 percent of 10. *)
Example extract_amount_percentage_as_base :
  DataExtractor._extract_amount "I made 10% profit on 2000 dollars"
  = Ok (Py.float_of_Z 1).
Proof. vm_compute. reflexivity. Qed.

(** An amount that is not a number: the base overflows to infinity and
    zero percent of it is [nan], which no number equals. *)
Example extract_amount_not_a_number :
  DataExtractor._extract_amount
    ("invested " ++ Str.of_chars (repeat "9"%char 400) ++ " with 0% profit")
  = Ok S754_nan
  /\ Py.feqb S754_nan S754_nan = false.
Proof. split; vm_compute; reflexivity. Qed.

End PercentageProofs.


(** ** The ledger store *)

Section LedgerProofs.

Import CSVManager Ledger.

Lemma expected_header_normal :
  list_string_eqb
    (map (fun column => Str.lower (Str.strip column)) expected_header)
    expected_header = true.
Proof. vm_compute. reflexivity. Qed.

Ltac io_step :=
  unfold _ensure_header_before_io, _ensure_file_exists, read_all_records,
    bind, catch, ret, path_exists, read_rows, write_rows, append_row;
  cbn [file readable writable negb fst snd].

(** The header check never raises. *)
Lemma ensure_returns (fs : filesys) :
  _ensure_header_before_io fs = (Ok tt, ensured fs).
Proof.
  unfold ensured.
  destruct fs as [[[|first rest]|] rd wr]; destruct rd, wr; io_step;
    try reflexivity;
    destruct (list_string_eqb _ expected_header); reflexivity.
Qed.

Lemma ensured_flags (fs : filesys) :
  readable (ensured fs) = readable fs /\ writable (ensured fs) = writable fs.
Proof.
  unfold ensured.
  destruct fs as [[[|first rest]|] rd wr]; destruct rd, wr; io_step;
    try (split; reflexivity);
    destruct (list_string_eqb _ expected_header); split; reflexivity.
Qed.

(** What the header check leaves of a file. *)
Lemma ensured_cases (fs : filesys) :
  file (ensured fs)
  = match file fs with
    | None => if writable fs then Some [expected_header] else None
    | Some [] => if readable fs && writable fs
                 then Some [expected_header] else Some []
    | Some (first :: rest) =>
        if readable fs && writable fs
           && negb (list_string_eqb
                      (map (fun column => Str.lower (Str.strip column)) first)
                      expected_header)
        then Some (expected_header :: first :: rest)
        else Some (first :: rest)
    end.
Proof.
  unfold ensured.
  destruct fs as [[[|first rest]|] rd wr]; destruct rd, wr; io_step;
    try reflexivity;
    destruct (list_string_eqb _ expected_header); reflexivity.
Qed.

(** Running it twice is running it once. *)
Lemma ensured_idempotent (fs : filesys) : ensured (ensured fs) = ensured fs.
Proof.
  unfold ensured.
  destruct fs as [[[|first rest]|] rd wr]; destruct rd, wr; io_step;
    try reflexivity;
    try (rewrite expected_header_normal; reflexivity);
    destruct (list_string_eqb
                (map (fun column => Str.lower (Str.strip column)) first)
                expected_header) eqn:E;
    io_step; rewrite ?E, ?expected_header_normal; reflexivity.
Qed.

Lemma read_all_records_spec (fs : filesys) :
  read_all_records fs = (Ok (visible (ensured fs)), ensured fs).
Proof.
  unfold read_all_records, bind.
  rewrite ensure_returns.
  generalize (ensured fs). intros fs1.
  unfold visible, path_exists, catch, bind, read_rows, ret.
  destruct fs1 as [[rows|] rd wr]; cbn [file readable negb];
    [|reflexivity].
  destruct rd; reflexivity.
Qed.

Lemma records_visible (fs : filesys) : records fs = visible (ensured fs).
Proof. unfold records. rewrite read_all_records_spec. reflexivity. Qed.

Lemma records_ensured (fs : filesys) : records (ensured fs) = records fs.
Proof. rewrite !records_visible, ensured_idempotent. reflexivity. Qed.




Lemma save_record_spec (r : record) (fs : filesys) :
  save_record r true fs
  = if existsb (fun existing =>
                  key_eqb (record_key r) (existing_key existing))
               (records fs)
    then (Ok false, ensured fs)
    else if writable fs
         then (Ok true, appended (ensured fs) (row_of_record r))
         else (Ok false, ensured fs).
Proof.
  unfold save_record, catch, bind at 1.
  rewrite ensure_returns.
  unfold bind at 1. unfold bind at 1.
  rewrite read_all_records_spec, ensured_idempotent.
  rewrite records_visible.
  unfold ret at 1.
  destruct (existsb _ (visible (ensured fs))); [reflexivity|].
  unfold bind, append_row, ret, appended.
  destruct (ensured_flags fs) as [_ Hw]. rewrite Hw.
  destruct (writable fs); reflexivity.
Qed.











(** *** Reading a saved record back *)







End LedgerProofs.

(* ===================================================================== *)
(** * Further properties *)

Section SignProofs.

Import Sign Shape.

Lemma binary_round_aux_sign (s : bool) (m e : Z) (l : location) :
  sign_bit (binary_round_aux Py.prec Py.emax s m e l) = false \/
  sign_bit (binary_round_aux Py.prec Py.emax s m e l) = s.
Proof.
  unfold binary_round_aux.
  destruct (shr_fexp Py.prec Py.emax m e l) as [mrs1 e1].
  destruct (shr_fexp Py.prec Py.emax _ e1 loc_Exact) as [mrs2 e2].
  destruct (shr_m mrs2); [right; reflexivity| |left; reflexivity].
  destruct (e2 <=? Py.emax - Py.prec)%Z; right; reflexivity.
Qed.

Lemma binary_round_aux_unsigned (m e : Z) (l : location) :
  sign_bit (binary_round_aux Py.prec Py.emax false m e l) = false.
Proof. destruct (binary_round_aux_sign false m e l); assumption. Qed.

Lemma fmul_unsigned (x y : Py.float) :
  sign_bit x = false -> sign_bit y = false -> sign_bit (Py.fmul x y) = false.
Proof.
  destruct x as [sx|sx| |sx mx ex], y as [sy|sy| |sy my ey]; cbn [sign_bit];
    intros Hx Hy; subst; try reflexivity.
  apply binary_round_aux_unsigned.
Qed.

Lemma fdiv_unsigned (x y : Py.float) :
  sign_bit x = false -> sign_bit y = false -> sign_bit (Py.fdiv x y) = false.
Proof.
  destruct x as [sx|sx| |sx mx ex], y as [sy|sy| |sy my ey]; cbn [sign_bit];
    intros Hx Hy; subst; try reflexivity.
  unfold Py.fdiv, SFdiv.
  destruct (SFdiv_core_binary Py.prec Py.emax (Z.pos mx) ex (Z.pos my) ey)
    as [[mz ez] lz].
  apply binary_round_aux_unsigned.
Qed.

Lemma float_of_decimal_unsigned (m e : Z) :
  sign_bit (Py.float_of_decimal false m e) = false.
Proof.
  unfold Py.float_of_decimal. destruct m as [|p|p]; try reflexivity.
  destruct (Z.leb_spec 0 e) as [He|He].
  - cbn [id].
    assert (H : (0 < Z.pos p * 10 ^ e)%Z)
      by (apply Z.mul_pos_pos; [lia|apply Z.pow_pos_nonneg; lia]).
    destruct (Z.pos p * 10 ^ e)%Z as [|q|q] eqn:E; [reflexivity| |lia].
    unfold binary_normalize, binary_round.
    destruct (shl_align _ _ _) as [mz ez]. apply binary_round_aux_unsigned.
  - destruct (10 ^ (- e))%Z as [|q|q]; try reflexivity.
    apply fdiv_unsigned; reflexivity.
Qed.

Lemma round2_unsigned (x : Py.float) :
  sign_bit x = false -> sign_bit (Py.round2 x) = false.
Proof.
  destruct x as [s|s| |s m e]; cbn [sign_bit Py.round2]; intros Hs;
    try assumption; try reflexivity.
  subst s. apply float_of_decimal_unsigned.
Qed.

(** [float] of digits with an optional fraction is an unsigned decimal. *)
Lemma float_of_decimal_text_value (ds frac : list ascii) :
  ds <> [] -> all_digits ds ->
  (frac = [] \/ exists fs, frac = "."%char :: fs /\ all_digits fs) ->
  exists m e,
    Py.float_of_string (Str.of_chars (ds ++ frac))
    = Ok (Py.float_of_decimal false m e).
Proof.
  intros Hne Hd Hfrac.
  destruct Hfrac as [->|(fs & -> & Hfs)].
  { rewrite app_nil_r. eexists _, _. apply float_of_digit_string; assumption. }
  unfold Py.float_of_string. rewrite chars_of_chars.
  destruct ds as [|a ds']; [contradiction|].
  assert (Ha : Chr.is_digit a = true) by (inversion Hd; assumption).
  destruct (digit_cases a Ha)
    as (Hsp & Hlow & Hm & Hp & _ & _ & _ & Hi & Hn & _).
  cbn [app].
  assert (Hall : forall P : ascii -> Prop,
             (forall x, Chr.is_digit x = true -> P x) -> P "."%char ->
             Forall P (a :: ds' ++ "."%char :: fs)).
  { intros P HP Hdot.
    change (a :: ds' ++ "."%char :: fs) with ((a :: ds') ++ "."%char :: fs).
    apply Forall_app. split.
    - eapply Forall_impl; [exact Hd|]. exact HP.
    - constructor; [exact Hdot|]. eapply Forall_impl; [exact Hfs|]. exact HP. }
  assert (Hlast : exists l2 b, a :: ds' ++ "."%char :: fs = l2 ++ [b]
                               /\ Chr.is_space b = false).
  { destruct (@exists_last _ (a :: ds' ++ "."%char :: fs)) as (l2 & b & E);
      [discriminate|].
    exists l2, b. split; [exact E|].
    pose proof (Hall (fun x => Chr.is_space x = false)
                  (fun x Hx => proj1 (digit_cases x Hx)) eq_refl) as H.
    rewrite E in H. apply Forall_app in H as [_ Hb].
    inversion Hb; assumption. }
  destruct Hlast as (l2 & b & El & Hb).
  rewrite (strip_float_id _ a b (ds' ++ "."%char :: fs) l2 eq_refl El Hsp Hb).
  assert (Hsign : Py.split_sign (a :: ds' ++ "."%char :: fs)
                  = (false, a :: ds' ++ "."%char :: fs)).
  { clear -Hm Hp. unfold Py.split_sign.
    destruct a as [[] [] [] [] [] [] [] []]; try reflexivity;
      exfalso; [apply Hp|apply Hm]; reflexivity. }
  rewrite Hsign. cbn [map]. rewrite Hlow.
  assert (Hlow_ne : forall t,
             (Str.of_chars (a :: t) =? "inf")%string = false
             /\ (Str.of_chars (a :: t) =? "infinity")%string = false
             /\ (Str.of_chars (a :: t) =? "nan")%string = false).
  { intros t. unfold Str.of_chars. cbn [string_of_list_ascii String.eqb].
    destruct (Ascii.eqb_spec a "i"); [contradiction|].
    destruct (Ascii.eqb_spec a "n"); [contradiction|]. auto. }
  destruct (Hlow_ne (map Chr.lower (ds' ++ "."%char :: fs))) as (-> & -> & ->).
  cbn [orb].
  rewrite drop_underscores_none.
  2:{ apply Hall; [|discriminate]. intros x Hx. apply (digit_cases x Hx). }
  unfold Py.parse_decimal.
  change (a :: ds' ++ "."%char :: fs) with ((a :: ds') ++ "."%char :: fs).
  rewrite span_digits_app by (auto; reflexivity).
  pose proof (span_digits_app fs [] Hfs I) as Hsp2.
  rewrite app_nil_r in Hsp2. rewrite Hsp2.
  cbn [Py.parse_exponent app]. eexists _, _. reflexivity.
Qed.

Lemma float_of_amount_text_unsigned (w : list ascii) :
  amount_text w ->
  exists x,
    Py.float_of_string (Str.replace "," "" (Str.of_chars w)) = Ok x
    /\ sign_bit x = false.
Proof.
  intros (ds & th & cs & -> & Hne & Hds & Hth & Hcs).
  unfold Str.replace. rewrite chars_of_chars.
  change (Str.chars ",") with [","%char].
  change (Str.chars "") with (@nil ascii).
  rewrite !replace_comma_app.
  rewrite (replace_aux_no_comma ds).
  2:{ eapply Forall_impl; [exact Hds|]. intros x Hx. apply (digit_cases x Hx). }
  rewrite (replace_aux_no_comma cs).
  2:{ destruct Hcs as [->|(fs & -> & Hfs)]; [constructor|].
      constructor; [discriminate|].
      eapply Forall_impl; [exact Hfs|]. intros x Hx. apply (digit_cases x Hx). }
  rewrite app_assoc.
  destruct (float_of_decimal_text_value
              (ds ++ Str.replace_aux [","%char] [] 0 th) cs) as (m & e & H).
  - destruct ds; [contradiction|discriminate].
  - apply Forall_app. split; [exact Hds|]. apply replace_comma_grouped, Hth.
  - exact Hcs.
  - rewrite H. eexists. split; [reflexivity|apply float_of_decimal_unsigned].
Qed.

(** The first amount of a text, when there is one, carries no sign. *)
Lemma first_amount_unsigned (s : string) (x : Py.float) :
  DataExtractor.first_amount s = Some x -> sign_bit x = false.
Proof.
  unfold DataExtractor.first_amount, Re.findall.
  destruct (Re.finditer true DataExtractor.amount_pattern s) as [|m ms] eqn:E;
    [discriminate|].
  unfold Re.finditer in E. apply scan_head in E as (c & Hm).
  apply match_at_sound in Hm as (c' & Hs & _).
  rewrite amount_pattern_shape in Hs.
  apply amount_reads in Hs as (n & w & Hn & Hc & Hw).
  destruct (amount_text_nonempty w Hw) as (a & t & Hat).
  destruct (float_of_amount_text_unsigned w Hw) as (y & Hy & Hsign).
  cbn [map]. unfold Re.groups.
  change (Re.p_groups DataExtractor.amount_pattern) with 2%nat.
  cbn [List.seq map nth]. unfold Re.group. rewrite Hc.
  destruct Hn as [-> | ->]; cbn [Re.cap_lookup Nat.eqb]; rewrite ?Hat;
    rewrite <- Hat, Hy; intros H; injection H as <-; exact Hsign.
Qed.

Lemma sem_ends_in_group (ic : bool) (n : nat) (body r : Re.re) :
  ends_in_group n body r ->
  forall c g c' g',
    Re.sem ic r c g c' g' ->
    exists c1 gb,
      Re.sem ic body c1 g c' gb
      /\ g' = (n, firstn (Re.pos c' - Re.pos c1) (Re.rest c1)) :: gb.
Proof.
  induction r as [|ch|cl| |a IHa b IHb|a IHa b IHb|gr lo hi a IHa|k a IHa];
    cbn [ends_in_group]; intros He c g c' g' H; try contradiction.
  - destruct He as [Ha Hb]. cbn [Re.sem] in H.
    destruct H as (c1 & g1 & H1 & H2).
    apply (sem_groupless ic a Ha) in H1. subst g1.
    apply (IHb Hb) in H2. exact H2.
  - destruct He as [-> ->]. cbn [Re.sem] in H.
    destruct H as (g1 & H & ->). eauto.
Qed.

Lemma investment_patterns_shape :
  Forall (fun p => ends_in_group 1 number (Re.p_re p))
         DataExtractor.investment_patterns.
Proof. repeat constructor. Qed.

(** The base amount of an investment phrase carries no sign. *)
Lemma find_investment_unsigned (ps : list Re.pattern) (s : string)
  (b : Py.float) :
  Forall (fun p => ends_in_group 1 number (Re.p_re p)) ps ->
  DataExtractor.find_investment ps s = Some b -> sign_bit b = false.
Proof.
  induction 1 as [|p ps Hp Hps IH]; cbn [DataExtractor.find_investment];
    [discriminate|].
  destruct (Re.search true p s) as [m|] eqn:E; [|exact IH].
  apply search_sound in E as (c & c' & Hs & _).
  apply (sem_ends_in_group true 1 number _ Hp) in Hs as (c1 & gb & Hs & Hg).
  apply sem_number in Hs as (w & Hw & -> & Hat).
  rewrite (consumed_firstn _ _ _ Hw) in Hg.
  unfold Re.group. rewrite Hg. cbn [Re.cap_lookup Nat.eqb].
  destruct (float_of_amount_text_unsigned w Hat) as (y & Hy & Hsign).
  rewrite Hy. intros H. injection H as <-. exact Hsign.
Qed.

(** Where the percentage construct is found, its number converts to an
    unsigned float and the text has a first amount. *)
Lemma percentage_branch (normalized : string) (pm : Re.rmatch) :
  Re.search true DataExtractor.percentage_pattern normalized = Some pm ->
  exists pct b0,
    DataExtractor.float_of_value (DataExtractor.first_truthy pm) = Ok pct
    /\ sign_bit pct = false
    /\ DataExtractor.first_amount normalized = Some b0.
Proof.
  intros Hs. unfold Re.search in Hs.
  apply search_chars_steps in Hs as (pre & suf & Hl & Hm).
  apply match_at_sound in Hm as (c' & Hsem & _).
  rewrite percentage_pattern_shape in Hsem.
  apply percentage_reads
    in Hsem as (n & u & ds & frac & tail & Hn & Hc & Hne & Hds & Hfrac & Hr & Ht).
  set (c0 := {| Re.prev := None; Re.rest := Str.chars normalized; Re.pos := 0 |})
    in *.
  destruct (steps_spec pre c0 suf Hl) as (Hsuf & _).
  rewrite Hsuf in Hr. clear Hsuf.
  assert (Htruthy : DataExtractor.first_truthy pm
                    = Some (Str.of_chars (ds ++ frac))).
  { unfold DataExtractor.first_truthy, Re.group. rewrite Hc.
    destruct ds as [|a ds]; [contradiction|].
    destruct Hn as [-> | ->]; reflexivity. }
  destruct (float_of_decimal_text_value ds frac Hne Hds) as (m & e & Hpct).
  { destruct Hfrac as [->|(fs & -> & _ & Hfs)]; [left; reflexivity|].
    right. exists fs. auto. }
  destruct (first_amount_some normalized) as (b0 & Hb0).
  { unfold Re.finditer. rewrite Hl, Hr, app_assoc.
    apply scan_nonempty.
    apply (amount_match_some _ ds tail); auto.
    - apply steps_spec. reflexivity.
    - destruct tail; [exact I|exact Ht]. }
  exists (Py.float_of_decimal false m e), b0.
  rewrite Htruthy. cbn [DataExtractor.float_of_value].
  split; [exact Hpct|]. split; [apply float_of_decimal_unsigned|exact Hb0].
Qed.

(** The amounts [_extract_amount] returns: [0.0], the first amount of
    the text, or a percentage of an unsigned base. *)
Lemma extract_amount_forms (text : string) :
  exists x : Py.float,
    DataExtractor._extract_amount text = Ok x
    /\ (x = S754_zero false
        \/ DataExtractor.first_amount
             (DataExtractor._normalize_number_words (Str.lower text)) = Some x
        \/ exists b pct,
             x = Py.round2 (Py.fmul b (Py.fdiv pct DataExtractor.hundred))
             /\ sign_bit b = false /\ sign_bit pct = false).
Proof.
  unfold DataExtractor._extract_amount. cbv zeta.
  set (normalized := DataExtractor._normalize_number_words (Str.lower text)).
  destruct (Re.search true DataExtractor.percentage_pattern normalized)
    as [pm|] eqn:Hs.
  2:{ destruct (DataExtractor.first_amount normalized) as [x|] eqn:E.
      - exists x. auto.
      - exists (S754_zero false). auto. }
  destruct (percentage_branch normalized pm Hs) as (pct & b0 & Hpct & Hsign & Hb0).
  rewrite Hpct. cbn [rbind]. rewrite Hb0.
  destruct (DataExtractor.find_investment DataExtractor.investment_patterns
              normalized) as [b|] eqn:Einv.
  - eexists. split; [reflexivity|]. right. right. exists b, pct.
    split; [reflexivity|]. split; [|exact Hsign].
    eapply find_investment_unsigned; [apply investment_patterns_shape|exact Einv].
  - eexists. split; [reflexivity|]. right. right. exists b0, pct.
    split; [reflexivity|]. split; [|exact Hsign].
    eapply first_amount_unsigned, Hb0.
Qed.

(** [_extract_amount] never raises, and the amount it returns is never
    negative: it is [0.0], a positive number, [inf] or [nan]. *)
Theorem extract_amount_total_unsigned (text : string) :
  exists x : Py.float,
    DataExtractor._extract_amount text = Ok x /\ sign_bit x = false.
Proof.
  destruct (extract_amount_forms text) as (x & E & H).
  exists x. split; [exact E|].
  destruct H as [->|[H|(b & pct & -> & Hb & Hp)]].
  - reflexivity.
  - eapply first_amount_unsigned, H.
  - apply round2_unsigned, fmul_unsigned; [exact Hb|].
    apply fdiv_unsigned; [exact Hp|reflexivity].
Qed.

End SignProofs.

Section ExtractProofs.

Import Sign Trap.

Lemma valid_cases (y m d : Z) :
  Date.valid y m d = true <->
  (1 <= y <= 9999 /\ 1 <= m <= 12 /\ 1 <= d <= Date.days_in_month y m)%Z.
Proof.
  unfold Date.valid. rewrite !andb_true_iff, !Z.leb_le. lia.
Qed.

Lemma replace_day_cases (now : Date.date) (d : Z) :
  Date.wf now ->
  (1 <= d <= Date.days_in_month (Date.year now) (Date.month now))%Z ->
  exists t, Date.replace_day now d = Ok t /\ Date.wf t.
Proof.
  intros Hwf Hd. unfold Date.replace_day, Date.datetime.
  apply valid_cases in Hwf.
  assert (Hv : Date.valid (Date.year now) (Date.month now) d = true)
    by (apply valid_cases; lia).
  rewrite Hv. eexists. split; [reflexivity|exact Hv].
Qed.

Lemma datetime_wf (y m d : Z) (t : Date.date) :
  Date.datetime y m d = Ok t -> Date.wf t.
Proof.
  unfold Date.datetime. destruct (Date.valid y m d) eqn:E; [|discriminate].
  intros H. injection H as <-. exact E.
Qed.

Lemma numeric_date_wf (g : list (option string)) (s : string) :
  DataExtractor.numeric_date g = Some s ->
  exists t, Date.wf t /\ s = Date.strftime t.
Proof.
  unfold DataExtractor.numeric_date. cbv zeta.
  destruct (Date.datetime _ _ _) as [t|e] eqn:E1.
  - intros H. injection H as <-. exists t. split; [|reflexivity].
    eapply datetime_wf, E1.
  - clear E1.
    destruct (Date.datetime _ _ _) as [t|e2] eqn:E2; [|intros H; discriminate H].
    intros H. injection H as <-. exists t. split; [|reflexivity].
    eapply datetime_wf, E2.
Qed.

Lemma month_name_date_wf (ps : list Re.pattern) (tl s : string) :
  DataExtractor.month_name_date ps tl = Some s ->
  exists t, Date.wf t /\ s = Date.strftime t.
Proof.
  induction ps as [|p ps IH]; cbn [DataExtractor.month_name_date];
    [intros H; discriminate H|].
  destruct (Re.search false p tl) as [m|]; [|exact IH].
  destruct (match dict_get _ month_names with Some _ => _ | None => _ end)
    as [[[mo d] y]|]; [|exact IH].
  destruct (Date.datetime _ _ _) as [t|e] eqn:E; [|exact IH].
  intros H. injection H as <-. exists t. split; [|reflexivity].
  eapply datetime_wf, E.
Qed.

(** What [_extract_date] does: it raises exactly in the month-end trap,
    and the date it returns is a calendar date as [strftime] prints it. *)
Lemma extract_date_cases (now : Date.date) (text : string) :
  Date.wf now ->
  (month_end_trap now (Str.lower text) ->
   DataExtractor._extract_date now text = Raise ValueError)
  /\ (~ month_end_trap now (Str.lower text) ->
      exists s t,
        DataExtractor._extract_date now text = Ok s
        /\ Date.wf t /\ s = Date.strftime t).
Proof.
  intros Hwf. pose proof Hwf as Hv. apply valid_cases in Hv.
  unfold month_end_trap, DataExtractor._extract_date. cbv zeta.
  destruct (Re.matches false DataExtractor.today_pattern (Str.lower text)).
  { split; [intros [H _]; discriminate|]. intros _. eauto. }
  destruct (Re.matches false DataExtractor.yesterday_pattern (Str.lower text)).
  { split.
    - intros [_ [[_ Hd]|[H _]]]; [|discriminate].
      rewrite replace_day_before_first by exact Hd. reflexivity.
    - intros Hn.
      destruct (replace_day_cases now (Date.day now - 1) Hwf) as (t & -> & Ht).
      + assert (Date.day now <> 1%Z) by (intros E; apply Hn; auto). lia.
      + cbn [rbind]. eauto. }
  destruct (Re.matches false DataExtractor.tomorrow_pattern (Str.lower text)).
  { split.
    - intros [_ [[H _]|[_ [_ Hd]]]]; [discriminate|].
      rewrite replace_day_after_last by exact Hd. reflexivity.
    - intros Hn.
      destruct (replace_day_cases now (Date.day now + 1) Hwf) as (t & -> & Ht).
      + assert (Date.day now
                <> Date.days_in_month (Date.year now) (Date.month now))
          by (intros E; apply Hn; auto).
        lia.
      + cbn [rbind]. eauto. }
  split; [intros [_ [[H _]|[_ [H _]]]]; discriminate|]. intros _.
  destruct (match Re.search false DataExtractor.numeric_date_pattern text with
            | Some m => _
            | None => None
            end) as [s|] eqn:En.
  - assert (Hs : DataExtractor.numeric_date
                   (match Re.search false DataExtractor.numeric_date_pattern text
                    with
                    | Some m => Re.groups DataExtractor.numeric_date_pattern m
                    | None => []
                    end) = Some s).
    { destruct (Re.search false DataExtractor.numeric_date_pattern text);
        [exact En|discriminate]. }
    apply numeric_date_wf in Hs as (t & Ht & ->). eauto.
  - destruct (DataExtractor.month_name_date _ _) as [s|] eqn:Em.
    + apply month_name_date_wf in Em as (t & Ht & ->). eauto.
    + eauto.
Qed.

Lemma length_append (a b : string) :
  String.length (a ++ b) = (String.length a + String.length b)%nat.
Proof. induction a as [|c a IH]; [reflexivity|]. simpl. rewrite IH. reflexivity. Qed.

(** The details of a record are never shorter than three characters. *)
Lemma extract_details_length (text ty : string) (amount : Py.float) :
  (3 <= String.length (DataExtractor._extract_details text ty amount))%nat.
Proof.
  unfold DataExtractor._extract_details. cbv zeta.
  match goal with
  | |- context [if (String.length ?d <? 3)%nat then _ else _] =>
      destruct (Nat.ltb_spec (String.length d) 3) as [H|H]
  end.
  - rewrite length_append. simpl. lia.
  - exact H.
Qed.

Lemma extract_type_values (text : string) :
  DataExtractor._extract_type text = "profit"
  \/ DataExtractor._extract_type text = "loss".
Proof.
  unfold DataExtractor._extract_type.
  destruct (existsb _ DataExtractor.profit_patterns); [left; reflexivity|].
  destruct (existsb _ DataExtractor.loss_patterns); right; reflexivity.
Qed.

(** [extract] fails in the month-end trap, with [ValueError], and nowhere
    else. *)
Theorem extract_raises_only_at_month_ends (now : Date.date) (text : string) :
  Date.wf now ->
  let text_lower := Str.lower (Str.strip (Str.lower text)) in
  (month_end_trap now text_lower ->
   DataExtractor.extract now text = Raise ValueError)
  /\ (~ month_end_trap now text_lower ->
      exists r, DataExtractor.extract now text = Ok r).
Proof.
  intros Hwf tl. unfold DataExtractor.extract. cbv zeta.
  destruct (extract_amount_forms text) as (x & -> & _).
  cbn [rbind].
  destruct (extract_date_cases now (Str.strip (Str.lower text)) Hwf) as [H1 H2].
  fold tl in H1, H2. split.
  - intros Ht. rewrite (H1 Ht). reflexivity.
  - intros Ht. destruct (H2 Ht) as (s & t & -> & _). cbn [rbind]. eauto.
Qed.

(** On the first of March, a loss of yesterday. *)
Lemma extract_raises_only_at_month_ends_witness :
  DataExtractor.extract
    {| Date.year := 2024; Date.month := 3; Date.day := 1 |}
    "I lost 20 dollars yesterday"
  = Raise ValueError.
Proof.
  destruct (extract_raises_only_at_month_ends
              {| Date.year := 2024; Date.month := 3; Date.day := 1 |}
              "I lost 20 dollars yesterday" eq_refl) as [H _].
  apply H. split; [vm_compute; reflexivity|].
  left. split; vm_compute; reflexivity.
Defined.

(** Every record that [extract] returns is well formed: its type is
    [profit] or [loss], its amount is not negative, its date is a calendar
    date as [strftime] prints it, and its details have three characters
    at least. *)
Theorem extract_record_well_formed (now : Date.date) (text : string)
  (r : record) :
  Date.wf now ->
  DataExtractor.extract now text = Ok r ->
  (r_type r = "profit" \/ r_type r = "loss")
  /\ sign_bit (r_amount r) = false
  /\ (exists t, Date.wf t /\ r_date r = Date.strftime t)
  /\ (3 <= String.length (r_details r))%nat.
Proof.
  intros Hwf. unfold DataExtractor.extract. cbv zeta.
  destruct (extract_amount_forms text) as (x & -> & Hx).
  cbn [rbind].
  destruct (extract_date_cases now (Str.strip (Str.lower text)) Hwf) as [H1 H2].
  destruct (DataExtractor._extract_date now (Str.strip (Str.lower text)))
    as [s|e] eqn:Ed; cbn [rbind]; [|intros H; discriminate H].
  intros H. injection H as <-. cbn [r_type r_amount r_date r_details].
  split; [apply extract_type_values|]. split.
  { destruct Hx as [->|[Hx|(b & pct & -> & Hb & Hp)]].
    - reflexivity.
    - eapply first_amount_unsigned, Hx.
    - apply round2_unsigned, fmul_unsigned; [exact Hb|].
      apply fdiv_unsigned; [exact Hp|reflexivity]. }
  split; [|apply extract_details_length].
  assert (Hn : ~ month_end_trap now (Str.lower (Str.strip (Str.lower text)))).
  { intros Ht. discriminate (H1 Ht). }
  destruct (H2 Hn) as (s' & t & Hs & Ht & Hst).
  injection Hs as ->. eauto.
Qed.

(** A profit of the day. *)
Lemma extract_record_well_formed_witness :
  let r := {| r_type := "profit"; r_amount := Py.float_of_Z 500;
              r_date := "2024-03-15";
              r_details := "I made profit selling old items" |} in
  (r_type r = "profit" \/ r_type r = "loss")
  /\ sign_bit (r_amount r) = false
  /\ (exists t, Date.wf t /\ r_date r = Date.strftime t)
  /\ (3 <= String.length (r_details r))%nat.
Proof.
  apply (extract_record_well_formed
           {| Date.year := 2024; Date.month := 3; Date.day := 15 |}
           "I made $500 profit selling old items").
  - reflexivity.
  - vm_compute. reflexivity.
Defined.

End ExtractProofs.

Section FirstNumberProofs.

Import Shape.






End FirstNumberProofs.

Section QuestionProofs.

Import Questions QueryAnalyzer.

Lemma set_type_date (t : option string) (ps : params) (d : string) :
  ps !! "date" = Some (VStr d) -> set_type t ps !! "date" = Some (VStr d).
Proof.
  destruct t as [w|]; cbn [set_type]; [|auto].
  intros H. rewrite lookup_insert_ne by discriminate. exact H.
Qed.

Lemma rule_month_shape (now : Date.date) (query : string) :
  let mm := Re.search true month_pattern query in
  params_shape (fst (rule_month now query mm None (unknown, ∅)))
               (snd (rule_month now query mm None (unknown, ∅))).
Proof.
  cbv zeta. unfold rule_month.
  destruct (Re.search true month_pattern query) as [m|] eqn:Em; [|reflexivity].
  destruct (mentioned_month_range query m Em) as (name & _ & _ & Hr).
  destruct (type_keyword query) as [w|] eqn:Ew; cbn [fst snd params_shape].
  - exists (mentioned_month m), (mentioned_year now query), w.
    split; [reflexivity|]. split; [exact Hr|].
    eapply type_keyword_values, Ew.
  - exists (mentioned_month m), (mentioned_year now query). auto.
Qed.

Lemma rule_date_shape (query : string) (dm rm : option Re.rmatch)
  (st : pstate) :
  params_shape (fst st) (snd st) ->
  params_shape (fst (rule_date query dm rm st)) (snd (rule_date query dm rm st)).
Proof.
  intros Hst. unfold rule_date.
  destruct dm as [m|]; [|exact Hst].
  destruct rm; [exact Hst|].
  destruct (_extract_date_from_match _) as [d|]; [|exact Hst].
  cbn [fst snd params_shape]. exists d.
  apply set_type_date. apply lookup_insert_eq.
Qed.

Lemma rule_amount_shape (now : Date.date) (query : string) (st : pstate) :
  params_shape (fst st) (snd st) ->
  params_shape (fst (rule_amount now query st)) (snd (rule_amount now query st)).
Proof.
  intros Hst. unfold rule_amount.
  destruct (Re.matches false amount_pattern query); cbn [andb]; [|exact Hst].
  destruct st as [qt ps]. cbn [fst snd] in *.
  destruct qt; cbn [is_unknown negb]; try exact Hst.
  cbn [params_shape] in Hst. subst ps.
  destruct (Re.matches true today_pattern query); cbn [fst snd params_shape].
  - eexists. apply lookup_insert_eq.
  - eexists. split; [reflexivity|]. auto.
Qed.

Lemma rule_report_shape (query : string) (mm dm rm : option Re.rmatch)
  (st : pstate) :
  params_shape (fst st) (snd st) ->
  params_shape (fst (rule_report query mm dm rm st))
               (snd (rule_report query mm dm rm st)).
Proof.
  intros Hst. unfold rule_report.
  destruct (Re.matches false report_pattern query); cbn [andb]; [|exact Hst].
  destruct st as [qt ps]. cbn [fst snd] in *.
  destruct qt; cbn [is_unknown]; try exact Hst.
  cbn [params_shape] in Hst. subst ps.
  destruct (Re.matches false profit_pattern query).
  { cbn [fst snd params_shape]. eexists. split; [reflexivity|]. auto. }
  destruct (Re.matches false loss_pattern query).
  { cbn [fst snd params_shape]. eexists. split; [reflexivity|]. auto. }
  destruct (_ && _); [|reflexivity].
  cbn [fst snd params_shape]. eexists. split; [reflexivity|]. auto.
Qed.

(** With a relative keyword the later rules change nothing. *)
Lemma parse_query_relative (now : Date.date) (query : string) (m : Re.rmatch) :
  Re.search true relative_date_pattern query = Some m ->
  _parse_query now query = rule_relative now query (Some m) (unknown, ∅).
Proof.
  intros Hm. unfold _parse_query. cbv zeta. rewrite Hm.
  destruct (rule_relative now query (Some m) (unknown, ∅)) as [st|e] eqn:E;
    cbn [rbind]; [|reflexivity].
  pose proof (rule_relative_kind now query (Some m) st E) as Hk.
  cbn beta iota in Hk. destruct st as [qt ps]. cbn [fst] in Hk. subst qt.
  f_equal.
  assert (H2 : rule_month now query (Re.search true month_pattern query)
                 (Some m) (date_query, ps) = (date_query, ps)).
  { unfold rule_month. destruct (Re.search true month_pattern query); reflexivity. }
  rewrite H2.
  assert (H3 : rule_date query (Re.search true date_pattern query)
                 (Some m) (date_query, ps) = (date_query, ps)).
  { unfold rule_date. destruct (Re.search true date_pattern query); reflexivity. }
  rewrite H3.
  assert (H4 : rule_amount now query (date_query, ps) = (date_query, ps)).
  { unfold rule_amount. cbn [fst is_unknown negb].
    destruct (Re.matches false amount_pattern query); reflexivity. }
  rewrite H4.
  unfold rule_report. cbn [fst is_unknown]. rewrite andb_false_r. reflexivity.
Qed.

(** Each type of question comes with its parameters: none when the
    question is not understood, month and year for a monthly report, type,
    month and year for a type question, a date for a date question, and
    the type alone, which may be [None], for a summary. *)
Theorem classify_params_shape (now : Date.date) (question : string)
  (qt : query_type) (ps : params) :
  classify now question = Ok (qt, ps) -> params_shape qt ps.
Proof.
  unfold classify. generalize (Str.lower question). intros query.
  destruct (Re.search true relative_date_pattern query) as [m|] eqn:Er.
  - rewrite (parse_query_relative now query m Er). unfold rule_relative.
    destruct (if (_ =? "today")%string then _ else _) as [d|e]; cbn [rbind];
      [|intros H; discriminate H].
    intros H. injection H as <- <-. cbn [params_shape snd].
    exists d. apply set_type_date, lookup_insert_eq.
  - unfold _parse_query. cbv zeta. rewrite Er.
    cbn [rule_relative rbind].
    intros H. injection H as H.
    pose proof (rule_month_shape now query) as H2. cbv zeta in H2.
    apply (rule_date_shape query (Re.search true date_pattern query) None) in H2.
    apply (rule_amount_shape now query) in H2.
    apply (rule_report_shape query (Re.search true month_pattern query)
             (Re.search true date_pattern query) None) in H2.
    rewrite H in H2. exact H2.
Qed.

(** A question about a month. *)
Lemma classify_params_shape_witness :
  params_shape monthly_report
    (<["year" := VInt 2024]> (<["month" := VInt 3]> ∅)).
Proof.
  apply (classify_params_shape
           {| Date.year := 2024; Date.month := 3; Date.day := 15 |}
           "Show me the report for March").
  vm_compute. reflexivity.
Defined.

Lemma relative_date_pattern_shape :
  Re.p_re relative_date_pattern
  = Re.Seq Re.Bnd
      (Re.Seq (Re.Grp 1 (Re.words ["today"; "yesterday"; "tomorrow"])) Re.Bnd).
Proof. reflexivity. Qed.

(** The word a relative match holds. *)
Lemma relative_word (query : string) (m : Re.rmatch) :
  Re.search true relative_date_pattern query = Some m ->
  exists w,
    In w ["today"; "yesterday"; "tomorrow"]
    /\ Re.group 1 m <> None
    /\ Str.lower (match Re.group 1 m with Some t => t | None => "" end) = w.
Proof.
  intros H. apply search_sound in H as (c & c' & Hs & _).
  rewrite relative_date_pattern_shape in Hs. cbn [Re.sem] in Hs.
  destruct Hs as (c1 & g1 & (_ & -> & ->) & c2 & g2 & (g3 & Hw & ->)
                  & (_ & -> & Hg)).
  apply sem_words in Hw as (name & w & Hin & Hc & -> & Hf).
  - exists name. split; [exact Hin|].
    unfold Re.group. rewrite Hg. cbn [Re.cap_lookup Nat.eqb].
    rewrite (consumed_firstn _ _ _ Hc). split; [discriminate|].
    apply lower_read; [|exact Hf].
    cbn [In] in Hin. destruct Hin as [<-|[<-|[<-|[]]]]; reflexivity.
  - repeat constructor; discriminate.
  - discriminate.
Qed.

(** A question with [today], [yesterday] or [tomorrow] is a date question
    about that day, whatever month or date it mentions besides; the day
    is found with [timedelta], which fails only beyond the calendar. *)
Theorem relative_date_query (now : Date.date) (question : string)
  (m : Re.rmatch) :
  let query := Str.lower question in
  Re.search true relative_date_pattern query = Some m ->
  exists w,
    In w ["today"; "yesterday"; "tomorrow"]
    /\ option_map Str.lower (Re.group 1 m) = Some w
    /\ classify now question
       = (let! d := relative_day now w in
          Ok (date_query,
              set_type (type_keyword query)
                (<["date" := VStr (Date.strftime d)]> ∅)))
    /\ ((1 < Date.year now < 9999)%Z -> exists d, relative_day now w = Ok d).
Proof.
  intros query Hm.
  destruct (relative_word query m Hm) as (w & Hin & Hg & Hw).
  exists w. split; [exact Hin|]. split.
  { destruct (Re.group 1 m) as [t|]; [|contradiction].
    cbn [option_map]. rewrite Hw. reflexivity. }
  split.
  - unfold classify. fold query. rewrite (parse_query_relative now query m Hm).
    unfold rule_relative. cbv zeta. rewrite Hw. cbn [snd].
    cbn [In] in Hin. destruct Hin as [<-|[<-|[<-|[]]]]; cbn.
    + reflexivity.
    + destruct (Date.minus_one_day now); reflexivity.
    + destruct (Date.plus_one_day now); reflexivity.
  - intros Hy. unfold relative_day, Date.minus_one_day, Date.plus_one_day.
    destruct (w =? "yesterday")%string.
    + destruct (1 <? Date.day now)%Z; [eauto|].
      destruct (1 <? Date.month now)%Z; [eauto|].
      destruct (Z.ltb_spec 1 (Date.year now)); [eauto|lia].
    + destruct (w =? "tomorrow")%string; [|eauto].
      destruct (Date.day now <? _)%Z; [eauto|].
      destruct (Date.month now <? 12)%Z; [eauto|].
      destruct (Z.ltb_spec (Date.year now) 9999); [eauto|lia].
Qed.

(** A question that names yesterday and a month. *)
Lemma relative_date_query_witness :
  let now := {| Date.year := 2024; Date.month := 3; Date.day := 1 |} in
  let question := "How much did I spend yesterday in March?" in
  exists m,
    Re.search true relative_date_pattern (Str.lower question) = Some m
    /\ exists w,
         In w ["today"; "yesterday"; "tomorrow"]
         /\ option_map Str.lower (Re.group 1 m) = Some w
         /\ classify now question
            = (let! d := relative_day now w in
               Ok (date_query,
                   set_type (type_keyword (Str.lower question))
                     (<["date" := VStr (Date.strftime d)]> ∅)))
         /\ ((1 < Date.year now < 9999)%Z ->
             exists d, relative_day now w = Ok d).
Proof.
  intros now question. eexists. split; [vm_compute; reflexivity|].
  apply (relative_date_query now question). vm_compute. reflexivity.
Defined.




End QuestionProofs.

Section StoreProofs.

Import CSVManager Ledger Store.

Ltac io_run :=
  unfold _ensure_header_before_io, _ensure_file_exists, read_all_records,
    bind, catch, ret, path_exists, read_rows, write_rows, append_row;
  cbn [file readable writable negb fst snd].

Lemma list_string_eqb_eq (a b : list string) :
  list_string_eqb a b = true <-> a = b.
Proof. unfold list_string_eqb. apply bool_decide_eq_true. Qed.

(** The header check never deletes or changes a row: it leaves the file
    as it is or writes the expected header before its rows.  Run twice it
    does what it does once, and on a file that can be read and written it
    leaves a first row that passes the check. *)
Theorem header_check_keeps_rows (fs : filesys) :
  match file fs with
  | Some rows =>
      file (ensured fs) = Some rows
      \/ file (ensured fs) = Some (expected_header :: rows)
  | None =>
      file (ensured fs) = None \/ file (ensured fs) = Some [expected_header]
  end
  /\ ensured (ensured fs) = ensured fs
  /\ (readable fs = true -> writable fs = true ->
      exists first rest,
        file (ensured fs) = Some (first :: rest) /\ header_ok first).
Proof.
  split; [|split].
  - rewrite ensured_cases.
    destruct (file fs) as [[|first rest]|].
    + destruct (readable fs && writable fs); auto.
    + destruct (_ && _); auto.
    + destruct (writable fs); auto.
  - apply ensured_idempotent.
  - intros Hr Hw. rewrite ensured_cases, Hr, Hw. cbn [andb].
    destruct (file fs) as [[|first rest]|].
    + exists expected_header, []. split; reflexivity.
    + destruct (list_string_eqb _ expected_header) eqn:E; cbn [negb].
      * exists first, rest. split; [reflexivity|].
        apply list_string_eqb_eq, E.
      * exists expected_header, (first :: rest). split; reflexivity.
    + exists expected_header, []. split; reflexivity.
Qed.

(** *** Saving *)




(** *** A header that passes the check but names no [amount] column *)

Lemma zip_row_other (k : string) (ks vs : list string) :
  forall d : row_dict, ~ In k ks -> zip_row ks vs d !! k = d !! k.
Proof.
  revert vs. induction ks as [|k' ks IH]; intros vs d Hk; [reflexivity|].
  assert (k' <> k) by (intros ->; apply Hk; left; reflexivity).
  assert (~ In k ks) by (intros Hin; apply Hk; right; exact Hin).
  destruct vs as [|v vs]; cbn [zip_row]; rewrite IH by assumption;
    apply lookup_insert_ne; assumption.
Qed.

Lemma read_dicts_no_amount (fieldnames : list string)
  (rows : list (list string)) :
  ~ In "amount" fieldnames -> read_dicts fieldnames rows = [].
Proof.
  intros Hk. induction rows as [|row rows IH]; [reflexivity|].
  destruct row as [|c row]; [exact IH|].
  cbn [read_dicts]. unfold convert_amount.
  rewrite (zip_row_other "amount" fieldnames (c :: row) ∅ Hk).
  rewrite lookup_empty. reflexivity.
Qed.

(** A first row that passes the header check without holding the very
    text [amount] (a header in capitals, say) makes every record
    invisible: [read_all_records] returns nothing, and [save_record]
    never finds a duplicate. *)
Theorem header_in_capitals_hides_records (fs : filesys)
  (first : list string) (rows : list (list string)) :
  file fs = Some (first :: rows) ->
  readable fs = true ->
  header_ok first ->
  ~ In "amount" first ->
  read_all_records fs = (Ok [], fs)
  /\ forall r : record,
       save_record r true fs
       = if writable fs
         then (Ok true, appended fs (row_of_record r))
         else (Ok false, fs).
Proof.
  intros Hf Hr Hh Hk.
  assert (He : ensured fs = fs).
  { unfold ensured. destruct fs as [f rd wr]. cbn [file readable] in *.
    subst f rd. io_run.
    apply list_string_eqb_eq in Hh. rewrite Hh.
    destruct wr; reflexivity. }
  assert (Hrec : records fs = []).
  { rewrite records_visible, He. unfold visible. rewrite Hf, Hr.
    cbn [parse_file]. apply read_dicts_no_amount, Hk. }
  split.
  - rewrite read_all_records_spec, He. rewrite <- He at 1.
    rewrite <- records_visible, Hrec. reflexivity.
  - intros r. rewrite save_record_spec, Hrec, He. reflexivity.
Qed.

(** A ledger whose header was typed in capitals. *)
Lemma header_in_capitals_hides_records_witness :
  let fs := {| file := Some [["Type"; "Amount"; "Date"; "Details"];
                             ["profit"; "500.0"; "2024-03-15"; "old items"]];
               readable := true; writable := true |} in
  read_all_records fs = (Ok [], fs)
  /\ forall r : record,
       save_record r true fs
       = if writable fs
         then (Ok true, appended fs (row_of_record r))
         else (Ok false, fs).
Proof.
  intros fs.
  apply (header_in_capitals_hides_records fs
           ["Type"; "Amount"; "Date"; "Details"]
           [["profit"; "500.0"; "2024-03-15"; "old items"]]).
  - reflexivity.
  - reflexivity.
  - vm_compute. reflexivity.
  - cbn. intros [H|[H|[H|[H|[]]]]]; discriminate H.
Defined.

(** *** Saving the same record again *)





End StoreProofs.

Section QueryProofs.

Import CSVManager Ledger Store StoreFull.

(** *** The order of strings *)

Lemma ascii_compare_lt_trans (a b c : ascii) :
  Ascii.compare a b = Lt -> Ascii.compare b c = Lt -> Ascii.compare a c = Lt.
Proof.
  unfold Ascii.compare. rewrite !N.compare_lt_iff. lia.
Qed.

Lemma compare_lt_trans (s1 : string) :
  forall s2 s3,
    String.compare s1 s2 = Lt -> String.compare s2 s3 = Lt ->
    String.compare s1 s3 = Lt.
Proof.
  induction s1 as [|a s1 IH]; intros [|b s2] [|c s3]; cbn [String.compare];
    try discriminate; try reflexivity.
  destruct (Ascii.compare a b) eqn:Eab; try discriminate.
  - apply Ascii.compare_eq_iff in Eab. subst b.
    destruct (Ascii.compare a c); try discriminate; [apply IH|reflexivity].
  - intros _.
    destruct (Ascii.compare b c) eqn:Ebc; try discriminate.
    + apply Ascii.compare_eq_iff in Ebc. subst c. rewrite Eab. reflexivity.
    + intros _. rewrite (ascii_compare_lt_trans a b c Eab Ebc). reflexivity.
Qed.

Lemma compare_refl (s : string) : String.compare s s = Eq.
Proof.
  induction s as [|a s IH]; [reflexivity|]. cbn [String.compare].
  unfold Ascii.compare. rewrite N.compare_refl. exact IH.
Qed.

Lemma compare_gt_lt (s1 s2 : string) :
  String.compare s1 s2 = Gt -> String.compare s2 s1 = Lt.
Proof.
  intros H. rewrite String.compare_antisym, H. reflexivity.
Qed.

(** No text lies at or after [s] and at or before an [e] below [s]. *)
Lemma between_inverted (t s e : string) :
  String.ltb e s = true -> String.ltb t s = false -> String.ltb e t = false ->
  False.
Proof.
  unfold String.ltb. intros Hes Hts Het.
  destruct (String.compare e s) eqn:Ees; try discriminate. clear Hes.
  destruct (String.compare t s) eqn:Ets; try discriminate; clear Hts.
  - apply String.compare_eq_iff in Ets. subst t. rewrite Ees in Het.
    discriminate.
  - apply compare_gt_lt in Ets.
    destruct (String.compare e t) eqn:Eet; try discriminate; clear Het.
    + apply String.compare_eq_iff in Eet. subst t.
      rewrite String.compare_antisym, Ees in Ets. discriminate.
    + apply compare_gt_lt in Eet.
      pose proof (compare_lt_trans _ _ _ Ets Eet) as H.
      rewrite String.compare_antisym, Ees in H. discriminate.
Qed.

(** The texts neither below nor above [d] are [d] itself. *)
Lemma between_same (t d : string) :
  String.ltb t d = false /\ String.ltb d t = false <-> t = d.
Proof.
  unfold String.ltb. split.
  - intros [H1 H2].
    destruct (String.compare t d) eqn:E; try discriminate.
    + apply String.compare_eq_iff, E.
    + apply compare_gt_lt in E. rewrite E in H2. discriminate.
  - intros ->. rewrite compare_refl. auto.
Qed.

(** *** The queries read the store and select from it *)

Lemma filter_r_sublist {A : Type} (f : A -> result bool) (l : list A) :
  forall l', filter_r f l = Ok l' -> l' `sublist_of` l.
Proof.
  induction l as [|x l IH]; intros l' H; cbn [filter_r] in H.
  - injection H as <-. constructor.
  - destruct (f x) as [keep|e]; cbn [rbind] in H; [|discriminate H].
    destruct (filter_r f l) as [rest|e]; cbn [rbind] in H; [|discriminate H].
    injection H as <-. specialize (IH rest eq_refl).
    destruct keep; [apply sublist_skip|apply sublist_cons]; exact IH.
Qed.

Lemma query_spec (f : row_dict -> result bool) (fs : filesys) :
  (do! all_records := read_all_records in lift (filter_r f all_records)) fs
  = (filter_r f (records fs), ensured fs).
Proof.
  unfold bind. rewrite read_all_records_spec, <- records_visible. reflexivity.
Qed.

Lemma date_range_spec (start_date end_date : option string) (fs : filesys) :
  get_records_by_date_range start_date end_date fs
  = (if negb (truthy start_date) && negb (truthy end_date)
     then Ok (records fs)
     else filter_r (in_range start_date end_date) (records fs),
     ensured fs).
Proof.
  unfold get_records_by_date_range, bind.
  rewrite read_all_records_spec, <- records_visible.
  destruct (negb (truthy start_date) && negb (truthy end_date)); reflexivity.
Qed.

(** The four queries write no row -- they leave the file as the header
    check leaves it -- and return records of the store, in the order of
    the store. *)
Theorem queries_select_from_the_store (fs fs' : filesys) (l : list row_dict) :
  (forall transaction_type,
      get_records_by_type transaction_type fs = (Ok l, fs') ->
      fs' = ensured fs /\ l `sublist_of` records fs)
  /\ (forall start_date end_date,
         get_records_by_date_range start_date end_date fs = (Ok l, fs') ->
         fs' = ensured fs /\ l `sublist_of` records fs)
  /\ (forall year month,
         get_records_by_month year month fs = (Ok l, fs') ->
         fs' = ensured fs /\ l `sublist_of` records fs)
  /\ (forall date,
         get_records_by_date date fs = (Ok l, fs') ->
         fs' = ensured fs /\ l `sublist_of` records fs).
Proof.
  assert (Hq : forall f,
             (do! all_records := read_all_records in
              lift (filter_r f all_records)) fs = (Ok l, fs') ->
             fs' = ensured fs /\ l `sublist_of` records fs).
  { intros f H. rewrite query_spec in H. injection H as H <-.
    split; [reflexivity|]. eapply filter_r_sublist, H. }
  split; [|split; [|split]].
  - intros ty. apply Hq.
  - intros s e H. rewrite date_range_spec in H. injection H as H <-.
    split; [reflexivity|].
    destruct (_ && _).
    + injection H as <-. reflexivity.
    + eapply filter_r_sublist, H.
  - intros y m. apply Hq.
  - intros d. apply Hq.
Qed.

(** *** Date ranges *)

Lemma filter_r_none {A : Type} (f : A -> result bool) (l : list A) :
  (forall x, f x <> Ok true) ->
  forall l', filter_r f l = Ok l' -> l' = [].
Proof.
  intros Hf. induction l as [|x l IH]; intros l' H; cbn [filter_r] in H.
  - injection H as <-. reflexivity.
  - destruct (f x) as [keep|e] eqn:E; cbn [rbind] in H; [|discriminate H].
    destruct (filter_r f l) as [rest|e]; cbn [rbind] in H; [|discriminate H].
    injection H as <-.
    destruct keep; [exfalso; apply (Hf x), E|]. apply IH. reflexivity.
Qed.

Lemma filter_r_ext {A : Type} (f g : A -> result bool) (l l' : list A) :
  (forall x b, f x = Ok b -> g x = Ok b) ->
  filter_r f l = Ok l' -> filter_r g l = Ok l'.
Proof.
  intros Hfg. revert l'. induction l as [|x l IH]; intros l' H;
    cbn [filter_r] in *; [exact H|].
  destruct (f x) as [keep|e] eqn:E; cbn [rbind] in H; [|discriminate H].
  rewrite (Hfg x keep E). cbn [rbind].
  destruct (filter_r f l) as [rest|e]; cbn [rbind] in H; [|discriminate H].
  rewrite (IH rest eq_refl). exact H.
Qed.

(** Without bounds -- [None] or the empty text -- the range is the whole
    store; with an end below the start it is empty. *)
Theorem date_range_without_and_with_inverted_bounds (fs : filesys) :
  (forall start_date end_date,
      truthy start_date = false -> truthy end_date = false ->
      get_records_by_date_range start_date end_date fs = read_all_records fs)
  /\ (forall s e l fs',
         e <> "" -> String.ltb e s = true ->
         get_records_by_date_range (Some s) (Some e) fs = (Ok l, fs') ->
         l = []).
Proof.
  split.
  - intros s e Hs He. rewrite date_range_spec, Hs, He. cbn [negb andb].
    rewrite read_all_records_spec, <- records_visible. reflexivity.
  - intros s e l fs' Hne Hlt H. rewrite date_range_spec in H.
    assert (Hs : s <> "").
    { intros ->. destruct e; discriminate Hlt. }
    destruct s as [|a s]; [contradiction|].
    destruct e as [|b e]; [contradiction|].
    cbn [truthy negb andb] in H. injection H as H _.
    revert H. apply filter_r_none. intros x Hx.
    unfold in_range in Hx.
    destruct (item "date" x) as [c|]; cbn [rbind] in Hx; [|discriminate Hx].
    destruct c as [t| |]; cbn [cell_lt cell_gt rbind] in Hx;
      try discriminate Hx.
    destruct (String.ltb t (String a s)) eqn:E1; [discriminate Hx|].
    cbn [rbind] in Hx.
    destruct (String.ltb (String b e) t) eqn:E2; [discriminate Hx|].
    exact (between_inverted t _ _ Hlt E1 E2).
Qed.

(** The range from a day to the same day is what [get_records_by_date]
    returns for that day. *)
Theorem date_range_of_one_day (fs fs' : filesys) (date : string)
  (l : list row_dict) :
  date <> "" ->
  get_records_by_date_range (Some date) (Some date) fs = (Ok l, fs') ->
  get_records_by_date date fs = (Ok l, fs').
Proof.
  intros Hne H. rewrite date_range_spec in H.
  destruct date as [|a d]; [contradiction|].
  cbn [truthy negb andb] in H. injection H as H <-.
  unfold get_records_by_date. rewrite query_spec. f_equal.
  revert H. apply filter_r_ext. intros x b Hx.
  unfold in_range in Hx. unfold on_date.
  destruct (item "date" x) as [c|]; cbn [rbind] in *; [|discriminate Hx].
  destruct c as [t| |]; cbn [cell_lt cell_gt rbind] in Hx; try discriminate Hx.
  destruct (String.ltb t (String a d)) eqn:E1; cbn [rbind] in Hx.
  - injection Hx as <-.
    rewrite (proj2 (String.eqb_neq t (String a d))); [reflexivity|].
    intros ->. unfold String.ltb in E1. rewrite compare_refl in E1.
    discriminate E1.
  - destruct (String.ltb (String a d) t) eqn:E2; injection Hx as <-;
      cbn [negb].
    + rewrite (proj2 (String.eqb_neq t (String a d))); [reflexivity|].
      intros ->. unfold String.ltb in E2. rewrite compare_refl in E2.
      discriminate E2.
    + rewrite (proj2 (String.eqb_eq t (String a d))); [reflexivity|].
      apply between_same. auto.
Qed.

(** The records of one day of a small ledger. *)
Lemma date_range_of_one_day_witness :
  let fs := {| file := Some [expected_header;
                             ["profit"; "500.0"; "2024-03-15"; "old items"];
                             ["loss"; "20.0"; "2024-03-16"; "lunch"]];
               readable := true; writable := true |} in
  exists l fs',
    get_records_by_date_range (Some "2024-03-15") (Some "2024-03-15") fs
    = (Ok l, fs')
    /\ get_records_by_date "2024-03-15" fs = (Ok l, fs').
Proof.
  intros fs. eexists _, _. split; [vm_compute; reflexivity|].
  apply (date_range_of_one_day fs).
  - discriminate.
  - vm_compute. reflexivity.
Defined.

End QueryProofs.

Section CalendarProofs.

Import CSVManager Calendar.








End CalendarProofs.

Section FoundProofs.

Import CSVManager Ledger Store StoreFull Calendar Found.





Lemma strptime_text_errors (s : string) (e : exn) :
  strptime (CStr s) = Raise e -> e = ValueError.
Proof.
  unfold strptime.
  destruct (Re.match_at true strptime_pattern _) as [found|];
    [|intros H; injection H as <-; reflexivity].
  destruct (_ =? _)%nat; [|intros H; injection H as <-; reflexivity].
  cbv zeta. unfold Date.datetime. destruct (Date.valid _ _ _);
    intros H; [discriminate H|injection H as <-; reflexivity].
Qed.



End FoundProofs.

Section AssistantProofs.

Import CSVManager Ledger Store Trap VoiceToDataAssistant.

Lemma process_transcription_spec (now : Date.date) (text : string)
  (fs : filesys) :
  process_transcription now text fs
  = match DataExtractor.extract now text with
    | Ok r =>
        match save_record r true fs with
        | (Ok success, fs') =>
            (Ok {| o_json := r;
                   o_message :=
                     if success then "Record saved successfully"
                     else "Data extracted but failed to save to CSV";
                   o_transcribed_text := text |}, fs')
        | (Raise e, fs') => (Raise e, fs')
        end
    | Raise e => (Raise e, fs)
    end.
Proof.
  unfold process_transcription, bind at 1, lift.
  destruct (DataExtractor.extract now text) as [r|e]; [|reflexivity].
  unfold bind. destruct (save_record r true fs) as [[[|]|e] fs']; reflexivity.
Qed.

(** In the month-end trap the utterance is lost: [process_transcription]
    raises [ValueError] and the file is not touched.  Anywhere else it
    returns the extracted record with a message that tells whether
    [save_record] saved it. *)
Theorem process_transcription_outcome (now : Date.date) (text : string)
  (fs : filesys) :
  Date.wf now ->
  let text_lower := Str.lower (Str.strip (Str.lower text)) in
  (month_end_trap now text_lower ->
   process_transcription now text fs = (Raise ValueError, fs))
  /\ (~ month_end_trap now text_lower ->
      exists r success fs',
        DataExtractor.extract now text = Ok r
        /\ save_record r true fs = (Ok success, fs')
        /\ process_transcription now text fs
           = (Ok {| o_json := r;
                    o_message :=
                      if success then "Record saved successfully"
                      else "Data extracted but failed to save to CSV";
                    o_transcribed_text := text |}, fs')).
Proof.
  intros Hwf tl. rewrite process_transcription_spec.
  unfold DataExtractor.extract. cbv zeta.
  destruct (extract_amount_forms text) as (x & -> & _).
  cbn [rbind].
  destruct (extract_date_cases now (Str.strip (Str.lower text)) Hwf) as [H1 H2].
  fold tl in H1, H2. split.
  - intros Ht. rewrite (H1 Ht). reflexivity.
  - intros Ht. destruct (H2 Ht) as (s & t & -> & _). cbn [rbind].
    match goal with
    | |- context [save_record ?r0 true fs] => set (r := r0)
    end.
    destruct (save_record r true fs) as [[success|e] fs'] eqn:Es.
    + exists r, success, fs'. split; [reflexivity|]. split; [exact Es|reflexivity].
    + exfalso. rewrite save_record_spec in Es.
      destruct (existsb _ (records fs)); [discriminate Es|].
      destruct (writable fs); discriminate Es.
Qed.

(** On the first of March, a loss of yesterday is lost. *)
Lemma process_transcription_outcome_witness :
  let fs := {| file := None; readable := true; writable := true |} in
  process_transcription
    {| Date.year := 2024; Date.month := 3; Date.day := 1 |}
    "I lost 20 dollars yesterday" fs
  = (Raise ValueError, fs).
Proof.
  intros fs.
  destruct (process_transcription_outcome
              {| Date.year := 2024; Date.month := 3; Date.day := 1 |}
              "I lost 20 dollars yesterday" fs eq_refl) as [H _].
  apply H. split; [vm_compute; reflexivity|].
  left. split; vm_compute; reflexivity.
Defined.



End AssistantProofs.

Section ReportProofs.

Import CSVManager QueryAnalyzer Reports.
Import Ledger Store StoreFull Questions Found Answers.
Import VoiceToDataAssistant.

Variable generate_summary :
  list row_dict -> string -> string -> result string.
Variable float_sum : list Py.float -> Py.float.

Lemma bind_run {A B : Type} (m : io A) (k : A -> io B) (fs : filesys) :
  bind m k fs
  = match m fs with
    | (Ok a, fs') => k a fs'
    | (Raise e, fs') => (Raise e, fs')
    end.
Proof. reflexivity. Qed.

Lemma read_records (fs : filesys) :
  read_all_records fs = (Ok (records fs), ensured fs).
Proof. rewrite read_all_records_spec, <- records_visible. reflexivity. Qed.

Lemma by_month_run (y m : Z) (fs : filesys) :
  get_records_by_month y m fs
  = (filter_r (in_month y m) (records fs), ensured fs).
Proof. apply query_spec. Qed.

Lemma by_type_run (t : string) (fs : filesys) :
  get_records_by_type t fs = (filter_r (has_type t) (records fs), ensured fs).
Proof. apply query_spec. Qed.

Lemma by_date_run (d : string) (fs : filesys) :
  get_records_by_date d fs = (filter_r (on_date d) (records fs), ensured fs).
Proof. apply query_spec. Qed.

(** The reports as functions of the records of the store. *)
Lemma monthly_report_run (use_llm : bool) (month year : option Z)
  (fs : filesys) :
  _generate_monthly_report use_llm generate_summary float_sum month year fs
  = (match month, year with
     | Some m, Some y =>
         if truthy_int month && truthy_int year then
           let! records := filter_r (in_month y m) (records fs) in
           let! month_name := month_name_of m in
           monthly_answer use_llm generate_summary float_sum records
             (Some month_name)
             ("Monthly Report for " ++ month_name ++ " " ++ Py.str_int y)%string
             year
         else
           monthly_answer use_llm generate_summary float_sum (records fs)
             None "Overall Monthly Report" year
     | _, _ =>
         monthly_answer use_llm generate_summary float_sum (records fs)
           None "Overall Monthly Report" year
     end, ensured fs).
Proof.
  unfold _generate_monthly_report.
  destruct month as [m|], year as [y|];
    try destruct (truthy_int (Some m) && truthy_int (Some y));
    rewrite !bind_run, ?by_month_run, ?read_records; try reflexivity.
  destruct (filter_r (in_month y m) (records fs)) as [l|e]; [|reflexivity].
  unfold lift at 1. cbn [rbind].
  destruct (month_name_of m); reflexivity.
Qed.

Lemma date_report_run (date : string) (transaction_type : option string)
  (fs : filesys) :
  _generate_date_report float_sum date transaction_type fs
  = (let! records := filter_r (on_date date) (records fs) in
     let! records :=
       match transaction_type with
       | Some (String _ _ as t) => filter_r (has_type t) records
       | _ => Ok records
       end in
     date_answer float_sum records date transaction_type, ensured fs).
Proof.
  unfold _generate_date_report. rewrite !bind_run, by_date_run.
  destruct (filter_r (on_date date) (records fs)) as [l|e]; [|reflexivity].
  unfold lift at 1. cbn [rbind].
  destruct (match transaction_type with
            | Some (String _ _ as t) => filter_r (has_type t) l
            | _ => Ok l
            end); reflexivity.
Qed.

Lemma type_report_run (transaction_type : string) (month year : option Z)
  (fs : filesys) :
  _generate_type_report float_sum transaction_type month year fs
  = (match month, year with
     | Some m, Some y =>
         if truthy_int month && truthy_int year then
           let! records := filter_r (in_month y m) (records fs) in
           let! records := filter_r (has_type transaction_type) records in
           let! month_name := month_name_of m in
           type_answer float_sum records transaction_type (Some month_name)
             ("All " ++ Str.capitalize transaction_type ++ " Details for "
                ++ month_name ++ " " ++ Py.str_int y)%string
             year
         else
           let! records :=
             filter_r (has_type transaction_type) (records fs) in
           type_answer float_sum records transaction_type None
             ("All " ++ Str.capitalize transaction_type ++ " Details")%string
             year
     | _, _ =>
         let! records := filter_r (has_type transaction_type) (records fs) in
         type_answer float_sum records transaction_type None
           ("All " ++ Str.capitalize transaction_type ++ " Details")%string
           year
     end, ensured fs).
Proof.
  unfold _generate_type_report.
  destruct month as [m|], year as [y|];
    try destruct (truthy_int (Some m) && truthy_int (Some y));
    rewrite !bind_run, ?by_month_run, ?by_type_run;
    try (destruct (filter_r (has_type transaction_type) (records fs));
         reflexivity).
  destruct (filter_r (in_month y m) (records fs)) as [l|e]; [|reflexivity].
  unfold lift at 1. cbn [rbind].
  destruct (filter_r (has_type transaction_type) l) as [l'|e]; [|reflexivity].
  unfold lift at 1. cbn [rbind].
  destruct (month_name_of m); reflexivity.
Qed.

Lemma summary_run (transaction_type : option string) (fs : filesys) :
  _generate_summary float_sum transaction_type fs
  = (let! records :=
       match transaction_type with
       | Some (String _ _ as t) => filter_r (has_type t) (records fs)
       | _ => Ok (records fs)
       end in
     summary_answer float_sum records transaction_type, ensured fs).
Proof.
  unfold _generate_summary. rewrite bind_run.
  destruct transaction_type as [[|c t]|]; rewrite ?by_type_run, ?read_records;
    try reflexivity.
  destruct (filter_r (has_type (String c t)) (records fs)); reflexivity.
Qed.

Lemma analyze_run (use_llm : bool) (now : Date.date) (question : string)
  (fs : filesys) :
  analyze use_llm generate_summary float_sum now question fs
  = match classify now question with
    | Ok (monthly_report, ps) =>
        _generate_monthly_report use_llm generate_summary float_sum
          (get_int "month" ps) (get_int "year" ps) fs
    | Ok (date_query, ps) =>
        match get_text "date" ps with
        | Some date =>
            _generate_date_report float_sum date (get_text "type" ps) fs
        | None => (Raise TypeError, fs)
        end
    | Ok (type_query, ps) =>
        match get_text "type" ps with
        | Some transaction_type =>
            _generate_type_report float_sum transaction_type
              (get_int "month" ps) (get_int "year" ps) fs
        | None => (Raise TypeError, fs)
        end
    | Ok (summary, ps) => _generate_summary float_sum (get_text "type" ps) fs
    | Ok (unknown, _) => (Ok {| a_text := help_text; a_json := None |}, fs)
    | Raise e => (Raise e, fs)
    end.
Proof.
  unfold analyze. rewrite bind_run. unfold lift at 1.
  destruct (classify now question) as [[qt ps]|e]; [|reflexivity].
  destruct qt; try reflexivity.
  - destruct (get_text "date" ps); reflexivity.
  - destruct (get_text "type" ps); reflexivity.
Qed.

(** Answering a question writes no row: the file is left as it is or as
    the header check leaves it, whatever the answer and also when the
    answer fails, and the store holds the same records afterwards. *)
Theorem answering_keeps_the_records (use_llm : bool) (now : Date.date)
  (question : string) (fs : filesys) :
  let fs' :=
    snd (analyze use_llm generate_summary float_sum now question fs) in
  (fs' = fs \/ fs' = ensured fs) /\ records fs' = records fs.
Proof.
  cbv zeta.
  assert (H : snd (analyze use_llm generate_summary float_sum now question fs)
              = fs
              \/ snd (analyze use_llm generate_summary float_sum now
                        question fs) = ensured fs).
  { rewrite analyze_run.
    destruct (classify now question) as [[qt ps]|e]; [|left; reflexivity].
    destruct qt.
    - right. rewrite monthly_report_run. reflexivity.
    - destruct (get_text "date" ps); [right|left; reflexivity].
      rewrite date_report_run. reflexivity.
    - destruct (get_text "type" ps); [right|left; reflexivity].
      rewrite type_report_run. reflexivity.
    - right. rewrite summary_run. reflexivity.
    - left. reflexivity. }
  split; [exact H|].
  destruct H as [->| ->]; [reflexivity|apply records_ensured].
Qed.

(** *** What the reports are called with *)

Lemma parse_query_shape (now : Date.date) (query : string)
  (qt : query_type) (ps : params) :
  _parse_query now query = Ok (qt, ps) -> params_shape qt ps.
Proof.
  destruct (Re.search true relative_date_pattern query) as [m|] eqn:Er.
  - rewrite (parse_query_relative now query m Er). unfold rule_relative.
    destruct (if (_ =? "today")%string then _ else _) as [d|e]; cbn [rbind];
      [|intros H; discriminate H].
    intros H. injection H as <- <-. cbn [params_shape snd].
    exists d. apply set_type_date, lookup_insert_eq.
  - unfold _parse_query. cbv zeta. rewrite Er.
    cbn [rule_relative rbind].
    intros H. injection H as H.
    pose proof (rule_month_shape now query) as H2. cbv zeta in H2.
    apply (rule_date_shape query (Re.search true date_pattern query) None) in H2.
    apply (rule_amount_shape now query) in H2.
    apply (rule_report_shape query (Re.search true month_pattern query)
             (Re.search true date_pattern query) None) in H2.
    rewrite H in H2. exact H2.
Qed.

Lemma set_type_year (t : option string) (ps : params) :
  set_type t ps !! "year" = ps !! "year".
Proof.
  destruct t as [w|]; cbn [set_type]; [|reflexivity].
  apply lookup_insert_ne. discriminate.
Qed.

(** The year of the parameters is the year of the question. *)
Lemma parse_query_year (now : Date.date) (query : string)
  (qt : query_type) (ps : params) (y : Z) :
  _parse_query now query = Ok (qt, ps) ->
  ps !! "year" = Some (VInt y) -> y = mentioned_year now query.
Proof.
  unfold _parse_query. cbv zeta.
  set (rm := Re.search true relative_date_pattern query).
  set (mm := Re.search true month_pattern query).
  set (dm := Re.search true date_pattern query).
  destruct (rule_relative now query rm (unknown, ∅)) as [st1|e] eqn:E1;
    cbn [rbind]; [|intros H; discriminate H].
  assert (I1 : snd st1 !! "year" = None).
  { unfold rule_relative in E1. destruct rm as [m|].
    - destruct (if (_ =? "today")%string then _ else _) as [d|e];
        cbn [rbind] in E1; [|discriminate E1].
      injection E1 as <-. cbn [snd]. rewrite set_type_year.
      rewrite lookup_insert_ne by discriminate. reflexivity.
    - injection E1 as <-. reflexivity. }
  assert (I2 : forall z,
             snd (rule_month now query mm rm st1) !! "year" = Some (VInt z) ->
             z = mentioned_year now query).
  { intros z. unfold rule_month. destruct mm as [m|], rm as [r|];
      try (rewrite I1; intros H; discriminate H).
    destruct (type_keyword query); cbn [snd].
    - rewrite lookup_insert_ne by discriminate. rewrite lookup_insert_eq.
      intros H. injection H as <-. reflexivity.
    - rewrite lookup_insert_eq. intros H. injection H as <-. reflexivity. }
  generalize dependent (rule_month now query mm rm st1). intros st2 I2.
  assert (I3 : forall z,
             snd (rule_date query dm rm st2) !! "year" = Some (VInt z) ->
             z = mentioned_year now query).
  { intros z. unfold rule_date. destruct dm as [m|]; [|apply I2].
    destruct rm; [apply I2|].
    destruct (_extract_date_from_match _); [|apply I2].
    cbn [snd]. rewrite set_type_year.
    rewrite lookup_insert_ne by discriminate. apply I2. }
  generalize dependent (rule_date query dm rm st2). intros st3 I3.
  assert (I4 : forall z,
             snd (rule_amount now query st3) !! "year" = Some (VInt z) ->
             z = mentioned_year now query).
  { intros z. unfold rule_amount.
    destruct (Re.matches false amount_pattern query && negb _); [apply I3|].
    destruct (Re.matches false amount_pattern query && _); [|apply I3].
    destruct (Re.matches true today_pattern query); cbn [snd];
      rewrite lookup_insert_ne by discriminate; apply I3. }
  generalize dependent (rule_amount now query st3). intros st4 I4.
  intros H. injection H as H. intros Hy.
  assert (Hps : ps = snd (rule_report query mm dm rm st4))
    by (rewrite H; reflexivity).
  rewrite Hps in Hy. revert Hy. clear H Hps. unfold rule_report.
  destruct (Re.matches false report_pattern query && _); [|apply I4].
  destruct (Re.matches false profit_pattern query).
  { cbn [snd]. rewrite lookup_insert_ne by discriminate. apply I4. }
  destruct (Re.matches false loss_pattern query).
  { cbn [snd]. rewrite lookup_insert_ne by discriminate. apply I4. }
  destruct (_ && _); [|apply I4].
  cbn [snd]. rewrite lookup_insert_ne by discriminate. apply I4.
Qed.


Lemma month_name_of_dict (name : string) (m : Z) :
  dict_get name month_names = Some m ->
  month_name_of m = Ok (Str.capitalize name)
  /\ truthy (Some (Str.capitalize name)) = true.
Proof.
  unfold month_names. cbn [dict_get].
  repeat match goal with
         | |- context [String.eqb ?k name] =>
             destruct (String.eqb_spec k name) as [<-|_];
             [intros H; injection H as <-; split; reflexivity|]
         end.
  intros H; discriminate H.
Qed.

(** The month of the parameters is the month the question names. *)
Lemma parse_query_month (now : Date.date) (query : string)
  (qt : query_type) (ps : params) (z : Z) :
  _parse_query now query = Ok (qt, ps) ->
  ps !! "month" = Some (VInt z) ->
  exists mm,
    Re.search true month_pattern query = Some mm /\ z = mentioned_month mm.
Proof.
  unfold _parse_query. cbv zeta.
  set (rm := Re.search true relative_date_pattern query).
  destruct (Re.search true month_pattern query) as [mm|] eqn:Em.
  2:{ destruct (rule_relative now query rm (unknown, ∅)) as [st1|e] eqn:E1;
        cbn [rbind]; [|intros H; discriminate H].
      intros H. injection H as H. intros Hy. exfalso.
      assert (I1 : snd st1 !! "month" = None).
      { unfold rule_relative in E1. destruct rm as [m|].
        - destruct (if (_ =? "today")%string then _ else _) as [d|e];
            cbn [rbind] in E1; [|discriminate E1].
          injection E1 as <-. cbn [snd].
          destruct (type_keyword query); cbn [set_type];
            rewrite !lookup_insert_ne by discriminate; reflexivity.
        - injection E1 as <-. reflexivity. }
      cbn [rule_month] in H.
      assert (Hps : ps = snd (rule_report query None
                                (Re.search true date_pattern query) rm
                                (rule_amount now query
                                   (rule_date query
                                      (Re.search true date_pattern query)
                                      rm st1))))
        by (rewrite H; reflexivity).
      rewrite Hps in Hy. clear H Hps. revert Hy.
      assert (I3 : snd (rule_date query (Re.search true date_pattern query)
                          rm st1) !! "month" = None).
      { unfold rule_date.
        destruct (Re.search true date_pattern query); [|exact I1].
        destruct rm; [exact I1|].
        destruct (_extract_date_from_match _); [|exact I1].
        cbn [snd]. destruct (type_keyword query); cbn [set_type];
          rewrite !lookup_insert_ne by discriminate; exact I1. }
      generalize dependent (rule_date query
                              (Re.search true date_pattern query) rm st1).
      intros st3 I3.
      assert (I4 : snd (rule_amount now query st3) !! "month" = None).
      { unfold rule_amount.
        destruct (Re.matches false amount_pattern query && negb _);
          [exact I3|].
        destruct (Re.matches false amount_pattern query && _); [|exact I3].
        destruct (Re.matches true today_pattern query); cbn [snd];
          rewrite lookup_insert_ne by discriminate; exact I3. }
      generalize dependent (rule_amount now query st3). intros st4 I4.
      unfold rule_report.
      destruct (Re.matches false report_pattern query && _);
        [|rewrite I4; intros H; discriminate H].
      destruct (Re.matches false profit_pattern query).
      { cbn [snd]. rewrite lookup_insert_ne by discriminate.
        rewrite I4; intros H; discriminate H. }
      destruct (Re.matches false loss_pattern query).
      { cbn [snd]. rewrite lookup_insert_ne by discriminate.
        rewrite I4; intros H; discriminate H. }
      destruct (_ && _); [|rewrite I4; intros H; discriminate H].
      cbn [snd]. rewrite lookup_insert_ne by discriminate.
      rewrite I4; intros H; discriminate H. }
  set (dm := Re.search true date_pattern query).
  destruct (rule_relative now query rm (unknown, ∅)) as [st1|e] eqn:E1;
    cbn [rbind]; [|intros H; discriminate H].
  assert (I1 : snd st1 !! "month" = None).
  { unfold rule_relative in E1. destruct rm as [m|].
    - destruct (if (_ =? "today")%string then _ else _) as [d|e];
        cbn [rbind] in E1; [|discriminate E1].
      injection E1 as <-. cbn [snd].
      destruct (type_keyword query); cbn [set_type];
        rewrite !lookup_insert_ne by discriminate; reflexivity.
    - injection E1 as <-. reflexivity. }
  assert (I2 : forall v,
             snd (rule_month now query (Some mm) rm st1) !! "month"
             = Some (VInt v) -> v = mentioned_month mm).
  { intros v. unfold rule_month. destruct rm as [r|];
      try (rewrite I1; intros K; discriminate K).
    destruct (type_keyword query); cbn [snd];
      rewrite !lookup_insert_ne by discriminate; rewrite lookup_insert_eq;
      intros K; injection K as <-; reflexivity. }
  generalize dependent (rule_month now query (Some mm) rm st1).
  intros st2 I2.
  assert (I3 : forall v,
             snd (rule_date query dm rm st2) !! "month" = Some (VInt v) ->
             v = mentioned_month mm).
  { intros v. unfold rule_date. destruct dm; [|apply I2].
    destruct rm; [apply I2|].
    destruct (_extract_date_from_match _); [|apply I2].
    cbn [snd]. destruct (type_keyword query); cbn [set_type];
      rewrite !lookup_insert_ne by discriminate; apply I2. }
  generalize dependent (rule_date query dm rm st2).
  intros st3 I3.
  assert (I4 : forall v,
             snd (rule_amount now query st3) !! "month" = Some (VInt v) ->
             v = mentioned_month mm).
  { intros v. unfold rule_amount.
    destruct (Re.matches false amount_pattern query && negb _); [apply I3|].
    destruct (Re.matches false amount_pattern query && _); [|apply I3].
    destruct (Re.matches true today_pattern query); cbn [snd];
      rewrite lookup_insert_ne by discriminate; apply I3. }
  generalize dependent (rule_amount now query st3). intros st4 I4.
  intros H. injection H as H. intros Hz.
  exists mm. split; [reflexivity|].
  assert (Hps : ps = snd (rule_report query (Some mm) dm rm st4))
    by (rewrite H; reflexivity).
  rewrite Hps in Hz. revert Hz. clear H Hps. unfold rule_report.
  destruct (Re.matches false report_pattern query && _); [|apply I4].
  destruct (Re.matches false profit_pattern query).
  { cbn [snd]. rewrite lookup_insert_ne by discriminate. apply I4. }
  destruct (Re.matches false loss_pattern query).
  { cbn [snd]. rewrite lookup_insert_ne by discriminate. apply I4. }
  destruct (_ && _); [|apply I4].
  cbn [snd]. rewrite lookup_insert_ne by discriminate. apply I4.
Qed.

(** *** The period of a report *)

Ltac rbind_cases H :=
  repeat match type of H with
         | context [rbind ?x _] =>
             destruct x; cbn [rbind] in H; [|discriminate H]
         end.

Lemma monthly_answer_period (use_llm : bool) (l : list row_dict)
  (month_name : option string) (title : string) (year : option Z)
  (a : answer) (j : report) :
  monthly_answer use_llm generate_summary float_sum l month_name title year
  = Ok a ->
  a_json a = Some j -> period_of j = Some (period_str month_name year).
Proof.
  unfold monthly_answer. destruct l as [|r l].
  - intros H. injection H as <-. intros K. discriminate K.
  - intros H. rbind_cases H. injection H as <-. cbn [a_json].
    intros K. injection K as <-. reflexivity.
Qed.

Lemma type_answer_period (l : list row_dict) (transaction_type : string)
  (month_name : option string) (title : string) (year : option Z)
  (a : answer) (j : report) :
  type_answer float_sum l transaction_type month_name title year = Ok a ->
  a_json a = Some j -> period_of j = Some (period_str month_name year).
Proof.
  unfold type_answer. destruct l as [|r l].
  - intros H. injection H as <-. intros K. discriminate K.
  - intros H. rbind_cases H. injection H as <-. cbn [a_json].
    intros K. injection K as <-. reflexivity.
Qed.

Lemma date_answer_period (l : list row_dict) (date : string)
  (transaction_type : option string) (a : answer) (j : report) :
  date_answer float_sum l date transaction_type = Ok a ->
  a_json a = Some j -> period_of j = None.
Proof.
  unfold date_answer. destruct l as [|r l].
  - intros H. injection H as <-. intros K. discriminate K.
  - intros H. rbind_cases H. injection H as <-. cbn [a_json].
    intros K. injection K as <-. reflexivity.
Qed.

Lemma summary_answer_period (l : list row_dict)
  (transaction_type : option string) (a : answer) (j : report) :
  summary_answer float_sum l transaction_type = Ok a ->
  a_json a = Some j -> period_of j = None.
Proof.
  unfold summary_answer. destruct l as [|r l].
  - intros H. injection H as <-. intros K. discriminate K.
  - intros H. rbind_cases H. injection H as <-. cbn [a_json].
    intros K. injection K as <-. reflexivity.
Qed.

Lemma question_year_nonzero (now : Date.date) (query : string) :
  Date.wf now -> truthy_int (Some (mentioned_year now query)) = true.
Proof.
  intros Hwf. unfold truthy_int.
  assert (H : (1 <= Date.year now)%Z).
  { unfold Date.wf, Date.valid in Hwf.
    repeat (apply andb_true_iff in Hwf as [Hwf _]).
    apply Z.leb_le in Hwf. exact Hwf. }
  destruct (mentioned_year_range now query) as [E|E];
    destruct (Z.eqb_spec (mentioned_year now query) 0); try reflexivity; lia.
Qed.

(** The month and the year of a question about a month. *)
Lemma month_question (now : Date.date) (query : string) (qt : query_type)
  (ps : params) (m y : Z) :
  Date.wf now ->
  _parse_query now query = Ok (qt, ps) ->
  ps !! "month" = Some (VInt m) -> ps !! "year" = Some (VInt y) ->
  exists mm name,
    Re.search true month_pattern query = Some mm
    /\ option_map Str.lower (Re.group 1 mm) = Some name
    /\ y = mentioned_year now query
    /\ truthy_int (Some m) && truthy_int (Some y) = true
    /\ month_name_of m = Ok (Str.capitalize name)
    /\ period_str (Some (Str.capitalize name)) (Some y)
       = (Str.capitalize name ++ " " ++ Py.str_int y)%string.
Proof.
  intros Hwf Hc Hm Hy.
  destruct (parse_query_month now query qt ps m Hc Hm) as (mm & Hmm & ->).
  pose proof (parse_query_year now query qt ps y Hc Hy) as ->.
  destruct (mentioned_month_range query mm Hmm) as (name & Hname & Hd & Hr).
  destruct (month_name_of_dict name _ Hd) as [Hmn Ht].
  pose proof (question_year_nonzero now query Hwf) as Hny.
  exists mm, name. split; [exact Hmm|]. split; [exact Hname|].
  split; [reflexivity|]. split; [|split; [exact Hmn|]].
  - rewrite Hny, andb_true_r. unfold truthy_int.
    destruct (Z.eqb_spec (mentioned_month mm) 0); [lia|reflexivity].
  - unfold period_str. rewrite Ht, Hny. reflexivity.
Qed.

(** A report on a month is always about one month of one year: when
    [analyze] returns a monthly report or a type report, its period is
    the month the question names and the year it mentions, or else the
    current year; the overall reports, whose period is [All time], are
    never made. *)
Theorem reports_are_about_one_month (use_llm : bool) (now : Date.date)
  (question : string) (fs : filesys) (a : answer) (j : report)
  (period : string) :
  Date.wf now ->
  fst (analyze use_llm generate_summary float_sum now question fs) = Ok a ->
  a_json a = Some j ->
  period_of j = Some period ->
  exists mm name,
    Re.search true month_pattern (Str.lower question) = Some mm
    /\ option_map Str.lower (Re.group 1 mm) = Some name
    /\ period
       = (Str.capitalize name ++ " "
            ++ Py.str_int (mentioned_year now (Str.lower question)))%string.
Proof.
  intros Hwf Ha Hj Hp. rewrite analyze_run in Ha.
  destruct (classify now question) as [[qt ps]|e] eqn:Hc;
    [|discriminate Ha].
  pose proof (parse_query_shape now (Str.lower question) qt ps Hc) as Hs.
  destruct qt; cbn [params_shape] in Hs.
  - destruct Hs as (m & y & Hps & _).
    assert (Hm : ps !! "month" = Some (VInt m)).
    { rewrite Hps. rewrite lookup_insert_ne by discriminate.
      apply lookup_insert_eq. }
    assert (Hy : ps !! "year" = Some (VInt y)).
    { rewrite Hps. apply lookup_insert_eq. }
    destruct (month_question now _ _ _ m y Hwf Hc Hm Hy)
      as (mm & name & Hmm & Hname & -> & Ht & Hmn & Hper).
    exists mm, name. split; [exact Hmm|]. split; [exact Hname|].
    rewrite monthly_report_run in Ha. unfold get_int in Ha.
    rewrite Hm, Hy, Ht in Ha. cbn [fst] in Ha.
    destruct (filter_r _ (records fs)) as [l|e]; cbn [rbind] in Ha;
      [|discriminate Ha].
    rewrite Hmn in Ha. cbn [rbind] in Ha.
    rewrite (monthly_answer_period _ _ _ _ _ _ _ Ha Hj), Hper in Hp.
    injection Hp as <-. reflexivity.
  - exfalso. destruct (get_text "date" ps); [|discriminate Ha].
    rewrite date_report_run in Ha. cbn [fst] in Ha.
    rbind_cases Ha.
    rewrite (date_answer_period _ _ _ _ _ Ha Hj) in Hp. discriminate Hp.
  - destruct Hs as (m & y & w & Hps & _ & _).
    assert (Hm : ps !! "month" = Some (VInt m)).
    { rewrite Hps. rewrite !lookup_insert_ne by discriminate.
      apply lookup_insert_eq. }
    assert (Hy : ps !! "year" = Some (VInt y)).
    { rewrite Hps. rewrite lookup_insert_ne by discriminate.
      apply lookup_insert_eq. }
    destruct (month_question now _ _ _ m y Hwf Hc Hm Hy)
      as (mm & name & Hmm & Hname & -> & Ht & Hmn & Hper).
    exists mm, name. split; [exact Hmm|]. split; [exact Hname|].
    destruct (get_text "type" ps) as [t|]; [|discriminate Ha].
    rewrite type_report_run in Ha. unfold get_int in Ha.
    rewrite Hm, Hy, Ht in Ha. cbn [fst] in Ha.
    destruct (filter_r _ (records fs)) as [l|e]; cbn [rbind] in Ha;
      [|discriminate Ha].
    destruct (filter_r _ l) as [l'|e]; cbn [rbind] in Ha;
      [|discriminate Ha].
    rewrite Hmn in Ha. cbn [rbind] in Ha.
    rewrite (type_answer_period _ _ _ _ _ _ _ Ha Hj), Hper in Hp.
    injection Hp as <-. reflexivity.
  - exfalso. rewrite summary_run in Ha. cbn [fst] in Ha.
    rbind_cases Ha.
    rewrite (summary_answer_period _ _ _ _ Ha Hj) in Hp. discriminate Hp.
  - injection Ha as <-. discriminate Hj.
Qed.

(** *** A store without records *)


(** *** The reports on records that have their four fields *)





















(** *** Reports with a type filter *)

Lemma set_type_type (o : option string) (ps : params) (t : string) :
  set_type o ps !! "type" = Some (VStr t) ->
  o = Some t \/ ps !! "type" = Some (VStr t).
Proof.
  destruct o as [w|]; cbn [set_type]; [|auto].
  rewrite lookup_insert_eq. intros H. injection H as <-. auto.
Qed.

(** The type of the parameters is [profit] or [loss]. *)
Lemma parse_query_type (now : Date.date) (query : string)
  (qt : query_type) (ps : params) (t : string) :
  _parse_query now query = Ok (qt, ps) ->
  ps !! "type" = Some (VStr t) -> t = "profit" \/ t = "loss".
Proof.
  unfold _parse_query. cbv zeta.
  set (rm := Re.search true relative_date_pattern query).
  set (mm := Re.search true month_pattern query).
  set (dm := Re.search true date_pattern query).
  destruct (rule_relative now query rm (unknown, ∅)) as [st1|e] eqn:E1;
    cbn [rbind]; [|intros H; discriminate H].
  assert (I1 : forall w,
             snd st1 !! "type" = Some (VStr w) -> w = "profit" \/ w = "loss").
  { intros w. unfold rule_relative in E1. destruct rm as [m|].
    - destruct (if (_ =? "today")%string then _ else _) as [d|e];
        cbn [rbind] in E1; [|discriminate E1].
      injection E1 as <-. cbn [snd]. intros H.
      apply set_type_type in H as [H|H].
      + eapply type_keyword_values, H.
      + rewrite lookup_insert_ne in H by discriminate. discriminate H.
    - injection E1 as <-. intros H. discriminate H. }
  assert (I2 : forall w,
             snd (rule_month now query mm rm st1) !! "type" = Some (VStr w) ->
             w = "profit" \/ w = "loss").
  { intros w. unfold rule_month. destruct mm as [m|], rm as [r|];
      try apply I1.
    destruct (type_keyword query) as [k|] eqn:Ek; cbn [snd].
    - rewrite lookup_insert_eq. intros H. injection H as <-.
      eapply type_keyword_values, Ek.
    - rewrite !lookup_insert_ne by discriminate. apply I1. }
  generalize dependent (rule_month now query mm rm st1). intros st2 I2.
  assert (I3 : forall w,
             snd (rule_date query dm rm st2) !! "type" = Some (VStr w) ->
             w = "profit" \/ w = "loss").
  { intros w. unfold rule_date. destruct dm as [m|]; [|apply I2].
    destruct rm; [apply I2|].
    destruct (_extract_date_from_match _); [|apply I2].
    cbn [snd]. intros H. apply set_type_type in H as [H|H].
    - eapply type_keyword_values, H.
    - rewrite lookup_insert_ne in H by discriminate. apply I2, H. }
  generalize dependent (rule_date query dm rm st2). intros st3 I3.
  assert (I4 : forall w,
             snd (rule_amount now query st3) !! "type" = Some (VStr w) ->
             w = "profit" \/ w = "loss").
  { intros w. unfold rule_amount.
    destruct (Re.matches false amount_pattern query && negb _); [apply I3|].
    destruct (Re.matches false amount_pattern query && _); [|apply I3].
    destruct (Re.matches true today_pattern query); cbn [snd].
    - rewrite lookup_insert_ne by discriminate. apply I3.
    - rewrite lookup_insert_eq. intros H. discriminate H. }
  generalize dependent (rule_amount now query st3). intros st4 I4.
  intros H. injection H as H. intros Ht.
  assert (Hps : ps = snd (rule_report query mm dm rm st4))
    by (rewrite H; reflexivity).
  rewrite Hps in Ht. revert Ht. clear H Hps. unfold rule_report.
  destruct (Re.matches false report_pattern query && _); [|apply I4].
  destruct (Re.matches false profit_pattern query).
  { cbn [snd]. rewrite lookup_insert_eq. intros H. injection H as <-. auto. }
  destruct (Re.matches false loss_pattern query).
  { cbn [snd]. rewrite lookup_insert_eq. intros H. injection H as <-. auto. }
  destruct (_ && _); [|apply I4].
  cbn [snd]. rewrite lookup_insert_eq. intros H. discriminate H.
Qed.

Lemma get_text_type (now : Date.date) (query : string)
  (qt : query_type) (ps : params) (t : string) :
  _parse_query now query = Ok (qt, ps) ->
  get_text "type" ps = Some t -> t = "profit" \/ t = "loss".
Proof.
  intros Hc. unfold get_text.
  destruct (ps !! "type") as [[n|w|]|] eqn:E; intros H;
    try discriminate H.
  injection H as <-. exact (parse_query_type now query qt ps w Hc E).
Qed.

(** The records [get_records_by_type] keeps, seen by the later tests. *)
Lemma filter_has_type (t w : string) (l : list row_dict) :
  forall l',
    filter_r (has_type t) l = Ok l' ->
    filter_r (type_is w) l' = Ok (if (Str.lower t =? w)%string then l' else []).
Proof.
  induction l as [|d l IH]; intros l' H; cbn [filter_r] in H.
  - injection H as <-. destruct (_ =? _)%string; reflexivity.
  - destruct (has_type t d) as [keep|e] eqn:Ed; cbn [rbind] in H;
      [|discriminate H].
    destruct (filter_r (has_type t) l) as [rest|e]; cbn [rbind] in H;
      [|discriminate H].
    specialize (IH rest eq_refl).
    destruct keep; injection H as <-; [|exact IH].
    cbn [filter_r]. rewrite IH.
    unfold has_type in Ed. unfold type_is.
    destruct (item "type" d) as [c|e]; cbn [rbind] in *; [|discriminate Ed].
    destruct (cell_lower c) as [s|e]; cbn [rbind] in *; [|discriminate Ed].
    injection Ed as Ed. apply String.eqb_eq in Ed. subst s.
    destruct (Str.lower t =? w)%string; reflexivity.
Qed.

Lemma sum_amounts_nil : sum_amounts float_sum [] = Ok Int0.
Proof. reflexivity. Qed.

(** A report with a type filter holds one side only.  When the answer of
    [analyze] is a summary or a date report for [profit], its total of
    losses is the [0] of an empty sum whatever losses the store holds,
    and for [loss] its total of profits; the counts go the same way. *)
Theorem filtered_reports_are_one_sided (use_llm : bool) (now : Date.date)
  (question : string) (fs : filesys) (a : answer) (j : report) :
  fst (analyze use_llm generate_summary float_sum now question fs) = Ok a ->
  a_json a = Some j -> one_sided j.
Proof.
  intros Ha Hj. rewrite analyze_run in Ha.
  destruct (classify now question) as [[qt ps]|e] eqn:Hc;
    [|discriminate Ha].
  pose proof (get_text_type now (Str.lower question) qt ps) as Ht.
  specialize (fun t => Ht t Hc).
  destruct qt.
  - rewrite monthly_report_run in Ha. cbn [fst] in Ha.
    assert (Hk : forall l mn title year,
               monthly_answer use_llm generate_summary float_sum l mn title
                 year = Ok a -> one_sided j).
    { intros l mn title year H. unfold monthly_answer in H.
      destruct l as [|r l].
      - injection H as <-. discriminate Hj.
      - rbind_cases H. injection H as <-. cbn [a_json] in Hj.
        injection Hj as <-. exact I. }
    destruct (get_int "month" ps) as [m|]; [|eapply Hk, Ha].
    destruct (get_int "year" ps) as [y|]; [|eapply Hk, Ha].
    destruct (truthy_int (Some m) && truthy_int (Some y)); [|eapply Hk, Ha].
    destruct (filter_r _ (records fs)); cbn [rbind] in Ha; [|discriminate Ha].
    destruct (month_name_of m); cbn [rbind] in Ha; [|discriminate Ha].
    eapply Hk, Ha.
  - destruct (get_text "date" ps) as [d|]; [|discriminate Ha].
    rewrite date_report_run in Ha. cbn [fst] in Ha.
    destruct (filter_r (on_date d) (records fs)) as [l0|e];
      cbn [rbind] in Ha; [|discriminate Ha].
    destruct (get_text "type" ps) as [t|] eqn:Et.
    2:{ cbn [rbind] in Ha. unfold date_answer in Ha.
        destruct l0 as [|r l0].
        - injection Ha as <-. discriminate Hj.
        - rbind_cases Ha. injection Ha as <-. cbn [a_json] in Hj.
          injection Hj as <-. exact I. }
    destruct (Ht t eq_refl) as [-> | ->].
    + destruct (filter_r (has_type "profit") l0) as [l|e] eqn:El;
        cbn [rbind] in Ha; [|discriminate Ha].
      pose proof (filter_has_type "profit" "profit" l0 l El) as Hp.
      pose proof (filter_has_type "profit" "loss" l0 l El) as Hl.
      change (Str.lower "profit" =? "profit")%string with true in Hp.
      change (Str.lower "profit" =? "loss")%string with false in Hl.
      unfold date_answer in Ha. destruct l as [|r l].
      * injection Ha as <-. discriminate Hj.
      * rewrite Hp, Hl in Ha.
        destruct (sum_amounts float_sum (r :: l)) as [total|e] eqn:Es;
          cbn [rbind] in Ha; [|discriminate Ha].
        rewrite ?Es, sum_amounts_nil in Ha. cbn [rbind] in Ha.
        rewrite ?Es in Ha. cbn [rbind] in Ha.
        rbind_cases Ha. injection Ha as <-. cbn [a_json] in Hj.
        injection Hj as <-. cbn [one_sided truthy]. left. auto.
    + destruct (filter_r (has_type "loss") l0) as [l|e] eqn:El;
        cbn [rbind] in Ha; [|discriminate Ha].
      pose proof (filter_has_type "loss" "profit" l0 l El) as Hp.
      pose proof (filter_has_type "loss" "loss" l0 l El) as Hl.
      change (Str.lower "loss" =? "profit")%string with false in Hp.
      change (Str.lower "loss" =? "loss")%string with true in Hl.
      unfold date_answer in Ha. destruct l as [|r l].
      * injection Ha as <-. discriminate Hj.
      * rewrite Hp, Hl in Ha.
        destruct (sum_amounts float_sum (r :: l)) as [total|e] eqn:Es;
          cbn [rbind] in Ha; [|discriminate Ha].
        rewrite ?Es, sum_amounts_nil in Ha. cbn [rbind] in Ha.
        rewrite ?Es in Ha. cbn [rbind] in Ha.
        rbind_cases Ha. injection Ha as <-. cbn [a_json] in Hj.
        injection Hj as <-. cbn [one_sided truthy]. right. auto.
  - destruct (get_text "type" ps) as [t|]; [|discriminate Ha].
    rewrite type_report_run in Ha. cbn [fst] in Ha.
    assert (Hk : forall l mn title year,
               type_answer float_sum l t mn title year = Ok a -> one_sided j).
    { intros l mn title year H. unfold type_answer in H.
      destruct l as [|r l].
      - injection H as <-. discriminate Hj.
      - rbind_cases H. injection H as <-. cbn [a_json] in Hj.
        injection Hj as <-. exact I. }
    destruct (get_int "month" ps) as [m|].
    2:{ destruct (filter_r _ (records fs)); cbn [rbind] in Ha;
          [|discriminate Ha].
        eapply Hk, Ha. }
    destruct (get_int "year" ps) as [y|].
    2:{ destruct (filter_r _ (records fs)); cbn [rbind] in Ha;
          [|discriminate Ha].
        eapply Hk, Ha. }
    destruct (truthy_int (Some m) && truthy_int (Some y)).
    2:{ destruct (filter_r _ (records fs)); cbn [rbind] in Ha;
          [|discriminate Ha].
        eapply Hk, Ha. }
    destruct (filter_r _ (records fs)) as [l0|e]; cbn [rbind] in Ha;
      [|discriminate Ha].
    destruct (filter_r _ l0); cbn [rbind] in Ha; [|discriminate Ha].
    destruct (month_name_of m); cbn [rbind] in Ha; [|discriminate Ha].
    eapply Hk, Ha.
  - rewrite summary_run in Ha. cbn [fst] in Ha.
    destruct (get_text "type" ps) as [t|] eqn:Et.
    2:{ cbn [rbind] in Ha. unfold summary_answer in Ha.
        destruct (records fs) as [|r l].
        - injection Ha as <-. discriminate Hj.
        - rbind_cases Ha. injection Ha as <-. cbn [a_json] in Hj.
          injection Hj as <-. exact I. }
    destruct (Ht t eq_refl) as [-> | ->].
    + destruct (filter_r (has_type "profit") (records fs)) as [l|e] eqn:El;
        cbn [rbind] in Ha; [|discriminate Ha].
      pose proof (filter_has_type "profit" "profit" _ l El) as Hp.
      pose proof (filter_has_type "profit" "loss" _ l El) as Hl.
      change (Str.lower "profit" =? "profit")%string with true in Hp.
      change (Str.lower "profit" =? "loss")%string with false in Hl.
      unfold summary_answer in Ha. destruct l as [|r l].
      * injection Ha as <-. discriminate Hj.
      * rewrite Hp, Hl in Ha. cbn [rbind] in Ha.
        destruct (sum_amounts float_sum (r :: l)) as [total|e];
          cbn [rbind] in Ha; [|discriminate Ha].
        rewrite sum_amounts_nil in Ha. cbn [rbind] in Ha.
        injection Ha as <-. cbn [a_json] in Hj.
        injection Hj as <-. cbn [one_sided]. left. auto.
    + destruct (filter_r (has_type "loss") (records fs)) as [l|e] eqn:El;
        cbn [rbind] in Ha; [|discriminate Ha].
      pose proof (filter_has_type "loss" "profit" _ l El) as Hp.
      pose proof (filter_has_type "loss" "loss" _ l El) as Hl.
      change (Str.lower "loss" =? "profit")%string with false in Hp.
      change (Str.lower "loss" =? "loss")%string with true in Hl.
      unfold summary_answer in Ha. destruct l as [|r l].
      * injection Ha as <-. discriminate Hj.
      * rewrite Hp, Hl in Ha. cbn [rbind] in Ha.
        rewrite sum_amounts_nil in Ha. cbn [rbind] in Ha.
        destruct (sum_amounts float_sum (r :: l)) as [total|e];
          cbn [rbind] in Ha; [|discriminate Ha].
        injection Ha as <-. cbn [a_json] in Hj.
        injection Hj as <-. cbn [one_sided]. right. auto.
  - injection Ha as <-. discriminate Hj.
Qed.

(** *** The summarizer *)

(** The summarizer words monthly reports and nothing else.  When a
    question is answered with and without it, the two answers hold the
    same report, and they are the same answer, text and all, unless the
    question asks for a monthly report and records were found. *)
Theorem summarizer_words_monthly_reports_only (now : Date.date)
  (question : string) (fs : filesys) (a a' : answer) :
  fst (analyze true generate_summary float_sum now question fs) = Ok a ->
  fst (analyze false generate_summary float_sum now question fs) = Ok a' ->
  a_json a = a_json a'
  /\ ((forall ps, classify now question <> Ok (monthly_report, ps)) -> a = a')
  /\ (a_json a = None -> a = a').
Proof.
  intros Ha Ha'. rewrite analyze_run in Ha, Ha'.
  destruct (classify now question) as [[qt ps]|e] eqn:Hc;
    [|discriminate Ha].
  assert (Hsame : qt <> monthly_report -> a = a').
  { intros Hq. destruct qt; try contradiction;
      rewrite Ha in Ha'; injection Ha' as <-; reflexivity. }
  destruct qt;
    try (rewrite (Hsame ltac:(discriminate));
         split; [reflexivity|split; reflexivity]).
  clear Hsame.
  assert (Hk : forall l mn title year,
             monthly_answer true generate_summary float_sum l mn title year
             = Ok a ->
             monthly_answer false generate_summary float_sum l mn title year
             = Ok a' ->
             a_json a = a_json a' /\ (a_json a = None -> a = a')).
  { intros l mn title year H H'. unfold monthly_answer in H, H'.
    destruct l as [|r l].
    - rewrite H in H'. injection H' as <-. auto.
    - destruct (filter_r (type_is "profit") (r :: l)) as [profits|e];
        cbn [rbind] in H, H'; [|discriminate H].
      destruct (filter_r (type_is "loss") (r :: l)) as [losses|e];
        cbn [rbind] in H, H'; [|discriminate H].
      destruct (sum_amounts float_sum profits) as [total_profit|e];
        cbn [rbind] in H, H'; [|discriminate H].
      destruct (sum_amounts float_sum losses) as [total_loss|e];
        cbn [rbind] in H, H'; [|discriminate H].
      rbind_cases H. rbind_cases H'.
      injection H as <-. injection H' as <-. cbn [a_json].
      split; [reflexivity|]. intros K. discriminate K. }
  rewrite monthly_report_run in Ha, Ha'. cbn [fst] in Ha, Ha'.
  assert (Hj : a_json a = a_json a' /\ (a_json a = None -> a = a')).
  { destruct (get_int "month" ps) as [m|]; [|eapply Hk; eassumption].
    destruct (get_int "year" ps) as [y|]; [|eapply Hk; eassumption].
    destruct (truthy_int (Some m) && truthy_int (Some y));
      [|eapply Hk; eassumption].
    destruct (filter_r _ (records fs)); cbn [rbind] in Ha, Ha';
      [|discriminate Ha].
    destruct (month_name_of m); cbn [rbind] in Ha, Ha'; [|discriminate Ha].
    eapply Hk; eassumption. }
  destruct Hj as [Hj Hn]. split; [exact Hj|]. split; [|exact Hn].
  intros Hno. exfalso. apply (Hno ps). reflexivity.
Qed.

(** *** A saved record in the report of its date *)




(** *** A record without its date *)

Lemma filter_r_type_error (f : row_dict -> result bool) (l : list row_dict) :
  Forall (fun d => f d = Raise TypeError \/ exists b, f d = Ok b) l ->
  (exists d, In d l /\ f d = Raise TypeError) ->
  filter_r f l = Raise TypeError.
Proof.
  intros Hl. induction Hl as [|x l Hx Hl IH]; intros (d & Hin & Hd).
  - contradiction.
  - cbn [filter_r]. destruct Hx as [->|(b & Hb)]; [reflexivity|].
    rewrite Hb. cbn [rbind]. rewrite IH; [reflexivity|].
    destruct Hin as [->|Hin]; [|eauto].
    rewrite Hb in Hd. discriminate Hd.
Qed.

Lemma in_month_dated (y m : Z) (d : row_dict) (c : cell) :
  d !! "date" = Some c ->
  (in_month y m d = Raise TypeError \/ exists b, in_month y m d = Ok b)
  /\ (c = CNone -> in_month y m d = Raise TypeError).
Proof.
  intros Hd. unfold in_month, item. rewrite Hd. cbn [rbind].
  destruct c as [s|x|]; [|split; auto|split; auto].
  split; [|intros H; discriminate H]. right.
  destruct (strptime (CStr s)) as [rd|e] eqn:E; [eauto|].
  apply strptime_text_errors in E. subst e. eauto.
Qed.

Lemma records_of_store (fs : filesys) (rows : list (list string)) :
  file fs = Some (expected_header :: rows) -> readable fs = true ->
  records fs = read_dicts expected_header rows.
Proof.
  intros Hf Hr. rewrite records_visible. unfold visible.
  destruct (ensured_flags fs) as [Hr' _]. rewrite Hr', Hr.
  rewrite ensured_cases, Hf, Hr. cbn [andb].
  rewrite expected_header_normal, andb_false_r. reflexivity.
Qed.

Lemma zip_row_dated (row : list string) :
  exists c, zip_row expected_header row ∅ !! "date" = Some c.
Proof.
  destruct row as [|c1 [|c2 [|c3 [|c4 row]]]]; cbn [expected_header zip_row];
    eexists;
    repeat first [apply lookup_insert_eq
                 | rewrite lookup_insert_ne by discriminate].
Qed.

Lemma convert_amount_date (d d' : row_dict) :
  convert_amount d = Ok d' -> d' !! "date" = d !! "date".
Proof.
  unfold convert_amount.
  destruct (d !! "amount") as [[t|x|]|]; try (intros H; discriminate H).
  - destruct (Py.float_of_string t); cbn [rbind]; intros H;
      [|discriminate H].
    injection H as <-. apply lookup_insert_ne. discriminate.
  - intros H. injection H as <-. reflexivity.
Qed.

Lemma read_dicts_dated (rows : list (list string)) :
  Forall (fun d => exists c, d !! "date" = Some c)
    (read_dicts expected_header rows).
Proof.
  induction rows as [|row rows IH]; [constructor|].
  destruct row as [|c1 row]; [exact IH|].
  change (read_dicts expected_header ((c1 :: row) :: rows))
    with (match convert_amount (zip_row expected_header (c1 :: row) ∅) with
          | Ok d => d :: read_dicts expected_header rows
          | Raise _ => []
          end).
  destruct (convert_amount _) as [d|e] eqn:E; constructor; [|exact IH].
  rewrite (convert_amount_date _ _ E). apply zip_row_dated.
Qed.

Lemma read_dicts_short_row (rows : list (list string)) (c1 c2 : string) :
  forallb row_reads rows = true ->
  In [c1; c2] rows ->
  exists d,
    In d (read_dicts expected_header rows) /\ d !! "date" = Some CNone.
Proof.
  induction rows as [|row rows IH]; intros Hrows Hin; [contradiction|].
  cbn [forallb] in Hrows. apply andb_true_iff in Hrows as [Hrow Hrows].
  destruct row as [|c row].
  - destruct Hin as [Hin|Hin]; [discriminate Hin|]. exact (IH Hrows Hin).
  - change (read_dicts expected_header ((c :: row) :: rows))
      with (match convert_amount (zip_row expected_header (c :: row) ∅) with
            | Ok d => d :: read_dicts expected_header rows
            | Raise _ => []
            end).
    unfold row_reads in Hrow.
    destruct (convert_amount _) as [d|e] eqn:E; [|discriminate Hrow].
    destruct Hin as [Hin|Hin].
    + exists d. split; [left; reflexivity|].
      rewrite (convert_amount_date _ _ E). injection Hin as -> ->.
      cbn [expected_header zip_row].
      rewrite lookup_insert_ne by discriminate. apply lookup_insert_eq.
    + destruct (IH Hrows Hin) as (d' & Hd' & Hdate).
      exists d'. split; [right; exact Hd'|exact Hdate].
Qed.

(** One row that stops after the amount breaks every question about a
    month: in a store with its header and rows whose amounts all read,
    such a row makes the month query raise [TypeError], which nothing
    catches, and so does [analyze] on every question it takes for a
    monthly report or a type question. *)
Theorem row_without_date_breaks_month_questions (fs : filesys)
  (rows : list (list string)) (c1 c2 : string) :
  file fs = Some (expected_header :: rows) ->
  readable fs = true ->
  forallb row_reads rows = true ->
  In [c1; c2] rows ->
  (forall y m, fst (get_records_by_month y m fs) = Raise TypeError)
  /\ forall use_llm now question qt ps,
       Date.wf now ->
       classify now question = Ok (qt, ps) ->
       qt = monthly_report \/ qt = type_query ->
       fst (analyze use_llm generate_summary float_sum now question fs)
       = Raise TypeError.
Proof.
  intros Hf Hr Hrows Hrow.
  pose proof (records_of_store fs rows Hf Hr) as Hrec.
  assert (Hq : forall y m,
             filter_r (in_month y m) (records fs) = Raise TypeError).
  { intros y m. rewrite Hrec. apply filter_r_type_error.
    - eapply Forall_impl; [apply read_dicts_dated|]. intros x (c & Hc).
      apply (in_month_dated y m x c Hc).
    - destruct (read_dicts_short_row rows c1 c2 Hrows Hrow) as (d & Hin & Hd).
      exists d. split; [exact Hin|].
      apply (in_month_dated y m d CNone Hd). reflexivity. }
  split.
  { intros y m. rewrite by_month_run, Hq. reflexivity. }
  intros use_llm now question qt ps Hwf Hc Hqt.
  pose proof (parse_query_shape now (Str.lower question) qt ps Hc) as Hs.
  rewrite analyze_run, Hc.
  destruct Hqt as [-> | ->]; cbn [params_shape] in Hs.
  - destruct Hs as (m & y & Hps & _).
    assert (Hm : ps !! "month" = Some (VInt m)).
    { rewrite Hps. rewrite lookup_insert_ne by discriminate.
      apply lookup_insert_eq. }
    assert (Hy : ps !! "year" = Some (VInt y)).
    { rewrite Hps. apply lookup_insert_eq. }
    destruct (month_question now _ _ _ m y Hwf Hc Hm Hy)
      as (mm & name & _ & _ & _ & Ht & _ & _).
    rewrite monthly_report_run. unfold get_int.
    rewrite Hm, Hy, Ht, Hq. reflexivity.
  - destruct Hs as (m & y & w & Hps & _ & _).
    assert (Hm : ps !! "month" = Some (VInt m)).
    { rewrite Hps. rewrite !lookup_insert_ne by discriminate.
      apply lookup_insert_eq. }
    assert (Hy : ps !! "year" = Some (VInt y)).
    { rewrite Hps. rewrite lookup_insert_ne by discriminate.
      apply lookup_insert_eq. }
    assert (Hw : ps !! "type" = Some (VStr w)).
    { rewrite Hps. apply lookup_insert_eq. }
    destruct (month_question now _ _ _ m y Hwf Hc Hm Hy)
      as (mm & name & _ & _ & _ & Ht & _ & _).
    unfold get_text. rewrite Hw. rewrite type_report_run. unfold get_int.
    rewrite Hm, Hy, Ht, Hq. reflexivity.
Qed.

(** *** The records a report lists *)

Lemma filter_r_in {A : Type} (f : A -> result bool) (l : list A) (d : A) :
  forall l', filter_r f l = Ok l' -> In d l' -> In d l /\ f d = Ok true.
Proof.
  induction l as [|x l IH]; intros l' H Hin; cbn [filter_r] in H.
  - injection H as <-. contradiction.
  - destruct (f x) as [keep|e] eqn:Ex; cbn [rbind] in H; [|discriminate H].
    destruct (filter_r f l) as [rest|e]; cbn [rbind] in H; [|discriminate H].
    injection H as <-. destruct keep.
    + destruct Hin as [<-|Hin]; [split; [left; reflexivity|exact Ex]|].
      destruct (IH rest eq_refl Hin) as [H1 H2]. split; [right|]; assumption.
    + destruct (IH rest eq_refl Hin) as [H1 H2]. split; [right|]; assumption.
Qed.

Lemma monthly_answer_listed (use_llm : bool) (l : list row_dict)
  (month_name : option string) (title : string) (year : option Z)
  (a : answer) (j : report) (d : row_dict) :
  monthly_answer use_llm generate_summary float_sum l month_name title year
  = Ok a ->
  a_json a = Some j -> In d (listed j) ->
  In d l /\ exists p tp tl net pc lc ps ls,
              j = MonthlyReport p tp tl net pc lc ps ls.
Proof.
  unfold monthly_answer. destruct l as [|r l].
  - intros H. injection H as <-. intros K. discriminate K.
  - intros H.
    destruct (filter_r (type_is "profit") (r :: l)) as [profits|e] eqn:Ep;
      cbn [rbind] in H; [|discriminate H].
    destruct (filter_r (type_is "loss") (r :: l)) as [losses|e] eqn:El;
      cbn [rbind] in H; [|discriminate H].
    rbind_cases H. injection H as <-. cbn [a_json].
    intros K. injection K as <-. cbn [listed]. intros Hin.
    split; [|eauto 10].
    apply in_app_or in Hin as [Hin|Hin].
    + apply (filter_r_in _ _ _ _ Ep Hin).
    + apply (filter_r_in _ _ _ _ El Hin).
Qed.

Lemma date_answer_listed (l : list row_dict) (date : string)
  (transaction_type : option string) (a : answer) (j : report) :
  date_answer float_sum l date transaction_type = Ok a ->
  a_json a = Some j ->
  exists total tp tl net count,
    j = DateReport date transaction_type total tp tl net count l.
Proof.
  unfold date_answer. destruct l as [|r l].
  - intros H. injection H as <-. intros K. discriminate K.
  - intros H. rbind_cases H. injection H as <-. cbn [a_json].
    intros K. injection K as <-. eauto 10.
Qed.

Lemma type_answer_listed (l : list row_dict) (transaction_type : string)
  (month_name : option string) (title : string) (year : option Z)
  (a : answer) (j : report) :
  type_answer float_sum l transaction_type month_name title year = Ok a ->
  a_json a = Some j ->
  exists period total count,
    j = TypeReport transaction_type period total count l.
Proof.
  unfold type_answer. destruct l as [|r l].
  - intros H. injection H as <-. intros K. discriminate K.
  - intros H. rbind_cases H. injection H as <-. cbn [a_json].
    intros K. injection K as <-. eauto 10.
Qed.

Lemma summary_answer_listed (l : list row_dict)
  (transaction_type : option string) (a : answer) (j : report) :
  summary_answer float_sum l transaction_type = Ok a ->
  a_json a = Some j -> listed j = [].
Proof.
  unfold summary_answer. destruct l as [|r l].
  - intros H. injection H as <-. intros K. discriminate K.
  - intros H. rbind_cases H. injection H as <-. cbn [a_json].
    intros K. injection K as <-. reflexivity.
Qed.

(** A report lists only what the question asks for.  Every record in the
    report of an answer of [analyze] is a record of the store; in a
    monthly report and in a type report its date lies in the month the
    question names, of the year the question mentions or else of the
    current year; in a type report and in a date report with a type it
    has that type; in a date report it has the date of the report. *)
Theorem reports_list_what_was_asked (use_llm : bool) (now : Date.date)
  (question : string) (fs : filesys) (a : answer) (j : report)
  (d : row_dict) :
  Date.wf now ->
  fst (analyze use_llm generate_summary float_sum now question fs) = Ok a ->
  a_json a = Some j ->
  In d (listed j) ->
  In d (records fs) /\ asked now (Str.lower question) j d.
Proof.
  intros Hwf Ha Hj Hin. rewrite analyze_run in Ha.
  destruct (classify now question) as [[qt ps]|e] eqn:Hc;
    [|discriminate Ha].
  pose proof (parse_query_shape now (Str.lower question) qt ps Hc) as Hs.
  pose proof (get_text_type now (Str.lower question) qt ps) as Ht.
  specialize (fun t => Ht t Hc).
  destruct qt; cbn [params_shape] in Hs.
  - destruct Hs as (m & y & Hps & _).
    assert (Hm : ps !! "month" = Some (VInt m)).
    { rewrite Hps. rewrite lookup_insert_ne by discriminate.
      apply lookup_insert_eq. }
    assert (Hy : ps !! "year" = Some (VInt y)).
    { rewrite Hps. apply lookup_insert_eq. }
    destruct (month_question now _ _ _ m y Hwf Hc Hm Hy)
      as (mm0 & name & _ & _ & _ & Htr & _ & _).
    destruct (parse_query_month now _ _ _ m Hc Hm) as (mm & Hmm & Em).
    pose proof (parse_query_year now _ _ _ y Hc Hy) as Ey.
    rewrite monthly_report_run in Ha. unfold get_int in Ha.
    rewrite Hm, Hy, Htr in Ha. cbn [fst] in Ha.
    destruct (filter_r _ (records fs)) as [l|e] eqn:El; cbn [rbind] in Ha;
      [|discriminate Ha].
    destruct (month_name_of m); cbn [rbind] in Ha; [|discriminate Ha].
    destruct (monthly_answer_listed _ _ _ _ _ _ _ d Ha Hj Hin)
      as (Hl & p & tp & tl & net & pc & lc & profits & losses & ->).
    destruct (filter_r_in _ _ _ _ El Hl) as [Hrec Hmonth].
    split; [exact Hrec|]. cbn [asked]. exists mm. split; [exact Hmm|].
    rewrite <- Ey, <- Em. exact Hmonth.
  - destruct (get_text "date" ps) as [date|]; [|discriminate Ha].
    rewrite date_report_run in Ha. cbn [fst] in Ha.
    destruct (filter_r (on_date date) (records fs)) as [l0|e] eqn:E0;
      cbn [rbind] in Ha; [|discriminate Ha].
    destruct (get_text "type" ps) as [t|] eqn:Et.
    + assert (Hne : exists c t', t = String c t').
      { destruct (Ht t eq_refl) as [-> | ->]; eauto. }
      destruct Hne as (c & t' & ->).
      destruct (filter_r (has_type (String c t')) l0) as [l|e] eqn:El;
        cbn [rbind] in Ha; [|discriminate Ha].
      destruct (date_answer_listed _ _ _ _ _ Ha Hj)
        as (total & tp & tl & net & count & ->).
      cbn [listed] in Hin.
      destruct (filter_r_in _ _ _ _ El Hin) as [Hl0 Hty].
      destruct (filter_r_in _ _ _ _ E0 Hl0) as [Hrec Hdate].
      split; [exact Hrec|]. cbn [asked]. split; [exact Hdate|].
      intros t0 K. injection K as <-. exact Hty.
    + cbn [rbind] in Ha.
      destruct (date_answer_listed _ _ _ _ _ Ha Hj)
        as (total & tp & tl & net & count & ->).
      cbn [listed] in Hin.
      destruct (filter_r_in _ _ _ _ E0 Hin) as [Hrec Hdate].
      split; [exact Hrec|]. cbn [asked]. split; [exact Hdate|].
      intros t0 K. discriminate K.
  - destruct Hs as (m & y & w & Hps & _ & _).
    assert (Hm : ps !! "month" = Some (VInt m)).
    { rewrite Hps. rewrite !lookup_insert_ne by discriminate.
      apply lookup_insert_eq. }
    assert (Hy : ps !! "year" = Some (VInt y)).
    { rewrite Hps. rewrite lookup_insert_ne by discriminate.
      apply lookup_insert_eq. }
    destruct (month_question now _ _ _ m y Hwf Hc Hm Hy)
      as (mm0 & name & _ & _ & _ & Htr & _ & _).
    destruct (parse_query_month now _ _ _ m Hc Hm) as (mm & Hmm & Em).
    pose proof (parse_query_year now _ _ _ y Hc Hy) as Ey.
    destruct (get_text "type" ps) as [t|]; [|discriminate Ha].
    rewrite type_report_run in Ha. unfold get_int in Ha.
    rewrite Hm, Hy, Htr in Ha. cbn [fst] in Ha.
    destruct (filter_r _ (records fs)) as [l0|e] eqn:E0; cbn [rbind] in Ha;
      [|discriminate Ha].
    destruct (filter_r _ l0) as [l|e] eqn:El; cbn [rbind] in Ha;
      [|discriminate Ha].
    destruct (month_name_of m); cbn [rbind] in Ha; [|discriminate Ha].
    destruct (type_answer_listed _ _ _ _ _ _ _ Ha Hj)
      as (period & total & count & ->).
    cbn [listed] in Hin.
    destruct (filter_r_in _ _ _ _ El Hin) as [Hl0 Hty].
    destruct (filter_r_in _ _ _ _ E0 Hl0) as [Hrec Hmonth].
    split; [exact Hrec|]. cbn [asked]. split; [|exact Hty].
    exists mm. split; [exact Hmm|]. rewrite <- Ey, <- Em. exact Hmonth.
  - exfalso. rewrite summary_run in Ha. cbn [fst] in Ha.
    rbind_cases Ha.
    rewrite (summary_answer_listed _ _ _ _ Ha Hj) in Hin. contradiction.
  - injection Ha as <-. discriminate Hj.
Qed.

(** *** Told, then asked *)


End ReportProofs.

(** *** The reports on stores of a few rows *)

Import CSVManager QueryAnalyzer Reports.
Import Ledger Store StoreFull Questions Found Answers.
Import VoiceToDataAssistant.

(** A question about March put to a store with a profit of that month. *)
Lemma reports_are_about_one_month_witness :
  exists mm name,
    Re.search true month_pattern (Str.lower "Show me the report for March")
    = Some mm
    /\ option_map Str.lower (Re.group 1 mm) = Some name
    /\ "March 2024"%string
       = (Str.capitalize name ++ " "
            ++ Py.str_int
                 (mentioned_year
                    {| Date.year := 2024; Date.month := 5; Date.day := 2 |}
                    (Str.lower "Show me the report for March")))%string.
Proof.
  eapply (reports_are_about_one_month (fun _ _ _ => Raise OSError)
            (fun l => fold_left fadd l (S754_zero false)) false
            {| Date.year := 2024; Date.month := 5; Date.day := 2 |}
            "Show me the report for March"
            {| file := Some [expected_header;
                             ["profit"; "500.0"; "2024-03-15"; "old items"]];
               readable := true; writable := true |}).
  - reflexivity.
  - vm_compute. reflexivity.
  - cbn [a_json]. reflexivity.
  - reflexivity.
Defined.



(** A report on the profits asked of a store with a profit and a loss. *)
Lemma filtered_reports_are_one_sided_witness :
  one_sided
    (SummaryReport (Some "profit") (Flt (Py.float_of_Z 500)) Int0
       (Flt (Py.float_of_Z 500)) 1 0 1).
Proof.
  eapply (filtered_reports_are_one_sided (fun _ _ _ => Raise OSError)
            (fun l => fold_left fadd l (S754_zero false)) false
            {| Date.year := 2024; Date.month := 5; Date.day := 2 |}
            "Generate a monthly profit/loss report"
            {| file := Some [expected_header;
                             ["profit"; "500.0"; "2024-03-15"; "old items"];
                             ["loss"; "20.5"; "2024-03-16"; "groceries"]];
               readable := true; writable := true |}).
  - vm_compute. reflexivity.
  - vm_compute. reflexivity.
Defined.

(** A monthly report worded by a summarizer and by the template. *)
Lemma summarizer_words_monthly_reports_only_witness :
  let gs := fun (_ : list row_dict) (_ _ : string) => Ok "A good month." in
  let fsum := fun l => fold_left fadd l (S754_zero false) in
  let now := {| Date.year := 2024; Date.month := 5; Date.day := 2 |} in
  let fs := {| file := Some [expected_header;
                             ["profit"; "500.0"; "2024-03-15"; "old items"]];
               readable := true; writable := true |} in
  exists a a',
    fst (analyze true gs fsum now "Show me the report for March" fs) = Ok a
    /\ fst (analyze false gs fsum now "Show me the report for March" fs)
       = Ok a'
    /\ a_text a = "A good month."
    /\ a_json a = a_json a'
    /\ ((forall ps,
            classify now "Show me the report for March"
            <> Ok (monthly_report, ps)) -> a = a')
    /\ (a_json a = None -> a = a').
Proof.
  intros gs fsum now fs.
  eexists _, _. split; [vm_compute; reflexivity|].
  split; [vm_compute; reflexivity|]. split; [reflexivity|].
  apply (summarizer_words_monthly_reports_only gs fsum now
           "Show me the report for March" fs);
    vm_compute; reflexivity.
Defined.


(** A store whose second row stops after the amount. *)
Lemma row_without_date_breaks_month_questions_witness :
  let fs := {| file := Some [expected_header;
                             ["profit"; "500.0"; "2024-03-15"; "old items"];
                             ["loss"; "20.5"]];
               readable := true; writable := true |} in
  (forall y m, fst (get_records_by_month y m fs) = Raise TypeError)
  /\ forall use_llm now question qt ps,
       Date.wf now ->
       classify now question = Ok (qt, ps) ->
       qt = monthly_report \/ qt = type_query ->
       fst (analyze use_llm (fun _ _ _ => Raise OSError)
              (fun l => fold_left fadd l (S754_zero false))
              now question fs)
       = Raise TypeError.
Proof.
  intros fs.
  apply (row_without_date_breaks_month_questions
           (fun _ _ _ => Raise OSError)
           (fun l => fold_left fadd l (S754_zero false)) fs
           [["profit"; "500.0"; "2024-03-15"; "old items"]; ["loss"; "20.5"]]
           "loss" "20.5").
  - reflexivity.
  - reflexivity.
  - vm_compute. reflexivity.
  - right. left. reflexivity.
Defined.

(** A question about the profits of March put to a store with a profit of
    March, a loss of March and a profit of April. *)
Lemma reports_list_what_was_asked_witness :
  let now := {| Date.year := 2024; Date.month := 5; Date.day := 2 |} in
  let question := "Show me all profit details for March" in
  let fs := {| file := Some [expected_header;
                             ["profit"; "500.0"; "2024-03-15"; "old items"];
                             ["loss"; "20.5"; "2024-03-16"; "groceries"];
                             ["profit"; "7.25"; "2024-04-01"; "tips"]];
               readable := true; writable := true |} in
  let d := nth 0 (records fs) ∅ in
  In d (records fs)
  /\ asked now (Str.lower question)
       (TypeReport "profit" "March 2024" (Flt (Py.float_of_Z 500)) 1 [d]) d.
Proof.
  intros now question fs d.
  eapply (reports_list_what_was_asked (fun _ _ _ => Raise OSError)
            (fun l => fold_left fadd l (S754_zero false)) false
            now question fs).
  - reflexivity.
  - vm_compute. reflexivity.
  - vm_compute. reflexivity.
  - left. reflexivity.
Defined.


